(** * ServiPro authentication backend: a shallow embedding

    The development follows the TypeScript sources:
    - [modelos/*.modelo.ts]: the three Mongoose collections (users,
      verification codes, refresh tokens) with their schema setters,
      [required] validators and unique indexes;
    - [utilidades/respuestaEstandarizada.ts]: the response envelope;
    - [controladores/autenticacion.controlador.ts] and
      [controladores/accesoMaestro.controlador.ts]: the five handlers;
    - [middlewares/auth.middleware.ts], [middlewares/esAdmin.middleware.ts]
      and [rutas/admin.ruta.ts]: the guarded admin route;
    - [app.ts]: the not-found and global error middlewares.

    Handlers are written in a small state-and-exception monad over the
    database.  A thrown exception leaves the database as it was at the
    moment of the throw (Mongoose runs no transaction here), and the
    [try/catch] of every handler turns it into an error response.

    What lies outside the repository is taken as input: the values drawn
    by the random generators and the outcome of the SMS provider come with
    each request ([Entorno]); the string functions of the JavaScript
    runtime, [jsonwebtoken] and the ObjectId conversions are the fields of
    [Plataforma].  Database operations themselves do not fail, except for
    the errors the schemas raise (validators, unique indexes, casts). *)

From Stdlib Require Import List String Ascii Bool Arith PeanoNat NArith ZArith.
From Stdlib Require Import QArith Qround Lia DecimalString.
From Stdlib Require Decimal DecimalPos DecimalZ.
Import ListNotations.
Local Close Scope Q_scope.
Local Close Scope Z_scope.
Local Close Scope N_scope.
Local Open Scope string_scope.
Local Open Scope list_scope.

(** ** Documents *)

Definition ObjectId := nat.
(** Dates, in seconds. *)
Definition Fecha := N.

(** [rol: { enum: ['usuario', 'admin'] }] *)
Inductive Rol : Type := rol_usuario | rol_admin.

Definition Rol_eqb (a b : Rol) : bool :=
  match a, b with
  | rol_usuario, rol_usuario | rol_admin, rol_admin => true
  | _, _ => false
  end.

Module IUsuario.
Record t : Type := mk
  { _id : ObjectId;
    telefono : string;
    estaVerificado : bool;
    rol : Rol;
    creadoEn : Fecha;
    actualizadoEn : Fecha }.
End IUsuario.

Module ICodigoVerificacion.
Record t : Type := mk
  { _id : ObjectId;
    telefono : string;
    codigo : string;
    creadoEn : Fecha }.
End ICodigoVerificacion.

Module IRefreshToken.
Record t : Type := mk
  { _id : ObjectId;
    token : string;
    usuarioId : ObjectId;
    creadoEn : Fecha }.
End IRefreshToken.

(** The database: the three collections in natural (insertion) order.
    ObjectIds are generated so that none repeats; here they are drawn from
    a counter, [siguienteId]. *)
Record BD : Type := mkBD
  { usuarios : list IUsuario.t;
    codigos : list ICodigoVerificacion.t;
    refreshTokens : list IRefreshToken.t;
    siguienteId : ObjectId }.

Definition bdVacia : BD := mkBD [] [] [] 0.

(** ** Environment *)

(** [PayloadJWT] of [generarToken.ts]. *)
Record PayloadJWT : Type := mkPayload
  { p_usuarioId : string;
    p_telefono : string }.

(** [env] of [config/variables.ts] (the fields the handlers read). *)
Record Env : Type := mkEnv
  { JWT_SECRET : string;
    JWT_EXPIRATION : string;
    TWILIO_PHONE_NUMBER : string;
    CODIGO_MAESTRO : string;
    TELEFONO_ADMIN : string }.

(** Library functions the code calls. [normalizar] is the [trim] and
    [lowercase] setter pair of a [telefono] field, [recortar] the [trim]
    setter of [codigo]; Mongoose applies a field's setters to the values
    it stores and to the values of a query filter alike. *)
Record Plataforma : Type := mkPlataforma
  { normalizar : string -> string;
    recortar : string -> string;
    jwt_sign : PayloadJWT -> string -> string -> Fecha -> string;
    jwt_verify : string -> string -> Fecha -> option PayloadJWT;
    oidToString : ObjectId -> string;
    castObjectId : string -> option ObjectId }.

(** What one request draws from outside: the clock, the number
    [Math.random()] returns (a rational stands for the double), the bytes
    [crypto.randomBytes] draws (byte [i] of the buffer is
    [fuenteAleatoria i]), and whether the SMS provider rejects the
    message. *)
Record Entorno : Type := mkEntorno
  { ahora : Fecha;
    Math_random : Q;
    fuenteAleatoria : nat -> ascii;
    twilioFalla : bool }.

(** ** The handler monad *)

Inductive Excepcion : Type :=
| ErrorValidacion (campo : string)
| ErrorClaveDuplicada (campo : string)
| ErrorCast
| ErrorJWT
| ErrorGenerico (mensaje : string).

(** An attempt to send an SMS, with the database as it stood when the
    provider was called. *)
Inductive Evento : Type :=
| SmsIntentado (instante : BD) (destinatario cuerpoSms : string).

Inductive Resultado (A : Type) : Type :=
| Ok (a : A)
| Lanza (e : Excepcion).
Arguments Ok {A} a.
Arguments Lanza {A} e.

Definition M (A : Type) : Type := BD -> Resultado A * BD * list Evento.

Definition ret {A} (a : A) : M A := fun bd => (Ok a, bd, []).

Definition bind {A B} (m : M A) (k : A -> M B) : M B :=
  fun bd =>
    match m bd with
    | (Ok a, bd1, ev1) =>
        match k a bd1 with
        | (r, bd2, ev2) => (r, bd2, ev1 ++ ev2)
        end
    | (Lanza e, bd1, ev1) => (Lanza e, bd1, ev1)
    end.

Definition lanzar {A} (e : Excepcion) : M A := fun bd => (Lanza e, bd, []).

Definition leer {A} (f : BD -> A) : M A := fun bd => (Ok (f bd), bd, []).

Definition escribir (f : BD -> BD) : M unit := fun bd => (Ok tt, f bd, []).

(** [try { cuerpo } catch (error) { manejador }] *)
Definition intentar {A} (cuerpo : M A) (manejador : Excepcion -> M A) : M A :=
  fun bd =>
    match cuerpo bd with
    | (Ok a, bd1, ev1) => (Ok a, bd1, ev1)
    | (Lanza e, bd1, ev1) =>
        match manejador e bd1 with
        | (r, bd2, ev2) => (r, bd2, ev1 ++ ev2)
        end
    end.

Declare Scope monada_scope.
Delimit Scope monada_scope with monada.
Notation "x <- m ;; k" := (bind m (fun x => k))
  (at level 61, m at next level, right associativity) : monada_scope.
Notation "m ;;; k" := (bind m (fun _ => k))
  (at level 61, right associativity) : monada_scope.

(** ** [generarToken.ts]: the random generators *)

Definition hexDigito (n : nat) : ascii :=
  match n with
  | 0 => "0" | 1 => "1" | 2 => "2" | 3 => "3" | 4 => "4" | 5 => "5" | 6 => "6"
  | 7 => "7" | 8 => "8" | 9 => "9" | 10 => "a" | 11 => "b" | 12 => "c"
  | 13 => "d" | 14 => "e" | _ => "f"
  end%char.

(** [buffer.toString("hex")] *)
Fixpoint toStringHex (bytes : list ascii) : string :=
  match bytes with
  | [] => EmptyString
  | b :: resto =>
      String (hexDigito (nat_of_ascii b / 16))
        (String (hexDigito (nat_of_ascii b mod 16)) (toStringHex resto))
  end.

(** [crypto.randomBytes(n)] *)
Definition randomBytes (e : Entorno) (n : nat) : list ascii :=
  map (fuenteAleatoria e) (seq 0 n).

(** [crypto.randomBytes(40).toString("hex")] *)
Definition generarRefreshToken (e : Entorno) : string :=
  toStringHex (randomBytes e 40).

(** [Math.floor(100000 + Math.random() * 900000).toString()] *)
Definition generarCodigo (e : Entorno) : string :=
  NilZero.string_of_int
    (Z.to_int (Qfloor (100000 + Math_random e * 900000)%Q)).

Arguments generarRefreshToken : simpl never.
Arguments generarCodigo : simpl never.

(** ** Collection primitives *)

(** Remove the first element that satisfies [p] ([deleteOne]). *)
Fixpoint eliminarPrimero {A} (p : A -> bool) (l : list A) : list A :=
  match l with
  | [] => []
  | x :: l' => if p x then l' else x :: eliminarPrimero p l'
  end.

(** Replace the first element that satisfies [p] by its image under [f]
    (the update half of [findOneAndUpdate]). *)
Fixpoint actualizarPrimero {A} (p : A -> bool) (f : A -> A) (l : list A) : list A :=
  match l with
  | [] => []
  | x :: l' => if p x then f x :: l' else x :: actualizarPrimero p f l'
  end.

(** The [required] validator of a String path: the empty string fails. *)
Definition requerido (s : string) : bool := negb (s =? "").

(** [String.prototype.split] on a one-character separator. *)
Fixpoint split (sep : ascii) (s : string) : list string :=
  match s with
  | EmptyString => [EmptyString]
  | String c s' =>
      if Ascii.eqb c sep then EmptyString :: split sep s'
      else match split sep s' with
           | [] => [String c EmptyString]
           | h :: t => String c h :: t
           end
  end.

(** ** Response envelope ([respuestaEstandarizada.ts]) *)

Record ErrorDetalle : Type := mkDetalle
  { campo : string;
    detalle : string }.

Record UsuarioResumen : Type := mkResumen
  { res_id : ObjectId;
    res_telefono : string;
    res_rol : option Rol }.

Inductive Datos : Type :=
| DatosSesion (token refreshToken : string) (usuario : UsuarioResumen)
| DatosRenovacion (token refreshToken : string).

(** A JSON body. A field that the object does not have is [None];
    [datos: null] is [Some None]. *)
Record Cuerpo : Type := mkCuerpo
  { exito : bool;
    mensaje : string;
    datos : option (option Datos);
    codigo : option string;
    errores : option (list ErrorDetalle) }.

Record Respuesta : Type := mkRespuesta
  { status : nat;
    cuerpo : Cuerpo }.

Definition enviarRespuestaExitosa (mensaje : string) (datos : option Datos)
    (statusCode : nat) : Respuesta :=
  mkRespuesta statusCode
    {| exito := true; mensaje := mensaje; datos := Some datos;
       codigo := None; errores := None |}.

Definition enviarRespuestaError (mensaje codigo : string)
    (errores : option (list ErrorDetalle)) (statusCode : nat) : Respuesta :=
  mkRespuesta statusCode
    {| exito := false; mensaje := mensaje; datos := None;
       codigo := Some codigo;
       errores := errores |}.

(** ** Requests and middleware steps *)

(** The part of an Express request the guards read and write:
    [req.headers.authorization] and the injected [req.usuario]. *)
Record Peticion : Type := mkPeticion
  { authorization : option string;
    usuario : option IUsuario.t }.

(** A middleware either answers or calls [next()]. *)
Inductive Paso : Type :=
| Responde (r : Respuesta)
| Siguiente (req : Peticion).

(** The error object Express hands to the global error middleware. *)
Record ErrorExpress : Type := mkErrorExpress
  { err_status : option nat;
    err_message : string }.

(** Query filters on the verification-code collection. *)
Inductive FiltroCodigo : Type :=
| PorTelefono (telefono : string)
| PorTelefonoYCodigo (telefono codigo : string)
| PorId (id : ObjectId).

(** ** Request bodies and validation schemas
    ([autenticacion.validacion.ts])

    A string is read as its sequence of code units. *)

(** A JSON value, as far as the code tells values apart. *)
Inductive ValorJSON : Type :=
| JUndefined
| JNull
| JBoolean (b : bool)
| JNumber
| JString (s : string)
| JArray
| JObject.

(** [req.body] as [express.json()] leaves it: an object, read by its
    fields, or an array. *)
Inductive Body : Type :=
| BodyObjeto (campos : string -> ValorJSON)
| BodyArray.

(** [req.body[campo]] *)
Definition campoDe (body : Body) (campo : string) : ValorJSON :=
  match body with
  | BodyObjeto campos => campos campo
  | BodyArray => JUndefined
  end.

(** The string a field holds, for a handler that runs after validation
    has checked that it holds one. *)
Definition cadena (v : ValorJSON) : string :=
  match v with
  | JString s => s
  | _ => EmptyString
  end.

Definition cadenaOpcional (v : ValorJSON) : option string :=
  match v with
  | JString s => Some s
  | _ => None
  end.

Definition esDigito (c : ascii) : bool :=
  Nat.leb 48 (nat_of_ascii c) && Nat.leb (nat_of_ascii c) 57.

Definition esDigito1a9 (c : ascii) : bool :=
  Nat.leb 49 (nat_of_ascii c) && Nat.leb (nat_of_ascii c) 57.

Fixpoint todosDigitos (s : string) : bool :=
  match s with
  | EmptyString => true
  | String c s' => esDigito c && todosDigitos s'
  end.

(** [telefonoRegex = /^\+[1-9]\d{9,14}$/] *)
Definition telefonoRegex (s : string) : bool :=
  match s with
  | String c0 (String c1 resto) =>
      Ascii.eqb c0 "+" && esDigito1a9 c1 && todosDigitos resto
      && Nat.leb 9 (String.length resto) && Nat.leb (String.length resto) 14
  | _ => false
  end.




(** The check that follows [z.string().trim()] in a field of a schema. *)
Inductive Chequeo : Type :=
| Regex (mensaje : string)
| Length (n : nat) (mensaje : string)
| Min (n : nat) (mensaje : string).

(** [z.object({ campo: z.string().trim().chequeo, ... })] *)
Definition Esquema : Type := list (string * Chequeo).

Definition mensajeTelefono : string :=
  "El teléfono debe tener formato internacional, ej: +34600111222".

Definition registroSchema : Esquema :=
  [("telefono", Regex mensajeTelefono)].

Definition verificacionSchema : Esquema :=
  [("telefono", Regex mensajeTelefono);
   ("codigo", Length 6 "El código debe tener exactamente 6 dígitos")].

Definition loginSchema : Esquema :=
  [("telefono", Regex mensajeTelefono);
   ("codigo", Length 6 "El código debe tener exactamente 6 dígitos")].

Definition refreshSchema : Esquema :=
  [("refreshToken", Min 10 "El refresh token debe tener al menos 10 caracteres")].

Definition accesoMaestroSchema : Esquema :=
  [("codigo", Min 1 "El código maestro no puede estar vacío")].

Definition cumple (c : Chequeo) (s : string) : bool :=
  match c with
  | Regex _ => telefonoRegex s
  | Length n _ => Nat.eqb (String.length s) n
  | Min n _ => Nat.leb n (String.length s)
  end.

Definition mensajeDe (c : Chequeo) : string :=
  match c with
  | Regex m | Length _ m | Min _ m => m
  end.

(** An issue of a [ZodError]. *)
Record ZodIssue : Type := mkIssue
  { path : list string;
    message : string }.

(** What a validation middleware decides. *)
Inductive Decision : Type :=
| Rechaza (r : Respuesta)
| Pasa.

(** The routes of [app.ts], as Express resolves method and path; the
    master-access handler is mounted twice. *)
Inductive Endpoint : Type :=
| PostApiAccesoMaestro
| PostAutenticacionRegistro
| PostAutenticacionVerificar
| PostAutenticacionLogin
| PostAutenticacionRefresh
| PostAutenticacionAccesoMaestro
| GetApiAdminTest
| SinRuta.

Record SolicitudHTTP : Type := mkSolicitudHTTP
  { sol_endpoint : Endpoint;
    sol_body : Body;
    sol_authorization : option string }.

(** *** [variables.ts]: the environment the server starts with

    [process.env] maps names to strings. [Number] and the two tests the
    schema runs on its result are the runtime's. *)

Inductive NodeEnv : Type := Development | Production | Test.

Section Configuracion.

Variable Numero : Type.
Variable Number_ : string -> Numero.
Variable Number_isNaN : Numero -> bool.
Variable mayorQueCero : Numero -> bool.

(** [envParsed.data]; [v_env] holds the five variables the handlers read. *)
Record VariablesDeEntorno : Type := mkVariables
  { v_NODE_ENV : NodeEnv;
    v_PORT : Numero;
    v_MONGODB_URI : string;
    v_TWILIO_ACCOUNT_SID : string;
    v_TWILIO_AUTH_TOKEN : string;
    v_env : Env }.

(** [z.enum(["development", "production", "test"]).default("development")] *)
Definition zNodeEnv (v : option string) : option NodeEnv :=
  match v with
  | None => Some Development
  | Some s =>
      if s =? "development" then Some Development
      else if s =? "production" then Some Production
      else if s =? "test" then Some Test
      else None
  end.

(** [z.string().transform(Number).refine(val => !Number.isNaN(val) && val > 0)] *)
Definition zPort (v : option string) : option Numero :=
  match v with
  | None => None
  | Some s =>
      let val := Number_ s in
      if negb (Number_isNaN val) && mayorQueCero val then Some val else None
  end.

(** [z.string().min(n)] *)
Definition zStringMin (n : nat) (v : option string) : option string :=
  match v with
  | None => None
  | Some s => if Nat.leb n (String.length s) then Some s else None
  end.

(** [envSchema.safeParse(process.env)]: the data when it succeeds; on
    [None] the process exits with code 1. *)
Definition envSchema_safeParse (processEnv : string -> option string)
    : option VariablesDeEntorno :=
  match zNodeEnv (processEnv "NODE_ENV"),
        zPort (processEnv "PORT"),
        zStringMin 1 (processEnv "MONGODB_URI"),
        zStringMin 10 (processEnv "JWT_SECRET"),
        zStringMin 1 (processEnv "JWT_EXPIRATION"),
        zStringMin 1 (processEnv "TWILIO_ACCOUNT_SID"),
        zStringMin 1 (processEnv "TWILIO_AUTH_TOKEN"),
        zStringMin 1 (processEnv "TWILIO_PHONE_NUMBER"),
        zStringMin 1 (processEnv "CODIGO_MAESTRO"),
        zStringMin 1 (processEnv "TELEFONO_ADMIN") with
  | Some nodeEnv, Some port, Some uri, Some secreto, Some expira,
    Some sid, Some authToken, Some numero, Some maestro, Some admin =>
      Some {| v_NODE_ENV := nodeEnv;
              v_PORT := port;
              v_MONGODB_URI := uri;
              v_TWILIO_ACCOUNT_SID := sid;
              v_TWILIO_AUTH_TOKEN := authToken;
              v_env := {| JWT_SECRET := secreto;
                          JWT_EXPIRATION := expira;
                          TWILIO_PHONE_NUMBER := numero;
                          CODIGO_MAESTRO := maestro;
                          TELEFONO_ADMIN := admin |} |}
  | _, _, _, _, _, _, _, _, _, _ => None
  end.

End Configuracion.

(** ** A concrete platform and sample states

    Used to run the handlers on explicit inputs: ASCII versions of the
    string setters, a token format [secret.userId.phone] with no expiry,
    and decimal ObjectIds. *)

Definition esEspacio (c : ascii) : bool :=
  let n := nat_of_ascii c in
  Nat.eqb n 32 || (Nat.leb 9 n && Nat.leb n 13).

Fixpoint recortarInicio (s : string) : string :=
  match s with
  | EmptyString => EmptyString
  | String c s' => if esEspacio c then recortarInicio s' else s
  end.

Fixpoint recortarFin (s : string) : string :=
  match s with
  | EmptyString => EmptyString
  | String c s' =>
      match recortarFin s' with
      | EmptyString => if esEspacio c then EmptyString else String c EmptyString
      | r => String c r
      end
  end.

Definition recortarASCII (s : string) : string := recortarFin (recortarInicio s).

Definition minuscula (c : ascii) : ascii :=
  let n := nat_of_ascii c in
  if Nat.leb 65 n && Nat.leb n 90 then ascii_of_nat (n + 32) else c.

Fixpoint minusculas (s : string) : string :=
  match s with
  | EmptyString => EmptyString
  | String c s' => String (minuscula c) (minusculas s')
  end.

Definition firmarEjemplo (payload : PayloadJWT) (secreto _expira : string)
    (_ahora : Fecha) : string :=
  String.append secreto
    (String.append "." (String.append (p_usuarioId payload)
       (String.append "." (p_telefono payload)))).

Definition verificarEjemplo (token secreto : string) (_ahora : Fecha)
    : option PayloadJWT :=
  match split "."%char token with
  | [s; uid; tel] => if s =? secreto then Some (mkPayload uid tel) else None
  | _ => None
  end.

Definition plataformaEjemplo : Plataforma :=
  {| normalizar := fun s => minusculas (recortarASCII s);
     recortar := recortarASCII;
     jwt_sign := firmarEjemplo;
     jwt_verify := verificarEjemplo;
     oidToString := fun n => NilEmpty.string_of_uint (Nat.to_uint n);
     castObjectId := fun s => option_map Nat.of_uint (NilEmpty.uint_of_string s) |}.

Definition envEjemplo : Env :=
  {| JWT_SECRET := "secreto-de-prueba";
     JWT_EXPIRATION := "15m";
     TWILIO_PHONE_NUMBER := "+15005550006";
     CODIGO_MAESTRO := "codigo-maestro";
     TELEFONO_ADMIN := "+34600000000" |}.

Definition entornoEjemplo : Entorno :=
  {| ahora := 1000%N;
     Math_random := (425459 # 1000000)%Q;
     fuenteAleatoria := fun i => ascii_of_nat (7 * i + 161);
     twilioFalla := false |}.

Definition entornoSinSMS : Entorno :=
  {| ahora := 1001%N;
     Math_random := (425459 # 1000000)%Q;
     fuenteAleatoria := fun i => ascii_of_nat (11 * i + 5);
     twilioFalla := true |}.

Definition usuarioComun : IUsuario.t :=
  {| IUsuario._id := 0; IUsuario.telefono := "+34600111222";
     IUsuario.estaVerificado := false; IUsuario.rol := rol_usuario;
     IUsuario.creadoEn := 10%N; IUsuario.actualizadoEn := 10%N |}.

Definition usuarioAdmin : IUsuario.t :=
  {| IUsuario._id := 1; IUsuario.telefono := "+34600000000";
     IUsuario.estaVerificado := false; IUsuario.rol := rol_admin;
     IUsuario.creadoEn := 20%N; IUsuario.actualizadoEn := 20%N |}.

(** The admin phone, logged in through the ordinary flow first. *)
Definition usuarioTelefonoAdmin : IUsuario.t :=
  {| IUsuario._id := 0; IUsuario.telefono := "+34600000000";
     IUsuario.estaVerificado := false; IUsuario.rol := rol_usuario;
     IUsuario.creadoEn := 10%N; IUsuario.actualizadoEn := 10%N |}.

Definition bdEjemplo : BD :=
  {| usuarios := [usuarioComun; usuarioAdmin];
     codigos := [ {| ICodigoVerificacion._id := 2;
                     ICodigoVerificacion.telefono := "+34600111222";
                     ICodigoVerificacion.codigo := "111111";
                     ICodigoVerificacion.creadoEn := 900%N |} ];
     refreshTokens := [ {| IRefreshToken._id := 3;
                           IRefreshToken.token := "0f0f0f";
                           IRefreshToken.usuarioId := 0;
                           IRefreshToken.creadoEn := 30%N |} ];
     siguienteId := 4 |}.

Definition bdTelefonoAdminComun : BD :=
  {| usuarios := [usuarioTelefonoAdmin]; codigos := []; refreshTokens := [];
     siguienteId := 1 |}.

Definition codigoEjemplo : ICodigoVerificacion.t :=
  {| ICodigoVerificacion._id := 2;
     ICodigoVerificacion.telefono := "+34600111222";
     ICodigoVerificacion.codigo := "111111";
     ICodigoVerificacion.creadoEn := 900%N |}.

Definition sesionEjemplo : IRefreshToken.t :=
  {| IRefreshToken._id := 3; IRefreshToken.token := "0f0f0f";
     IRefreshToken.usuarioId := 0; IRefreshToken.creadoEn := 30%N |}.

(** A second draw of [Math.random]. *)
Definition entornoOtroCodigo : Entorno :=
  {| ahora := 1100%N;
     Math_random := (1 # 2)%Q;
     fuenteAleatoria := fun i => ascii_of_nat (3 * i + 17);
     twilioFalla := false |}.

(** A session that already holds the token the next draw will give. *)
Definition sesionChoque : IRefreshToken.t :=
  {| IRefreshToken._id := 4;
     IRefreshToken.token := generarRefreshToken entornoEjemplo;
     IRefreshToken.usuarioId := 0; IRefreshToken.creadoEn := 40%N |}.

Definition bdChoque : BD :=
  {| usuarios := [usuarioComun];
     codigos := [codigoEjemplo];
     refreshTokens := [sesionEjemplo; sesionChoque];
     siguienteId := 5 |}.

(** A session whose user is not stored. *)
Definition bdHuerfana : BD :=
  {| usuarios := [usuarioAdmin]; codigos := []; refreshTokens := [sesionEjemplo];
     siguienteId := 4 |}.

(** A [process.env] that passes [envSchema], and a [Number] that reads
    decimal integers. *)
Definition processEnvEjemplo (nombre : string) : option string :=
  if nombre =? "PORT" then Some "3000"
  else if nombre =? "MONGODB_URI" then Some "mongodb://localhost:27017/servipro"
  else if nombre =? "JWT_SECRET" then Some "secreto-de-prueba"
  else if nombre =? "JWT_EXPIRATION" then Some "15m"
  else if nombre =? "TWILIO_ACCOUNT_SID" then Some "AC00000000"
  else if nombre =? "TWILIO_AUTH_TOKEN" then Some "token-de-twilio"
  else if nombre =? "TWILIO_PHONE_NUMBER" then Some "+15005550006"
  else if nombre =? "CODIGO_MAESTRO" then Some "codigo-maestro"
  else if nombre =? "TELEFONO_ADMIN" then Some "+34600000000"
  else None.

Definition NumberEjemplo (s : string) : option Z :=
  option_map Z.of_int (NilZero.int_of_string s).

Definition esNaNEjemplo (n : option Z) : bool :=
  match n with Some _ => false | None => true end.

Definition mayorQueCeroEjemplo (n : option Z) : bool :=
  match n with Some z => Z.ltb 0 z | None => false end.

Definition zodEjemplo (_ : string) (_ : ValorJSON) : string := "Required".

Section Servidor.

Variable P : Plataforma.
Variable env : Env.

(** *** [usuario.modelo.ts] *)

Definition Usuario_findOne (telefono : string) : M (option IUsuario.t) :=
  leer (fun bd =>
    find (fun u => IUsuario.telefono u =? normalizar P telefono) (usuarios bd)).

Definition Usuario_findById (id : ObjectId) : M (option IUsuario.t) :=
  leer (fun bd => find (fun u => Nat.eqb (IUsuario._id u) id) (usuarios bd)).

(** [Usuario.findById] on a string: Mongoose casts it to an ObjectId
    and throws a CastError when it cannot. *)
Definition Usuario_findById_cadena (id : string) : M (option IUsuario.t) :=
  match castObjectId P id with
  | None => lanzar ErrorCast
  | Some i => Usuario_findById i
  end.

(** [new Usuario({ telefono, rol })]: setters and defaults applied, a
    fresh [_id] drawn. *)
Definition Usuario_new (e : Entorno) (telefono : string) (rol : option Rol)
    : M IUsuario.t :=
  fun bd =>
    (Ok {| IUsuario._id := siguienteId bd;
           IUsuario.telefono := normalizar P telefono;
           IUsuario.estaVerificado := false;
           IUsuario.rol := match rol with Some r => r | None => rol_usuario end;
           IUsuario.creadoEn := ahora e;
           IUsuario.actualizadoEn := ahora e |},
     mkBD (usuarios bd) (codigos bd) (refreshTokens bd) (S (siguienteId bd)),
     []).

(** [usuario.save()] of a new document: the [required] validator, then
    the insert under the unique index on [telefono]. *)
Definition Usuario_save (u : IUsuario.t) : M unit :=
  fun bd =>
    if negb (requerido (IUsuario.telefono u)) then
      lanzar (ErrorValidacion "telefono") bd
    else if existsb (fun v => IUsuario.telefono v =? IUsuario.telefono u)
                    (usuarios bd) then
      lanzar (ErrorClaveDuplicada "telefono") bd
    else
      (Ok tt,
       mkBD (usuarios bd ++ [u]) (codigos bd) (refreshTokens bd) (siguienteId bd),
       []).

(** *** [codigoVerificacion.modelo.ts] *)

Definition coincideCodigo (f : FiltroCodigo) (d : ICodigoVerificacion.t) : bool :=
  match f with
  | PorTelefono telefono =>
      ICodigoVerificacion.telefono d =? normalizar P telefono
  | PorTelefonoYCodigo telefono codigo =>
      (ICodigoVerificacion.telefono d =? normalizar P telefono)
      && (ICodigoVerificacion.codigo d =? recortar P codigo)
  | PorId id => Nat.eqb (ICodigoVerificacion._id d) id
  end.

Definition CodigoVerificacion_findOne (f : FiltroCodigo)
    : M (option ICodigoVerificacion.t) :=
  leer (fun bd => find (coincideCodigo f) (codigos bd)).

(** [findOneAndUpdate({ telefono }, { telefono, codigo, creadoEn },
    { upsert: true, new: true })]: the first document of that phone is
    overwritten in place, or a new one is inserted. Update validators
    are off by default, so [required] is not checked here. *)
Definition CodigoVerificacion_findOneAndUpdate (filtro : string)
    (telefono codigo : string) (creadoEn : Fecha) : M ICodigoVerificacion.t :=
  fun bd =>
    match find (coincideCodigo (PorTelefono filtro)) (codigos bd) with
    | Some d =>
        let d' := {| ICodigoVerificacion._id := ICodigoVerificacion._id d;
                     ICodigoVerificacion.telefono := normalizar P telefono;
                     ICodigoVerificacion.codigo := recortar P codigo;
                     ICodigoVerificacion.creadoEn := creadoEn |} in
        (Ok d',
         mkBD (usuarios bd)
              (actualizarPrimero (coincideCodigo (PorTelefono filtro))
                                 (fun _ => d') (codigos bd))
              (refreshTokens bd) (siguienteId bd),
         [])
    | None =>
        let d' := {| ICodigoVerificacion._id := siguienteId bd;
                     ICodigoVerificacion.telefono := normalizar P telefono;
                     ICodigoVerificacion.codigo := recortar P codigo;
                     ICodigoVerificacion.creadoEn := creadoEn |} in
        (Ok d',
         mkBD (usuarios bd) (codigos bd ++ [d']) (refreshTokens bd)
              (S (siguienteId bd)),
         [])
    end.

Definition CodigoVerificacion_deleteOne (f : FiltroCodigo) : M unit :=
  escribir (fun bd =>
    mkBD (usuarios bd) (eliminarPrimero (coincideCodigo f) (codigos bd))
         (refreshTokens bd) (siguienteId bd)).

(** *** [refreshToken.modelo.ts] *)

Definition RefreshToken_findOne (token : string) : M (option IRefreshToken.t) :=
  leer (fun bd => find (fun r => IRefreshToken.token r =? token) (refreshTokens bd)).

(** [RefreshToken.create({ token, usuarioId })]: [required], then the
    insert under the unique index on [token]; [creadoEn] defaults to
    [Date.now]. *)
Definition RefreshToken_create (e : Entorno) (token : string)
    (usuarioId : ObjectId) : M IRefreshToken.t :=
  fun bd =>
    if negb (requerido token) then
      lanzar (ErrorValidacion "token") bd
    else if existsb (fun r => IRefreshToken.token r =? token) (refreshTokens bd) then
      lanzar (ErrorClaveDuplicada "token") bd
    else
      let r := {| IRefreshToken._id := siguienteId bd;
                  IRefreshToken.token := token;
                  IRefreshToken.usuarioId := usuarioId;
                  IRefreshToken.creadoEn := ahora e |} in
      (Ok r,
       mkBD (usuarios bd) (codigos bd) (refreshTokens bd ++ [r])
            (S (siguienteId bd)),
       []).

Definition RefreshToken_deleteOne (id : ObjectId) : M unit :=
  escribir (fun bd =>
    mkBD (usuarios bd) (codigos bd)
         (eliminarPrimero (fun r => Nat.eqb (IRefreshToken._id r) id)
                          (refreshTokens bd))
         (siguienteId bd)).

(** *** [generarToken.ts] and [enviarSMS.ts] *)

Definition generarJWT (e : Entorno) (payload : PayloadJWT) : string :=
  jwt_sign P payload (JWT_SECRET env) (JWT_EXPIRATION env) (ahora e).

(** The provider is called with the database as it stands; any failure
    is rethrown as one generic error. *)
Definition enviarSMS (e : Entorno) (destinatario mensaje : string) : M unit :=
  fun bd =>
    (if twilioFalla e
     then Lanza (ErrorGenerico "No se pudo enviar el SMS. Intenta nuevamente.")
     else Ok tt,
     bd,
     [SmsIntentado bd destinatario mensaje]).

(** *** [autenticacion.controlador.ts] *)

Local Open Scope monada_scope.

Definition registrarUsuario (e : Entorno) (telefono : string) : M Respuesta :=
  intentar
    (let codigo := generarCodigo e in
     _ <- CodigoVerificacion_findOneAndUpdate telefono telefono codigo (ahora e) ;;
     enviarSMS e telefono
       (String.append "Tu código de verificación es: " codigo) ;;;
     ret (enviarRespuestaExitosa "Código enviado correctamente" None 200))
    (fun _ =>
       ret (enviarRespuestaError "Error interno del servidor"
              "ERROR_REGISTRO_USUARIO" None 400)).

Definition verificarUsuario (telefono codigo : string) : M Respuesta :=
  intentar
    (codigoEncontrado <-
       CodigoVerificacion_findOne (PorTelefonoYCodigo telefono codigo) ;;
     match codigoEncontrado with
     | None =>
         ret (enviarRespuestaError "Código incorrecto o expirado"
                "CODIGO_INVALIDO_O_EXPIRADO" None 400)
     | Some d =>
         CodigoVerificacion_deleteOne (PorId (ICodigoVerificacion._id d)) ;;;
         ret (enviarRespuestaExitosa "Código verificado correctamente" None 200)
     end)
    (fun _ =>
       ret (enviarRespuestaError "Error interno al verificar el código"
              "ERROR_VERIFICACION" None 400)).

Definition loginUsuario (e : Entorno) (telefono codigo : string) : M Respuesta :=
  intentar
    (codigoDoc <- CodigoVerificacion_findOne (PorTelefono telefono) ;;
     match codigoDoc with
     | None =>
         ret (enviarRespuestaError "Código inválido o expirado"
                "CODIGO_INVALIDO" None 400)
     | Some d =>
         if negb (ICodigoVerificacion.codigo d =? codigo) then
           ret (enviarRespuestaError "Código inválido o expirado"
                  "CODIGO_INVALIDO" None 400)
         else
           encontrado <- Usuario_findOne telefono ;;
           usuario <- match encontrado with
                      | Some u => ret u
                      | None =>
                          u <- Usuario_new e telefono None ;;
                          Usuario_save u ;;;
                          ret u
                      end ;;
           let token :=
             generarJWT e
               {| p_usuarioId := oidToString P (IUsuario._id usuario);
                  p_telefono := IUsuario.telefono usuario |} in
           let refreshTokenString := generarRefreshToken e in
           _ <- RefreshToken_create e refreshTokenString (IUsuario._id usuario) ;;
           CodigoVerificacion_deleteOne (PorTelefono telefono) ;;;
           ret (enviarRespuestaExitosa "Login exitoso"
                  (Some (DatosSesion token refreshTokenString
                           {| res_id := IUsuario._id usuario;
                              res_telefono := IUsuario.telefono usuario;
                              res_rol := None |}))
                  200)
     end)
    (fun _ =>
       ret (enviarRespuestaError "Error interno del servidor" "ERROR_LOGIN"
              None 400)).

Definition refrescarToken (e : Entorno) (refreshToken : string) : M Respuesta :=
  intentar
    (tokenEnBD <- RefreshToken_findOne refreshToken ;;
     match tokenEnBD with
     | None =>
         ret (enviarRespuestaError "Refresh token inválido o caducado"
                "REFRESH_TOKEN_INVALIDO" None 400)
     | Some t =>
         encontrado <- Usuario_findById (IRefreshToken.usuarioId t) ;;
         match encontrado with
         | None =>
             ret (enviarRespuestaError "Usuario no encontrado"
                    "USUARIO_NO_EXISTE" None 400)
         | Some usuario =>
             RefreshToken_deleteOne (IRefreshToken._id t) ;;;
             let nuevoJWT :=
               generarJWT e
                 {| p_usuarioId := oidToString P (IUsuario._id usuario);
                    p_telefono := IUsuario.telefono usuario |} in
             let nuevoRefreshToken := generarRefreshToken e in
             _ <- RefreshToken_create e nuevoRefreshToken (IUsuario._id usuario) ;;
             ret (enviarRespuestaExitosa "Token renovado correctamente"
                    (Some (DatosRenovacion nuevoJWT nuevoRefreshToken)) 200)
         end
     end)
    (fun _ =>
       ret (enviarRespuestaError "Error al procesar el refresh token"
              "ERROR_REFRESH_TOKEN" None 400)).

(** *** [accesoMaestro.controlador.ts]

    The handler is mounted twice, once behind [accesoMaestroSchema] and
    once (in [app.ts]) with no validation, so [req.body.codigo] may be
    anything; [None] stands for a body with no string there. *)

Definition accesoMaestro (e : Entorno) (codigo : option string) : M Respuesta :=
  intentar
    (if negb (match codigo with
              | Some c => c =? CODIGO_MAESTRO env
              | None => false
              end) then
       ret (enviarRespuestaError "Código incorrecto" "CODIGO_MAESTRO_INVALIDO"
              None 401)
     else
       encontrado <- Usuario_findOne (TELEFONO_ADMIN env) ;;
       usuario <- match encontrado with
                  | Some u => ret u
                  | None =>
                      u <- Usuario_new e (TELEFONO_ADMIN env) (Some rol_admin) ;;
                      Usuario_save u ;;;
                      ret u
                  end ;;
       let token :=
         generarJWT e
           {| p_usuarioId := oidToString P (IUsuario._id usuario);
              p_telefono := IUsuario.telefono usuario |} in
       let refreshToken := generarRefreshToken e in
       _ <- RefreshToken_create e refreshToken (IUsuario._id usuario) ;;
       ret (enviarRespuestaExitosa "Acceso maestro exitoso"
              (Some (DatosSesion token refreshToken
                       {| res_id := IUsuario._id usuario;
                          res_telefono := IUsuario.telefono usuario;
                          res_rol := Some (IUsuario.rol usuario) |}))
              200))
    (fun _ =>
       ret (enviarRespuestaError "Error interno del servidor"
              "ERROR_ACCESO_MAESTRO" None 400)).

(** *** [auth.middleware.ts] *)

Definition autenticarJWT (e : Entorno) (req : Peticion) : M Paso :=
  intentar
    (match authorization req with
     | None =>
         ret (Responde (enviarRespuestaError "Token no proporcionado"
                          "TOKEN_FALTANTE" None 401))
     | Some authHeader =>
         if (authHeader =? "") || negb (prefix "Bearer " authHeader) then
           ret (Responde (enviarRespuestaError "Token no proporcionado"
                            "TOKEN_FALTANTE" None 401))
         else
           match nth_error (split " "%char authHeader) 1 with
           | None => lanzar ErrorJWT
           | Some token =>
               match jwt_verify P token (JWT_SECRET env) (ahora e) with
               | None => lanzar ErrorJWT
               | Some payload =>
                   encontrado <- Usuario_findById_cadena (p_usuarioId payload) ;;
                   match encontrado with
                   | None =>
                       ret (Responde (enviarRespuestaError "Usuario no encontrado"
                                        "USUARIO_INVALIDO" None 401))
                   | Some u =>
                       ret (Siguiente {| authorization := authorization req;
                                         usuario := Some u |})
                   end
               end
           end
     end)
    (fun _ =>
       ret (Responde (enviarRespuestaError "Token inválido o expirado"
                        "TOKEN_INVALIDO" None 401))).

(** *** [esAdmin.middleware.ts]

    Nothing in the body can throw, so the 500 of its [catch] is never
    sent. *)

Definition esAdmin (req : Peticion) : Paso :=
  match usuario req with
  | None =>
      Responde (enviarRespuestaError "Usuario no autenticado"
                  "USUARIO_NO_AUTENTICADO" None 401)
  | Some u =>
      if negb (Rol_eqb (IUsuario.rol u) rol_admin) then
        Responde (enviarRespuestaError "Acceso restringido a administradores"
                    "ACCESO_NO_AUTORIZADO" None 403)
      else Siguiente req
  end.

(** *** [admin.ruta.ts]:
    [router.get('/test', autenticarJWT, esAdmin, handler)] *)

Definition manejadorAdminTest : Respuesta :=
  mkRespuesta 200
    {| exito := true;
       mensaje := "Acceso autorizado. ¡Sos un administrador!";
       datos := Some None; codigo := None; errores := None |}.

Definition adminTest (e : Entorno) (req : Peticion) : M Respuesta :=
  paso1 <- autenticarJWT e req ;;
  match paso1 with
  | Responde r => ret r
  | Siguiente req1 =>
      match esAdmin req1 with
      | Responde r => ret r
      | Siguiente _ => ret manejadorAdminTest
      end
  end.

(** *** [app.ts]: the last two middlewares *)

Definition rutaNoEncontrada : Respuesta :=
  mkRespuesta 404
    {| exito := false; mensaje := "Ruta no encontrada";
       datos := Some None; codigo := None; errores := None |}.

Definition errorGlobal (err : ErrorExpress) : Respuesta :=
  mkRespuesta
    (match err_status err with
     | Some (S n) => S n
     | _ => 500
     end)
    {| exito := false;
       mensaje := if err_message err =? "" then "Error interno del servidor"
                  else err_message err;
       datos := Some None; codigo := None; errores := None |}.

(** *** Running requests one after the other *)

Definition resultadoDe {A} (x : Resultado A * BD * list Evento) : Resultado A :=
  fst (fst x).
Definition bdDe {A} (x : Resultado A * BD * list Evento) : BD := snd (fst x).
Definition eventosDe {A} (x : Resultado A * BD * list Evento) : list Evento :=
  snd x.

Fixpoint secuencia {A} (ms : list (M A)) (bd : BD) : list (Resultado A) * BD :=
  match ms with
  | [] => ([], bd)
  | m :: ms' =>
      let x := m bd in
      let rest := secuencia ms' (bdDe x) in
      (resultadoDe x :: fst rest, snd rest)
  end.

(** *** What the database guarantees

    [_id] values are unique within a collection and below the next
    fresh one; the unique indexes hold. *)
Record bd_ok (bd : BD) : Prop := mk_bd_ok
  { ok_ids_usuarios : NoDup (map IUsuario._id (usuarios bd));
    ok_ids_codigos : NoDup (map ICodigoVerificacion._id (codigos bd));
    ok_ids_refresh : NoDup (map IRefreshToken._id (refreshTokens bd));
    ok_frescos_usuarios :
      Forall (fun u => IUsuario._id u < siguienteId bd) (usuarios bd);
    ok_frescos_codigos :
      Forall (fun d => ICodigoVerificacion._id d < siguienteId bd) (codigos bd);
    ok_frescos_refresh :
      Forall (fun r => IRefreshToken._id r < siguienteId bd) (refreshTokens bd);
    ok_telefono_unico : NoDup (map IUsuario.telefono (usuarios bd));
    ok_token_unico : NoDup (map IRefreshToken.token (refreshTokens bd)) }.

(** At most one pending code per phone: not an index, but what the
    upsert of [registrarUsuario] maintains. *)
Definition un_codigo_por_telefono (bd : BD) : Prop :=
  NoDup (map ICodigoVerificacion.telefono (codigos bd)).

(** A response that carries the session data of a user. *)
Definition sesionDe (r : Respuesta) : option (string * string * UsuarioResumen) :=
  match datos (cuerpo r) with
  | Some (Some (DatosSesion token refreshToken u)) => Some (token, refreshToken, u)
  | _ => None
  end.

(** The user [accesoMaestro] resolves: the first of the admin phone. *)
Definition adminDe (bd : BD) : option IUsuario.t :=
  find (fun u => IUsuario.telefono u =? normalizar P (TELEFONO_ADMIN env))
       (usuarios bd).

(** The refresh tokens handed out by a run of requests. *)
Definition tokensEmitidos (rs : list (Resultado Respuesta)) : list string :=
  flat_map (fun x => match x with
                     | Ok r => match sesionDe r with
                               | Some (_, refreshToken, _) => [refreshToken]
                               | None => []
                               end
                     | Lanza _ => []
                     end) rs.

(** A run of accepted master-access calls. *)
Definition corridaMaestra (es : list Entorno) (bd : BD)
    : list (Resultado Respuesta) * BD :=
  secuencia (map (fun e => accesoMaestro e (Some (CODIGO_MAESTRO env))) es) bd.

(** *** The states the server can be in

    The TTL indexes: MongoDB deletes a verification code 300 seconds and
    a refresh token 30 days after [creadoEn]. *)
Definition expirarTTL (t : Fecha) (bd : BD) : BD :=
  mkBD (usuarios bd)
       (filter (fun d => N.ltb t (ICodigoVerificacion.creadoEn d + 300))
               (codigos bd))
       (filter (fun r => N.ltb t (IRefreshToken.creadoEn r + 60 * 60 * 24 * 30))
               (refreshTokens bd))
       (siguienteId bd).

Inductive Solicitud : Type :=
| PostRegistro (telefono : string)
| PostVerificar (telefono codigo : string)
| PostLogin (telefono codigo : string)
| PostRefresh (refreshToken : string)
| PostAccesoMaestro (codigo : option string)
| GetAdminTest (req : Peticion).

Definition atender (e : Entorno) (s : Solicitud) : M Respuesta :=
  match s with
  | PostRegistro telefono => registrarUsuario e telefono
  | PostVerificar telefono codigo => verificarUsuario telefono codigo
  | PostLogin telefono codigo => loginUsuario e telefono codigo
  | PostRefresh refreshToken => refrescarToken e refreshToken
  | PostAccesoMaestro codigo => accesoMaestro e codigo
  | GetAdminTest req => adminTest e req
  end.

(** The states reached from the empty database by requests handled one
    after the other, with TTL deletions in between. *)
Inductive alcanzable : BD -> Prop :=
| alcanzable_vacia : alcanzable bdVacia
| alcanzable_solicitud bd e s :
    alcanzable bd -> alcanzable (bdDe (atender e s bd))
| alcanzable_ttl bd t :
    alcanzable bd -> alcanzable (expirarTTL t bd).

Definition bien_formada (bd : BD) : Prop :=
  bd_ok bd /\ un_codigo_por_telefono bd.

(** *** [validateRequest.middleware.ts]

    [zodInvalidType esperado recibido] is the message Zod gives an
    [invalid_type] issue. *)
Section Validacion.

Variable zodInvalidType : string -> ValorJSON -> string.

(** The issues of one field of [schema.parse(req.body)]. *)
Definition parseCampo (body : Body) (campo : string * Chequeo) : list ZodIssue :=
  match campoDe body (fst campo) with
  | JString s =>
      if cumple (snd campo) (recortar P s) then []
      else [mkIssue [fst campo] (mensajeDe (snd campo))]
  | v => [mkIssue [fst campo] (zodInvalidType "string" v)]
  end.

(** The issues of [schema.parse(req.body)], in the order of the shape. *)
Definition schema_parse (schema : Esquema) (body : Body) : list ZodIssue :=
  match body with
  | BodyArray => [mkIssue [] (zodInvalidType "object" JArray)]
  | BodyObjeto _ => flat_map (parseCampo body) schema
  end.

Definition validarRequest (schema : Esquema) (body : Body) : Decision :=
  match schema_parse schema body with
  | [] => Pasa
  | issues =>
      Rechaza
        (enviarRespuestaError "Error de validación en los datos enviados"
           "VALIDACION_DATOS_INVALIDOS"
           (Some (map (fun err => mkDetalle (String.concat "." (path err))
                                            (message err)) issues))
           400)
  end.

(** *** [autenticacion.ruta.ts], [accesoMaestro.ruta.ts], [admin.ruta.ts]
    and the mounts of [app.ts] *)

(** [router.post(ruta, validarRequest(schema), controlador)] *)
Definition conValidacion (schema : Esquema) (body : Body)
    (controlador : M Respuesta) : M Respuesta :=
  match validarRequest schema body with
  | Rechaza r => ret r
  | Pasa => controlador
  end.

Definition app (e : Entorno) (sol : SolicitudHTTP) : M Respuesta :=
  let body := sol_body sol in
  match sol_endpoint sol with
  | PostApiAccesoMaestro =>
      accesoMaestro e (cadenaOpcional (campoDe body "codigo"))
  | PostAutenticacionRegistro =>
      conValidacion registroSchema body
        (registrarUsuario e (cadena (campoDe body "telefono")))
  | PostAutenticacionVerificar =>
      conValidacion verificacionSchema body
        (verificarUsuario (cadena (campoDe body "telefono"))
                          (cadena (campoDe body "codigo")))
  | PostAutenticacionLogin =>
      conValidacion loginSchema body
        (loginUsuario e (cadena (campoDe body "telefono"))
                        (cadena (campoDe body "codigo")))
  | PostAutenticacionRefresh =>
      conValidacion refreshSchema body
        (refrescarToken e (cadena (campoDe body "refreshToken")))
  | PostAutenticacionAccesoMaestro =>
      conValidacion accesoMaestroSchema body
        (accesoMaestro e (cadenaOpcional (campoDe body "codigo")))
  | GetApiAdminTest =>
      adminTest e {| authorization := sol_authorization sol; usuario := None |}
  | SinRuta => ret rutaNoEncontrada
  end.

End Validacion.

(** *** States used to state what a handler leaves behind *)

(** After a successful login of [u]: the user found or appended, the
    code of the phone deleted, one session appended. *)
Definition trasLogin (e : Entorno) (telefono : string) (bd : BD)
    (u : IUsuario.t) (creado : bool) : BD :=
  {| usuarios := if creado then usuarios bd ++ [u] else usuarios bd;
     codigos := eliminarPrimero (coincideCodigo (PorTelefono telefono)) (codigos bd);
     refreshTokens :=
       refreshTokens bd ++
       [ {| IRefreshToken._id :=
              if creado then S (siguienteId bd) else siguienteId bd;
            IRefreshToken.token := generarRefreshToken e;
            IRefreshToken.usuarioId := IUsuario._id u;
            IRefreshToken.creadoEn := ahora e |} ];
     siguienteId :=
       if creado then S (S (siguienteId bd)) else S (siguienteId bd) |}.

(** The sessions left when the one of [_id] [id] is deleted. *)
Definition sinSesion (id : ObjectId) (bd : BD) : list IRefreshToken.t :=
  eliminarPrimero (fun r => Nat.eqb (IRefreshToken._id r) id) (refreshTokens bd).

(** After a successful rotation of session [s] for user [u]. *)
Definition trasRefresh (e : Entorno) (bd : BD) (s : IRefreshToken.t)
    (u : IUsuario.t) : BD :=
  {| usuarios := usuarios bd;
     codigos := codigos bd;
     refreshTokens :=
       sinSesion (IRefreshToken._id s) bd ++
       [ {| IRefreshToken._id := siguienteId bd;
            IRefreshToken.token := generarRefreshToken e;
            IRefreshToken.usuarioId := IUsuario._id u;
            IRefreshToken.creadoEn := ahora e |} ];
     siguienteId := S (siguienteId bd) |}.

(** *** What every stored user and session satisfies *)

(** No flow sets [estaVerificado], and [rol: 'admin'] is given only to a
    user created for the admin phone. *)
Definition usuario_legitimo (u : IUsuario.t) : Prop :=
  IUsuario.estaVerificado u = false
  /\ (IUsuario.rol u = rol_admin ->
      IUsuario.telefono u = normalizar P (TELEFONO_ADMIN env)).

Definition coherente (bd : BD) : Prop :=
  Forall usuario_legitimo (usuarios bd)
  /\ Forall (fun s => In (IRefreshToken.usuarioId s)
                         (map IUsuario._id (usuarios bd)))
            (refreshTokens bd).

(** One step of the server, as far as users and sessions go. *)
Definition paso_coherente (bd bd' : BD) : Prop :=
  (exists us,
      usuarios bd' = usuarios bd ++ us
      /\ List.length us <= 1
      /\ Forall usuario_legitimo us)
  /\ Forall (fun r => In r (refreshTokens bd)
                      \/ In (IRefreshToken.usuarioId r)
                            (map IUsuario._id (usuarios bd')))
            (refreshTokens bd').

(** The schema a route validates the body with. *)
Definition esquemaDe (ep : Endpoint) : option Esquema :=
  match ep with
  | PostAutenticacionRegistro => Some registroSchema
  | PostAutenticacionVerificar => Some verificacionSchema
  | PostAutenticacionLogin => Some loginSchema
  | PostAutenticacionRefresh => Some refreshSchema
  | PostAutenticacionAccesoMaestro => Some accesoMaestroSchema
  | PostApiAccesoMaestro | GetApiAdminTest | SinRuta => None
  end.

(** ** Shapes of the generated values *)


(** [0-9a-f] *)
Definition esHex (c : ascii) : bool :=
  esDigito c || (Nat.leb 97 (nat_of_ascii c) && Nat.leb (nat_of_ascii c) 102).

Fixpoint todosHex (s : string) : bool :=
  match s with
  | EmptyString => true
  | String c s' => esHex c && todosHex s'
  end.

(** No space in the string. *)
Fixpoint sinEspacios (s : string) : bool :=
  match s with
  | EmptyString => true
  | String c s' => negb (Ascii.eqb c " ") && sinEspacios s'
  end.

(** The HTTP status a run answered with. *)
Definition status_de (x : Resultado Respuesta * BD * list Evento) : option nat :=
  match resultadoDe x with
  | Ok r => Some (status r)
  | Lanza _ => None
  end.

Ltac desplegar :=
  unfold bdDe, resultadoDe, eventosDe, intentar, bind, ret, leer, escribir,
    lanzar; simpl.

(** ** Lemmas on the collection primitives *)

Lemma find_app_nuevo {A} (p : A -> bool) (l : list A) (x : A) :
  find p l = None -> p x = true -> find p (l ++ [x]) = Some x.
Proof.
  induction l as [|a l IH]; simpl; intros Hn Hx.
  - now rewrite Hx.
  - destruct (p a); [discriminate | auto].
Qed.

Lemma find_actualizarPrimero {A} (p : A -> bool) (f : A -> A) (l : list A) (x : A) :
  find p l = Some x -> p (f x) = true ->
  find p (actualizarPrimero p f l) = Some (f x).
Proof.
  induction l as [|a l IH]; simpl; [discriminate|].
  destruct (p a) eqn:Ha; intros Hf Hp.
  - injection Hf as ->. simpl. now rewrite Hp.
  - simpl. rewrite Ha. auto.
Qed.

Lemma find_existsb {A} (p : A -> bool) (l : list A) :
  existsb p l = match find p l with Some _ => true | None => false end.
Proof.
  induction l as [|a l IH]; simpl; [reflexivity|].
  destruct (p a); auto.
Qed.

Lemma find_ausente {A} (k : A -> string) (l : list A) (s : string) :
  find (fun x => k x =? s) l = None <-> ~ In s (map k l).
Proof.
  induction l as [|a l IH]; simpl; [tauto|].
  destruct (k a =? s) eqn:Ha.
  - apply String.eqb_eq in Ha. split; [discriminate | tauto].
  - apply String.eqb_neq in Ha. tauto.
Qed.

Lemma existsb_ausente {A} (k : A -> string) (l : list A) (s : string) :
  existsb (fun x => k x =? s) l = false -> ~ In s (map k l).
Proof.
  rewrite find_existsb. intros H. apply find_ausente.
  destruct (find _ l); [discriminate | reflexivity].
Qed.

Lemma In_eliminarPrimero {A} (p : A -> bool) (l : list A) (y : A) :
  In y (eliminarPrimero p l) -> In y l.
Proof.
  induction l as [|a l IH]; simpl; [tauto|].
  destruct (p a); simpl; intuition.
Qed.

Lemma NoDup_map_iguales {A B} (f : A -> B) (l : list A) (x y : A) :
  NoDup (map f l) -> In x l -> In y l -> f x = f y -> x = y.
Proof.
  induction l as [|a l IH]; simpl; [tauto|].
  intros Hnd Hx Hy Hf.
  apply NoDup_cons_iff in Hnd as [Hna Hnd].
  destruct Hx as [->|Hx], Hy as [->|Hy]; auto.
  - exfalso. apply Hna. rewrite Hf. now apply in_map.
  - exfalso. apply Hna. rewrite <- Hf. now apply in_map.
Qed.

(** With unique keys, deleting by key removes every element of that key. *)
Lemma eliminarPrimero_clave {A} (k : A -> nat) (l : list A) (n : nat) (y : A) :
  NoDup (map k l) ->
  In y (eliminarPrimero (fun x => Nat.eqb (k x) n) l) -> k y <> n.
Proof.
  induction l as [|a l IH]; simpl; [tauto|].
  intros Hnd Hy.
  apply NoDup_cons_iff in Hnd as [Hna Hnd].
  destruct (Nat.eqb (k a) n) eqn:Ha.
  - apply Nat.eqb_eq in Ha. subst n. intros Heq. apply Hna.
    rewrite <- Heq. now apply in_map.
  - destruct Hy as [->|Hy]; [now apply Nat.eqb_neq | auto].
Qed.

Lemma NoDup_map_eliminarPrimero {A B} (clave : A -> B) (cond : A -> bool)
    (docs : list A) :
  NoDup (map clave docs) -> NoDup (map clave (eliminarPrimero cond docs)).
Proof.
  induction docs as [|d docs IH]; simpl; [auto|].
  intros Hnd. apply NoDup_cons_iff in Hnd as [Hna Hnd].
  destruct (cond d); [assumption|].
  simpl. constructor; [|auto].
  intros Hin. apply Hna. apply in_map_iff in Hin as (y & <- & Hy).
  apply in_map. eapply In_eliminarPrimero; eauto.
Qed.

Lemma find_Some_In {A} (p : A -> bool) (l : list A) (x : A) :
  find p l = Some x -> In x l /\ p x = true.
Proof. apply find_some. Qed.

Lemma find_None_todos {A} (p : A -> bool) (l : list A) :
  (forall y, In y l -> p y = false) -> find p l = None.
Proof.
  induction l as [|a l IH]; simpl; [reflexivity|].
  intros H. rewrite (H a) by auto. apply IH. auto.
Qed.

Lemma map_actualizarPrimero {A B} (g : A -> B) (p : A -> bool) (l : list A)
    (x y : A) :
  find p l = Some x -> g y = g x ->
  map g (actualizarPrimero p (fun _ => y) l) = map g l.
Proof.
  induction l as [|a l IH]; simpl; [discriminate|].
  destruct (p a) eqn:Ha; simpl; intros Hf Hg.
  - injection Hf as ->. now rewrite Hg.
  - now rewrite IH.
Qed.

Lemma NoDup_map_app_nuevo {A B} (f : A -> B) (l : list A) (x : A) :
  NoDup (map f l) -> ~ In (f x) (map f l) -> NoDup (map f (l ++ [x])).
Proof.
  induction l as [|a l IH]; simpl; intros Hnd Hx.
  - constructor; [tauto | constructor].
  - apply NoDup_cons_iff in Hnd as [Hna Hnd].
    constructor.
    + rewrite map_app, in_app_iff. simpl. intuition.
    + apply IH; tauto.
Qed.

Lemma id_fresco {A} (k : A -> nat) (l : list A) (n : nat) :
  Forall (fun x => k x < n) l -> ~ In n (map k l).
Proof.
  intros Hall Hin. apply in_map_iff in Hin as (x & Hk & Hx).
  rewrite Forall_forall in Hall. specialize (Hall x Hx). lia.
Qed.

Lemma find_conjuncion {A} (p q : A -> bool) (l : list A) (x : A) :
  find p l = Some x -> q x = true -> find (fun y => p y && q y) l = Some x.
Proof.
  induction l as [|a l IH]; simpl; [discriminate|].
  destruct (p a) eqn:Ha; simpl; intros Hf Hq.
  - injection Hf as ->. now rewrite Hq.
  - auto.
Qed.

Lemma find_conjuncion_ninguno {A} (p q : A -> bool) (l : list A) :
  find p l = None -> find (fun y => p y && q y) l = None.
Proof.
  induction l as [|a l IH]; simpl; [reflexivity|].
  destruct (p a); simpl; [discriminate | auto].
Qed.

Lemma NoDup_map_filter {A B} (clave : A -> B) (vigente : A -> bool) (docs : list A) :
  NoDup (map clave docs) -> NoDup (map clave (filter vigente docs)).
Proof.
  induction docs as [|d docs IH]; simpl; [auto|].
  intros Hnd. apply NoDup_cons_iff in Hnd as [Hna Hnd].
  destruct (vigente d); simpl; [|auto].
  constructor; [|auto].
  intros Hin. apply Hna. apply in_map_iff in Hin as (y & <- & Hy).
  apply in_map. now apply filter_In in Hy.
Qed.

Lemma Forall_eliminarPrimero {A} (Q : A -> Prop) (p : A -> bool) (l : list A) :
  Forall Q l -> Forall Q (eliminarPrimero p l).
Proof.
  intros H. apply Forall_forall. intros y Hy.
  rewrite Forall_forall in H. eapply H, In_eliminarPrimero, Hy.
Qed.

Lemma Forall_filtro {A} (Q : A -> Prop) (p : A -> bool) (l : list A) :
  Forall Q l -> Forall Q (filter p l).
Proof.
  intros H. apply Forall_forall. intros y Hy.
  rewrite Forall_forall in H. apply H. now apply filter_In in Hy.
Qed.

Lemma Forall_menor_S {A} (k : A -> nat) (n : nat) (l : list A) :
  Forall (fun x => k x < n) l -> Forall (fun x => k x < S n) l.
Proof. apply Forall_impl. intros; lia. Qed.

Lemma Forall_app_nuevo {A} (Q : A -> Prop) (l : list A) (x : A) :
  Forall Q l -> Q x -> Forall Q (l ++ [x]).
Proof. intros Hl Hx. apply Forall_app. auto. Qed.

Lemma Forall_mismas_claves {A} (k : A -> nat) (n : nat) (l l' : list A) :
  map k l' = map k l ->
  Forall (fun x => k x < n) l -> Forall (fun x => k x < n) l'.
Proof.
  intros Hm H.
  apply (Forall_map k (fun i => i < n)). rewrite Hm.
  now apply (Forall_map k (fun i => i < n)).
Qed.

Lemma find_ausente_1 {A} (k : A -> string) (l : list A) (s : string) :
  find (fun x => k x =? s) l = None -> ~ In s (map k l).
Proof. apply find_ausente. Qed.

Lemma prefix_cons a s1 b s2 :
  prefix (String a s1) (String b s2) = true -> a = b /\ prefix s1 s2 = true.
Proof.
  change (prefix (String a s1) (String b s2))
    with (if Ascii.ascii_dec a b then prefix s1 s2 else false).
  destruct (Ascii.ascii_dec a b); [auto | discriminate].
Qed.

Lemma split_no_vacio sep s : split sep s <> [].
Proof.
  destruct s as [|c s]; simpl; [discriminate|].
  destruct (Ascii.eqb c sep); [discriminate|].
  destruct (split sep s); discriminate.
Qed.

Lemma bearer_tiene_token h :
  prefix "Bearer " h = true -> exists tok, nth_error (split " "%char h) 1 = Some tok.
Proof.
  intros Hp.
  do 7 (destruct h as [|c h]; [discriminate|];
        apply prefix_cons in Hp as [<- Hp]).
  simpl.
  destruct (split " "%char h) as [|x l] eqn:E; simpl; [|eauto].
  now apply split_no_vacio in E.
Qed.

(** ** The generators *)

(** A refresh token is never empty: it passes [required]. *)
Lemma generarRefreshToken_requerido e : requerido (generarRefreshToken e) = true.
Proof. reflexivity. Qed.


(** Split on the innermost scrutinee of a hypothesis, or of the goal. *)
Ltac sin_match t :=
  lazymatch t with
  | context [match _ with _ => _ end] => fail
  | _ => idtac
  end.

Ltac por_casos H :=
  repeat match type of H with
         | context [match ?t with _ => _ end] =>
             sin_match t; destruct t; simpl in H
         end.

Ltac casos_meta :=
  repeat match goal with
         | |- context [match ?t with _ => _ end] =>
             sin_match t; destruct t eqn:?; simpl
         end.

(** ** The handlers, one case at a time *)

(** *** Verify *)

Lemma verificarUsuario_fallo telefono codigo bd :
  find (coincideCodigo (PorTelefonoYCodigo telefono codigo)) (codigos bd) = None ->
  verificarUsuario telefono codigo bd =
    (Ok (enviarRespuestaError "Código incorrecto o expirado"
           "CODIGO_INVALIDO_O_EXPIRADO" None 400), bd, []).
Proof.
  intros H. unfold verificarUsuario, CodigoVerificacion_findOne. desplegar.
  now rewrite H.
Qed.

Lemma verificarUsuario_exito telefono codigo bd d :
  find (coincideCodigo (PorTelefonoYCodigo telefono codigo)) (codigos bd) = Some d ->
  verificarUsuario telefono codigo bd =
    (Ok (enviarRespuestaExitosa "Código verificado correctamente" None 200),
     mkBD (usuarios bd)
          (eliminarPrimero (coincideCodigo (PorId (ICodigoVerificacion._id d)))
                           (codigos bd))
          (refreshTokens bd) (siguienteId bd),
     []).
Proof.
  intros H.
  unfold verificarUsuario, CodigoVerificacion_findOne, CodigoVerificacion_deleteOne.
  desplegar. now rewrite H.
Qed.

(** C6. Verify neither reads nor writes the users: whatever the state
    and the input, the users (and the refresh sessions) after the call
    are those before it, the outcome is the same under any other user
    collection, nothing is sent, and the one change to the database is
    the deletion of the matched verification code. *)
Theorem verificar_no_toca_identidades telefono codigo bd :
  usuarios (bdDe (verificarUsuario telefono codigo bd)) = usuarios bd
  /\ refreshTokens (bdDe (verificarUsuario telefono codigo bd)) = refreshTokens bd
  /\ eventosDe (verificarUsuario telefono codigo bd) = []
  /\ (forall us,
        resultadoDe (verificarUsuario telefono codigo
                       (mkBD us (codigos bd) (refreshTokens bd) (siguienteId bd)))
        = resultadoDe (verificarUsuario telefono codigo bd)
        /\ codigos (bdDe (verificarUsuario telefono codigo
                       (mkBD us (codigos bd) (refreshTokens bd) (siguienteId bd))))
           = codigos (bdDe (verificarUsuario telefono codigo bd)))
  /\ match find (coincideCodigo (PorTelefonoYCodigo telefono codigo)) (codigos bd) with
     | None => bdDe (verificarUsuario telefono codigo bd) = bd
     | Some d =>
         codigos (bdDe (verificarUsuario telefono codigo bd))
         = eliminarPrimero (fun x => Nat.eqb (ICodigoVerificacion._id x)
                                             (ICodigoVerificacion._id d))
                           (codigos bd)
     end.
Proof.
  destruct (find (coincideCodigo (PorTelefonoYCodigo telefono codigo)) (codigos bd))
    as [d|] eqn:Hf.
  - rewrite (verificarUsuario_exito _ _ _ _ Hf).
    repeat split; try reflexivity;
      rewrite (verificarUsuario_exito telefono codigo (mkBD us _ _ _) d Hf);
      reflexivity.
  - rewrite (verificarUsuario_fallo _ _ _ Hf).
    repeat split; try reflexivity;
      rewrite (verificarUsuario_fallo telefono codigo (mkBD us _ _ _) Hf);
      reflexivity.
Qed.

(** *** Login, rejected *)

(** C10. Login is atomic on a credential failure: when the phone has no
    pending code, or the code stored for it differs from the one sent,
    the answer is CODIGO_INVALIDO and the database is left exactly as it
    was (no user, no session, the pending code still there). *)
Theorem login_fallo_sin_efectos e telefono codigo bd :
  (find (coincideCodigo (PorTelefono telefono)) (codigos bd) = None
   \/ exists d, find (coincideCodigo (PorTelefono telefono)) (codigos bd) = Some d
                /\ ICodigoVerificacion.codigo d <> codigo) ->
  loginUsuario e telefono codigo bd =
    (Ok (enviarRespuestaError "Código inválido o expirado" "CODIGO_INVALIDO"
           None 400), bd, []).
Proof.
  intros [Hn | (d & Hd & Hc)];
    unfold loginUsuario, CodigoVerificacion_findOne; desplegar.
  - now rewrite Hn.
  - rewrite Hd. apply String.eqb_neq in Hc. now rewrite Hc.
Qed.

(** *** Register *)

Lemma registrarUsuario_eq e telefono bd :
  registrarUsuario e telefono bd =
    let bd1 := bdDe (CodigoVerificacion_findOneAndUpdate telefono telefono
                       (generarCodigo e) (ahora e) bd) in
    (Ok (if twilioFalla e
         then enviarRespuestaError "Error interno del servidor"
                "ERROR_REGISTRO_USUARIO" None 400
         else enviarRespuestaExitosa "Código enviado correctamente" None 200),
     bd1,
     [SmsIntentado bd1 telefono
        (String.append "Tu código de verificación es: " (generarCodigo e))]).
Proof.
  unfold registrarUsuario, CodigoVerificacion_findOneAndUpdate, enviarSMS.
  desplegar.
  destruct (find _ (codigos bd)); simpl; destruct (twilioFalla e); reflexivity.
Qed.

Lemma upsert_encontrado filtro codigo fecha bd :
  exists d,
    find (coincideCodigo (PorTelefono filtro))
         (codigos (bdDe (CodigoVerificacion_findOneAndUpdate filtro filtro codigo
                           fecha bd))) = Some d
    /\ ICodigoVerificacion.telefono d = normalizar P filtro
    /\ ICodigoVerificacion.codigo d = recortar P codigo
    /\ ICodigoVerificacion.creadoEn d = fecha.
Proof.
  unfold CodigoVerificacion_findOneAndUpdate, bdDe.
  destruct (find (coincideCodigo (PorTelefono filtro)) (codigos bd)) as [d0|] eqn:Hf;
    simpl.
  - match goal with
    | |- context [actualizarPrimero _ (fun _ => ?d')] => exists d'
    end.
    split.
    + apply (find_actualizarPrimero _ (fun _ => _) _ d0 Hf).
      simpl. apply String.eqb_refl.
    + auto.
  - eexists. split.
    + apply find_app_nuevo; [exact Hf|]. simpl. apply String.eqb_refl.
    + auto.
Qed.

(** C4. In Register the upsert comes strictly before the SMS: in every
    execution, the provider failing or not, exactly one send is
    attempted, and the database at that moment (which is also the final
    one: a failed send rolls nothing back) holds for that phone a code
    that is the generated one, found by phone and by phone and code. *)
Theorem registro_persiste_antes_del_sms e telefono bd :
  exists bd1 d,
    eventosDe (registrarUsuario e telefono bd) =
      [SmsIntentado bd1 telefono
         (String.append "Tu código de verificación es: " (generarCodigo e))]
    /\ bdDe (registrarUsuario e telefono bd) = bd1
    /\ find (coincideCodigo (PorTelefono telefono)) (codigos bd1) = Some d
    /\ ICodigoVerificacion.telefono d = normalizar P telefono
    /\ ICodigoVerificacion.codigo d = recortar P (generarCodigo e)
    /\ coincideCodigo (PorTelefonoYCodigo telefono (generarCodigo e)) d = true
    /\ resultadoDe (registrarUsuario e telefono bd) =
         Ok (if twilioFalla e
             then enviarRespuestaError "Error interno del servidor"
                    "ERROR_REGISTRO_USUARIO" None 400
             else enviarRespuestaExitosa "Código enviado correctamente" None 200).
Proof.
  rewrite registrarUsuario_eq. cbv zeta.
  destruct (upsert_encontrado telefono (generarCodigo e) (ahora e) bd)
    as (d & Hf & Ht & Hc & _).
  eexists. exists d. unfold eventosDe, bdDe, resultadoDe at 1. simpl.
  repeat split; auto.
  simpl. rewrite Ht, Hc, !String.eqb_refl. reflexivity.
Qed.

(** *** Login, accepted *)

(** C3. With the code stored for the phone, Login creates exactly one
    user when the phone has none (role usuario, not verified) and none
    when it has one; this holds whether or not the refresh session that
    follows can be stored. When the refresh token drawn is not stored,
    the login succeeds for that very user, the one created or the one
    found: the response names it, the access token is signed for it and
    the session stored is its own. The phone is one that passes the
    [required] validator. *)
Theorem login_crea_a_lo_sumo_una_identidad e telefono codigo bd d :
  find (coincideCodigo (PorTelefono telefono)) (codigos bd) = Some d ->
  ICodigoVerificacion.codigo d = codigo ->
  normalizar P telefono <> "" ->
  match find (fun u => IUsuario.telefono u =? normalizar P telefono) (usuarios bd) with
  | None =>
      exists u,
        usuarios (bdDe (loginUsuario e telefono codigo bd)) = usuarios bd ++ [u]
        /\ List.length (usuarios (bdDe (loginUsuario e telefono codigo bd)))
           = S (List.length (usuarios bd))
        /\ IUsuario.telefono u = normalizar P telefono
        /\ IUsuario.rol u = rol_usuario
        /\ IUsuario.estaVerificado u = false
        /\ (~ In (generarRefreshToken e)
                 (map IRefreshToken.token (refreshTokens bd)) ->
            exists ses,
              resultadoDe (loginUsuario e telefono codigo bd) =
                Ok (enviarRespuestaExitosa "Login exitoso"
                      (Some (DatosSesion
                               (generarJWT e
                                  {| p_usuarioId := oidToString P (IUsuario._id u);
                                     p_telefono := IUsuario.telefono u |})
                               (generarRefreshToken e)
                               {| res_id := IUsuario._id u;
                                  res_telefono := IUsuario.telefono u;
                                  res_rol := None |}))
                      200)
              /\ refreshTokens (bdDe (loginUsuario e telefono codigo bd))
                 = refreshTokens bd ++ [ses]
              /\ IRefreshToken.usuarioId ses = IUsuario._id u
              /\ IRefreshToken.token ses = generarRefreshToken e)
  | Some u =>
      usuarios (bdDe (loginUsuario e telefono codigo bd)) = usuarios bd
      /\ (forall r tok rt res,
            resultadoDe (loginUsuario e telefono codigo bd) = Ok r ->
            sesionDe r = Some (tok, rt, res) ->
            res_id res = IUsuario._id u /\ res_telefono res = IUsuario.telefono u)
      /\ (~ In (generarRefreshToken e)
               (map IRefreshToken.token (refreshTokens bd)) ->
          exists ses,
            resultadoDe (loginUsuario e telefono codigo bd) =
              Ok (enviarRespuestaExitosa "Login exitoso"
                    (Some (DatosSesion
                             (generarJWT e
                                {| p_usuarioId := oidToString P (IUsuario._id u);
                                   p_telefono := IUsuario.telefono u |})
                             (generarRefreshToken e)
                             {| res_id := IUsuario._id u;
                                res_telefono := IUsuario.telefono u;
                                res_rol := None |}))
                    200)
            /\ refreshTokens (bdDe (loginUsuario e telefono codigo bd))
               = refreshTokens bd ++ [ses]
            /\ IRefreshToken.usuarioId ses = IUsuario._id u
            /\ IRefreshToken.token ses = generarRefreshToken e)
  end.
Proof.
  intros Hd Hc Hreq.
  apply String.eqb_neq in Hreq.
  assert (Hfr : ~ In (generarRefreshToken e)
                    (map IRefreshToken.token (refreshTokens bd)) ->
                existsb (fun r => IRefreshToken.token r =? generarRefreshToken e)
                        (refreshTokens bd) = false).
  { intros Hf. destruct (existsb _ _) eqn:Hex; [|reflexivity].
    exfalso. apply Hf. apply existsb_exists in Hex as (y & Hy & Hyt).
    apply String.eqb_eq in Hyt. rewrite <- Hyt. now apply in_map. }
  unfold loginUsuario, CodigoVerificacion_findOne, Usuario_findOne, Usuario_new,
    Usuario_save, RefreshToken_create, CodigoVerificacion_deleteOne.
  desplegar. rewrite Hd. subst codigo. rewrite String.eqb_refl. simpl.
  destruct (find (fun u => IUsuario.telefono u =? normalizar P telefono) (usuarios bd))
    as [u|] eqn:Hu; simpl.
  - destruct (existsb _ (refreshTokens bd)) eqn:Hex; simpl.
    + split; [reflexivity|]. split.
      * intros r tok rt res Hr Hs. injection Hr as <-. discriminate.
      * intros Hf. apply Hfr in Hf. discriminate.
    + split; [reflexivity|]. split.
      * intros r tok rt res Hr Hs. injection Hr as <-.
        simpl in Hs. injection Hs as <- <- <-. simpl. auto.
      * intros _. eexists. repeat split; reflexivity.
  - unfold requerido. rewrite Hreq. simpl.
    rewrite find_existsb, Hu. simpl.
    eexists.
    destruct (existsb _ (refreshTokens bd)) eqn:Hex; simpl;
      (split; [reflexivity|]);
      (split; [rewrite List.length_app; simpl; lia|]);
      (split; [reflexivity|]); (split; [reflexivity|]);
      (split; [reflexivity|]).
    + intros Hf. apply Hfr in Hf. discriminate.
    + intros _. eexists. repeat split; reflexivity.
Qed.

(** *** Refresh *)

Lemma refrescarToken_desconocido e t bd :
  find (fun r => IRefreshToken.token r =? t) (refreshTokens bd) = None ->
  refrescarToken e t bd =
    (Ok (enviarRespuestaError "Refresh token inválido o caducado"
           "REFRESH_TOKEN_INVALIDO" None 400), bd, []).
Proof.
  intros H. unfold refrescarToken, RefreshToken_findOne. desplegar.
  now rewrite H.
Qed.

(** *** Register, then Verify *)

(** The upsert keeps [_id] values unique and one code per phone. *)
Lemma upsert_conserva filtro codigo fecha bd :
  bd_ok bd -> un_codigo_por_telefono bd ->
  NoDup (map ICodigoVerificacion._id
           (codigos (bdDe (CodigoVerificacion_findOneAndUpdate filtro filtro
                             codigo fecha bd))))
  /\ un_codigo_por_telefono
       (bdDe (CodigoVerificacion_findOneAndUpdate filtro filtro codigo fecha bd)).
Proof.
  intros Hok Huno. unfold un_codigo_por_telefono in *.
  unfold CodigoVerificacion_findOneAndUpdate, bdDe.
  destruct (find (coincideCodigo (PorTelefono filtro)) (codigos bd)) as [d0|] eqn:Hf;
    simpl.
  - destruct (find_Some_In _ _ _ Hf) as [_ Hp]. simpl in Hp.
    apply String.eqb_eq in Hp.
    rewrite !(map_actualizarPrimero _ _ _ d0) by (simpl; auto).
    split; [apply (ok_ids_codigos _ Hok) | exact Huno].
  - split; apply NoDup_map_app_nuevo; simpl;
      [apply (ok_ids_codigos _ Hok) | apply id_fresco, (ok_frescos_codigos _ Hok)
      | exact Huno | now apply find_ausente].
Qed.

(** C5. Register then Verify with the code that was generated succeeds
    exactly once: from a well-formed database with one code per phone,
    the first Verify answers success and deletes the row of that phone,
    and a second Verify with the same code on the resulting state is
    answered CODIGO_INVALIDO_O_EXPIRADO. *)
Theorem registro_verificacion_un_solo_uso e telefono bd :
  bd_ok bd -> un_codigo_por_telefono bd ->
  exists bd2,
    verificarUsuario telefono (generarCodigo e)
      (bdDe (registrarUsuario e telefono bd))
    = (Ok (enviarRespuestaExitosa "Código verificado correctamente" None 200),
       bd2, [])
    /\ find (coincideCodigo (PorTelefono telefono)) (codigos bd2) = None
    /\ verificarUsuario telefono (generarCodigo e) bd2
       = (Ok (enviarRespuestaError "Código incorrecto o expirado"
                "CODIGO_INVALIDO_O_EXPIRADO" None 400), bd2, []).
Proof.
  intros Hok Huno.
  rewrite registrarUsuario_eq. cbv zeta. unfold bdDe at 1. simpl.
  destruct (upsert_encontrado telefono (generarCodigo e) (ahora e) bd)
    as (d & Hf & Ht & Hc & _).
  destruct (upsert_conserva telefono (generarCodigo e) (ahora e) bd Hok Huno)
    as [Hids Htels].
  set (bd1 := bdDe (CodigoVerificacion_findOneAndUpdate telefono telefono
                      (generarCodigo e) (ahora e) bd)) in *.
  assert (Hfc : find (coincideCodigo (PorTelefonoYCodigo telefono (generarCodigo e)))
                     (codigos bd1) = Some d).
  { apply (find_conjuncion (coincideCodigo (PorTelefono telefono))
             (fun x => ICodigoVerificacion.codigo x =? recortar P (generarCodigo e)));
      [exact Hf | rewrite Hc; apply String.eqb_refl]. }
  eexists. split; [apply verificarUsuario_exito; exact Hfc|].
  simpl.
  assert (Hnone : find (coincideCodigo (PorTelefono telefono))
            (eliminarPrimero (fun x => Nat.eqb (ICodigoVerificacion._id x)
                                               (ICodigoVerificacion._id d))
                             (codigos bd1)) = None).
  { apply find_None_todos. intros y Hy. simpl.
    apply String.eqb_neq. intros Hyt.
    assert (Hyid : ICodigoVerificacion._id y <> ICodigoVerificacion._id d)
      by (eapply eliminarPrimero_clave; [exact Hids | exact Hy]).
    apply Hyid. f_equal.
    apply (NoDup_map_iguales ICodigoVerificacion.telefono (codigos bd1));
      [exact Htels | eapply In_eliminarPrimero; exact Hy
      | apply (find_Some_In _ _ _ Hf) | congruence]. }
  split; [exact Hnone|].
  apply verificarUsuario_fallo. simpl.
  apply (find_conjuncion_ninguno (coincideCodigo (PorTelefono telefono))).
  exact Hnone.
Qed.

(** *** Master access *)

Lemma accesoMaestro_rechazo e c bd :
  c <> Some (CODIGO_MAESTRO env) ->
  accesoMaestro e c bd =
    (Ok (enviarRespuestaError "Código incorrecto" "CODIGO_MAESTRO_INVALIDO"
           None 401), bd, []).
Proof.
  intros Hc. unfold accesoMaestro. desplegar.
  destruct c as [c|]; [|reflexivity].
  destruct (c =? CODIGO_MAESTRO env) eqn:E; [|reflexivity].
  apply String.eqb_eq in E. congruence.
Qed.

(** One accepted call: what it does to the users and to the sessions. *)
Lemma accesoMaestro_paso e bd :
  exists r,
    resultadoDe (accesoMaestro e (Some (CODIGO_MAESTRO env)) bd) = Ok r
    /\ match adminDe bd with
       | Some _ =>
           usuarios (bdDe (accesoMaestro e (Some (CODIGO_MAESTRO env)) bd))
           = usuarios bd
       | None =>
           usuarios (bdDe (accesoMaestro e (Some (CODIGO_MAESTRO env)) bd))
           = usuarios bd
           \/ exists u,
                usuarios (bdDe (accesoMaestro e (Some (CODIGO_MAESTRO env)) bd))
                = usuarios bd ++ [u]
                /\ IUsuario.telefono u = normalizar P (TELEFONO_ADMIN env)
                /\ IUsuario.rol u = rol_admin
       end
    /\ match sesionDe r with
       | Some (tok, rt, res) =>
           exists u ses,
             adminDe (bdDe (accesoMaestro e (Some (CODIGO_MAESTRO env)) bd)) = Some u
             /\ res = {| res_id := IUsuario._id u;
                         res_telefono := IUsuario.telefono u;
                         res_rol := Some (IUsuario.rol u) |}
             /\ rt = generarRefreshToken e
             /\ ~ In rt (map IRefreshToken.token (refreshTokens bd))
             /\ refreshTokens (bdDe (accesoMaestro e (Some (CODIGO_MAESTRO env)) bd))
                = refreshTokens bd ++ [ses]
             /\ IRefreshToken.token ses = rt
             /\ IRefreshToken.usuarioId ses = IUsuario._id u
             /\ exito (cuerpo r) = true
       | None =>
           refreshTokens (bdDe (accesoMaestro e (Some (CODIGO_MAESTRO env)) bd))
           = refreshTokens bd
           /\ exito (cuerpo r) = false
       end
    /\ codigos (bdDe (accesoMaestro e (Some (CODIGO_MAESTRO env)) bd)) = codigos bd
    /\ eventosDe (accesoMaestro e (Some (CODIGO_MAESTRO env)) bd) = [].
Proof.
  unfold accesoMaestro, Usuario_findOne, Usuario_new, Usuario_save,
    RefreshToken_create, adminDe.
  desplegar. rewrite String.eqb_refl. simpl.
  destruct (find (fun u => IUsuario.telefono u =? normalizar P (TELEFONO_ADMIN env))
                 (usuarios bd)) as [u0|] eqn:Hu; simpl.
  - destruct (existsb _ (refreshTokens bd)) eqn:Hex; simpl.
    + eexists; repeat split; reflexivity.
    + eexists. split; [reflexivity|]. split; [reflexivity|]. simpl.
      split; [|split; reflexivity].
      exists u0. eexists. rewrite Hu. repeat split; try reflexivity.
      now apply existsb_ausente.
  - destruct (requerido (normalizar P (TELEFONO_ADMIN env))) eqn:Htel; simpl.
    + rewrite find_existsb, Hu. simpl.
      destruct (existsb _ (refreshTokens bd)) eqn:Hex; simpl.
      * eexists. split; [reflexivity|]. split; [|repeat split; reflexivity].
        right. eexists. repeat split; reflexivity.
      * eexists. split; [reflexivity|]. split.
        -- right. eexists. repeat split; reflexivity.
        -- simpl. split; [|split; reflexivity].
           eexists. eexists. split.
           ++ apply find_app_nuevo; [exact Hu|]. simpl. apply String.eqb_refl.
           ++ repeat split; try reflexivity. now apply existsb_ausente.
    + eexists. split; [reflexivity|]. split; [|repeat split; reflexivity].
      left. reflexivity.
Qed.

Lemma corridaMaestra_cons e es bd :
  corridaMaestra (e :: es) bd =
    (resultadoDe (accesoMaestro e (Some (CODIGO_MAESTRO env)) bd)
       :: fst (corridaMaestra es
                 (bdDe (accesoMaestro e (Some (CODIGO_MAESTRO env)) bd))),
     snd (corridaMaestra es
            (bdDe (accesoMaestro e (Some (CODIGO_MAESTRO env)) bd)))).
Proof. reflexivity. Qed.

Lemma adminDe_mismos_usuarios bd bd' :
  usuarios bd' = usuarios bd -> adminDe bd' = adminDe bd.
Proof. unfold adminDe. now intros ->. Qed.

(** Once the admin user exists, every call returns it and none adds a
    user. *)
Lemma corridaMaestra_admin_presente es :
  forall bd u0, adminDe bd = Some u0 ->
    usuarios (snd (corridaMaestra es bd)) = usuarios bd
    /\ forall r s, In (Ok r) (fst (corridaMaestra es bd)) ->
         sesionDe r = Some s -> res_id (snd s) = IUsuario._id u0.
Proof.
  induction es as [|e es IH]; intros bd u0 Hu0.
  - split; [reflexivity | intros r s []].
  - rewrite corridaMaestra_cons. simpl.
    destruct (accesoMaestro_paso e bd) as (r0 & Hr0 & Hus & Hses & _).
    rewrite Hu0 in Hus.
    assert (Hu1 : adminDe (bdDe (accesoMaestro e (Some (CODIGO_MAESTRO env)) bd))
                  = Some u0)
      by (rewrite (adminDe_mismos_usuarios _ _ Hus); exact Hu0).
    destruct (IH _ _ Hu1) as [IHus IHid].
    split; [congruence|].
    intros r s [Hhead | Htail] Hs; [|eauto].
    rewrite Hr0 in Hhead. injection Hhead as ->.
    rewrite Hs in Hses. destruct s as [[tok rt] res].
    destruct Hses as (u & ses & Hu & -> & _).
    rewrite Hu1 in Hu. injection Hu as <-. reflexivity.
Qed.

Lemma corridaMaestra_misma_identidad es :
  forall bd, exists i, forall r s,
    In (Ok r) (fst (corridaMaestra es bd)) -> sesionDe r = Some s ->
    res_id (snd s) = i.
Proof.
  induction es as [|e es IH]; intros bd.
  - exists 0. intros r s [].
  - rewrite corridaMaestra_cons. simpl.
    destruct (accesoMaestro_paso e bd) as (r0 & Hr0 & _ & Hses & _).
    destruct (sesionDe r0) as [[[tok rt] res]|] eqn:Hs0.
    + destruct Hses as (u & ses & Hu & Hres & _).
      exists (IUsuario._id u).
      intros r s [Hhead | Htail] Hs.
      * rewrite Hr0 in Hhead. injection Hhead as <-.
        rewrite Hs0 in Hs. injection Hs as <-. simpl. now rewrite Hres.
      * eapply (corridaMaestra_admin_presente es); eauto.
    + destruct (IH (bdDe (accesoMaestro e (Some (CODIGO_MAESTRO env)) bd)))
        as [i Hi].
      exists i. intros r s [Hhead | Htail] Hs; [|eauto].
      rewrite Hr0 in Hhead. injection Hhead as <-. congruence.
Qed.

Lemma corridaMaestra_a_lo_sumo_un_usuario es :
  forall bd,
    usuarios (snd (corridaMaestra es bd)) = usuarios bd
    \/ exists u,
         adminDe bd = None
         /\ usuarios (snd (corridaMaestra es bd)) = usuarios bd ++ [u]
         /\ IUsuario.telefono u = normalizar P (TELEFONO_ADMIN env)
         /\ IUsuario.rol u = rol_admin.
Proof.
  induction es as [|e es IH]; intros bd; [left; reflexivity|].
  rewrite corridaMaestra_cons. simpl.
  destruct (accesoMaestro_paso e bd) as (r0 & _ & Hus & _).
  destruct (adminDe bd) as [u0|] eqn:Hu0.
  - left.
    assert (Hu1 : adminDe (bdDe (accesoMaestro e (Some (CODIGO_MAESTRO env)) bd))
                  = Some u0)
      by (rewrite (adminDe_mismos_usuarios _ _ Hus); exact Hu0).
    destruct (corridaMaestra_admin_presente es _ _ Hu1) as [H _]. congruence.
  - destruct Hus as [Hus | (u & Hus & Htel & Hrol)].
    + destruct (IH (bdDe (accesoMaestro e (Some (CODIGO_MAESTRO env)) bd)))
        as [H | (u & _ & H & Htel & Hrol)].
      * left. congruence.
      * right. exists u. rewrite H, Hus. auto.
    + right. exists u.
      assert (Hu1 : adminDe (bdDe (accesoMaestro e (Some (CODIGO_MAESTRO env)) bd))
                    = Some u).
      { unfold adminDe in *. rewrite Hus. apply find_app_nuevo; [exact Hu0|].
        rewrite Htel. apply String.eqb_refl. }
      destruct (corridaMaestra_admin_presente es _ _ Hu1) as [H _].
      rewrite H, Hus. auto.
Qed.

Lemma corridaMaestra_sesiones es :
  forall bd,
    incl (map IRefreshToken.token (refreshTokens bd))
         (map IRefreshToken.token (refreshTokens (snd (corridaMaestra es bd))))
    /\ NoDup (tokensEmitidos (fst (corridaMaestra es bd)))
    /\ (forall t, In t (tokensEmitidos (fst (corridaMaestra es bd))) ->
          ~ In t (map IRefreshToken.token (refreshTokens bd))
          /\ In t (map IRefreshToken.token
                     (refreshTokens (snd (corridaMaestra es bd)))))
    /\ List.length (refreshTokens (snd (corridaMaestra es bd)))
       = List.length (refreshTokens bd)
         + List.length (tokensEmitidos (fst (corridaMaestra es bd))).
Proof.
  induction es as [|e es IH]; intros bd.
  - simpl. repeat split; [apply incl_refl | constructor | destruct H | destruct H
                         | lia].
  - rewrite corridaMaestra_cons. simpl.
    destruct (accesoMaestro_paso e bd) as (r0 & Hr0 & _ & Hses & _).
    destruct (IH (bdDe (accesoMaestro e (Some (CODIGO_MAESTRO env)) bd)))
      as (IHincl & IHnd & IHt & IHlen).
    rewrite Hr0. simpl.
    destruct (sesionDe r0) as [[[tok rt] res]|] eqn:Hs0; simpl.
    + destruct Hses as (u & ses & _ & _ & Hrt & Hfresco & Hrefs & Htok & _).
      rewrite Hrefs, map_app in IHincl, IHt. simpl in IHincl, IHt.
      rewrite Htok in IHincl, IHt.
      split; [|split; [|split]].
      * intros t Ht. apply IHincl, in_app_iff. auto.
      * constructor; [|exact IHnd].
        intros Hin. apply IHt in Hin as [Hno _]. apply Hno, in_app_iff.
        simpl. auto.
      * intros t [<- | Ht].
        -- split; [exact Hfresco|]. apply IHincl, in_app_iff. simpl. auto.
        -- apply IHt in Ht as [Hno Hsi]. split; [|exact Hsi].
           intros Hin. apply Hno, in_app_iff. auto.
      * rewrite IHlen, Hrefs, List.length_app. simpl. lia.
    + destruct Hses as [Hrefs _]. rewrite Hrefs in IHincl, IHt, IHlen.
      auto.
Qed.

(** An accepted call that says [exito] answers 200. *)
Lemma accesoMaestro_status e bd r :
  resultadoDe (accesoMaestro e (Some (CODIGO_MAESTRO env)) bd) = Ok r ->
  exito (cuerpo r) = true -> status r = 200.
Proof.
  intros H Hex.
  unfold accesoMaestro, Usuario_findOne, Usuario_new, Usuario_save,
    RefreshToken_create in H.
  unfold resultadoDe, intentar, bind, ret, leer, escribir, lanzar in H.
  simpl in H. rewrite String.eqb_refl in H. simpl in H.
  por_casos H; try discriminate;
    injection H as <-; simpl in *; first [reflexivity | discriminate].
Qed.

(** An accepted call succeeds when the admin phone has a user or can be
    given one, and the token drawn is not stored. *)
Lemma accesoMaestro_exito e bd :
  adminDe bd <> None \/ normalizar P (TELEFONO_ADMIN env) <> "" ->
  ~ In (generarRefreshToken e) (map IRefreshToken.token (refreshTokens bd)) ->
  exists r,
    resultadoDe (accesoMaestro e (Some (CODIGO_MAESTRO env)) bd) = Ok r
    /\ exito (cuerpo r) = true
    /\ adminDe (bdDe (accesoMaestro e (Some (CODIGO_MAESTRO env)) bd)) <> None
    /\ map IRefreshToken.token
         (refreshTokens (bdDe (accesoMaestro e (Some (CODIGO_MAESTRO env)) bd)))
       = map IRefreshToken.token (refreshTokens bd) ++ [generarRefreshToken e].
Proof.
  intros Hadm Hfresco.
  assert (Hex : existsb (fun r => IRefreshToken.token r =? generarRefreshToken e)
                        (refreshTokens bd) = false).
  { destruct (existsb _ _) eqn:Hex; [|reflexivity].
    exfalso. apply Hfresco. apply existsb_exists in Hex as (y & Hy & Hyt).
    apply String.eqb_eq in Hyt. rewrite <- Hyt. now apply in_map. }
  unfold accesoMaestro, Usuario_findOne, Usuario_new, Usuario_save,
    RefreshToken_create, adminDe in *.
  desplegar. rewrite String.eqb_refl. simpl.
  destruct (find (fun u => IUsuario.telefono u =? normalizar P (TELEFONO_ADMIN env))
                 (usuarios bd)) as [u0|] eqn:Hu; simpl.
  - rewrite Hex. simpl. eexists. split; [reflexivity|]. split; [reflexivity|].
    rewrite Hu. split; [discriminate|]. rewrite map_app. reflexivity.
  - destruct Hadm as [Hadm | Hadm]; [congruence|].
    apply String.eqb_neq in Hadm. unfold requerido. rewrite Hadm. simpl.
    rewrite find_existsb, Hu. simpl. rewrite Hex. simpl.
    eexists. split; [reflexivity|]. split; [reflexivity|]. split.
    + rewrite (find_app_nuevo _ _ _ Hu); [discriminate|].
      simpl. apply String.eqb_refl.
    + rewrite map_app. reflexivity.
Qed.

(** A run never deletes a session, and every call of it answers. *)
Lemma corridaMaestra_persisten es :
  forall bd, incl (refreshTokens bd) (refreshTokens (snd (corridaMaestra es bd))).
Proof.
  induction es as [|e es IH]; intros bd; [apply incl_refl|].
  rewrite corridaMaestra_cons. simpl.
  destruct (accesoMaestro_paso e bd) as (r0 & _ & _ & Hses & _).
  intros x Hx. apply IH.
  destruct (sesionDe r0) as [[[tok rt] res]|].
  - destruct Hses as (u & ses & _ & _ & _ & _ & -> & _).
    apply in_app_iff. auto.
  - destruct Hses as [-> _]. exact Hx.
Qed.

Lemma corridaMaestra_responden es :
  forall bd,
    Forall (fun x => exists r, x = Ok r) (fst (corridaMaestra es bd))
    /\ List.length (fst (corridaMaestra es bd)) = List.length es.
Proof.
  induction es as [|e es IH]; intros bd; [split; [constructor | reflexivity]|].
  rewrite corridaMaestra_cons. simpl.
  destruct (accesoMaestro_paso e bd) as (r0 & Hr0 & _).
  destruct (IH (bdDe (accesoMaestro e (Some (CODIGO_MAESTRO env)) bd)))
    as [IHf IHl].
  split; [constructor; eauto | now rewrite IHl].
Qed.

(** What a call of a run that says [exito] has done: it answered 200
    with a session of the user the admin phone has at the end of the
    run, and that session is stored then. *)
Lemma corridaMaestra_exitos es :
  forall bd r,
    In (Ok r) (fst (corridaMaestra es bd)) -> exito (cuerpo r) = true ->
    status r = 200
    /\ exists tok rt res u ses,
         sesionDe r = Some (tok, rt, res)
         /\ adminDe (snd (corridaMaestra es bd)) = Some u
         /\ res_id res = IUsuario._id u
         /\ In ses (refreshTokens (snd (corridaMaestra es bd)))
         /\ IRefreshToken.token ses = rt
         /\ IRefreshToken.usuarioId ses = IUsuario._id u.
Proof.
  induction es as [|e es IH]; intros bd r Hin Hex; [destruct Hin|].
  rewrite corridaMaestra_cons in *. simpl in *.
  destruct Hin as [Hhead | Htail]; [|eauto].
  destruct (accesoMaestro_paso e bd) as (r0 & Hr0 & _ & Hses & _).
  assert (r0 = r) by congruence. subst r0.
  split; [exact (accesoMaestro_status e bd r Hr0 Hex)|].
  destruct (sesionDe r) as [[[tok rt] res]|];
    [|destruct Hses as [_ Hno]; congruence].
  destruct Hses as (u & ses & Hu & -> & _ & _ & Hrefs & Htok & Hid & _).
  destruct (corridaMaestra_admin_presente es _ _ Hu) as [Hus _].
  do 3 eexists. exists u, ses. split; [reflexivity|].
  split; [rewrite (adminDe_mismos_usuarios _ _ Hus); exact Hu|].
  split; [reflexivity|]. split; [|auto].
  apply corridaMaestra_persisten. rewrite Hrefs. apply in_app_iff. simpl. auto.
Qed.

(** A run whose draws differ from one another and from the stored tokens
    succeeds at every call. *)
Lemma corridaMaestra_todas_exitosas es :
  forall bd,
    adminDe bd <> None \/ normalizar P (TELEFONO_ADMIN env) <> "" ->
    NoDup (map generarRefreshToken es) ->
    (forall e, In e es ->
       ~ In (generarRefreshToken e) (map IRefreshToken.token (refreshTokens bd))) ->
    Forall (fun x => exists r, x = Ok r /\ exito (cuerpo r) = true)
           (fst (corridaMaestra es bd))
    /\ List.length (refreshTokens (snd (corridaMaestra es bd)))
       = List.length (refreshTokens bd) + List.length es.
Proof.
  induction es as [|e es IH]; intros bd Hadm Hnd Hfr.
  - split; [constructor | simpl; lia].
  - rewrite corridaMaestra_cons. simpl.
    simpl in Hnd. apply NoDup_cons_iff in Hnd as [Hne Hnd].
    destruct (accesoMaestro_exito e bd Hadm (Hfr e (or_introl eq_refl)))
      as (r & Hr & Hex & Hadm' & Htoks).
    destruct (IH (bdDe (accesoMaestro e (Some (CODIGO_MAESTRO env)) bd)))
      as [IHf IHl].
    + left. exact Hadm'.
    + exact Hnd.
    + intros e1 He1. rewrite Htoks, in_app_iff. simpl.
      intros [Hin | [Heq | []]].
      * exact (Hfr e1 (or_intror He1) Hin).
      * apply Hne. rewrite Heq. now apply in_map.
    + split; [constructor; eauto|].
      rewrite IHl.
      assert (Hlen : List.length
                       (refreshTokens
                          (bdDe (accesoMaestro e (Some (CODIGO_MAESTRO env)) bd)))
                     = S (List.length (refreshTokens bd))).
      { rewrite <- (length_map IRefreshToken.token), Htoks, List.length_app,
          length_map. simpl. lia. }
      lia.
Qed.

(** C2. Master access with any code other than the configured one
    answers 401 and leaves the three collections as they were. In any
    run of calls with the right code every call answers, and a call that
    says [exito] answered 200 with a session of the user the admin phone
    has at the end of the run, a session that is stored then under the
    refresh token returned. Every session returned is for one and the
    same user, at most one user is added to the collection (one of the
    admin phone, and only when the phone had none), and each successful
    call stores one more refresh session, whose token was not in the
    collection before and differs from those of the other calls. When
    the admin phone has a user or passes [required], and the tokens
    drawn differ from one another and from those stored, every call of
    the run succeeds. *)
Theorem acceso_maestro_identidad_unica_sesion_nueva :
  (forall e c bd,
      c <> Some (CODIGO_MAESTRO env) ->
      accesoMaestro e c bd =
        (Ok (enviarRespuestaError "Código incorrecto" "CODIGO_MAESTRO_INVALIDO"
               None 401), bd, []))
  /\ (forall es bd,
        (exists i, forall r s,
            In (Ok r) (fst (corridaMaestra es bd)) -> sesionDe r = Some s ->
            res_id (snd s) = i)
        /\ (usuarios (snd (corridaMaestra es bd)) = usuarios bd
            \/ exists u,
                 adminDe bd = None
                 /\ usuarios (snd (corridaMaestra es bd)) = usuarios bd ++ [u]
                 /\ IUsuario.telefono u = normalizar P (TELEFONO_ADMIN env)
                 /\ IUsuario.rol u = rol_admin)
        /\ NoDup (tokensEmitidos (fst (corridaMaestra es bd)))
        /\ (forall t, In t (tokensEmitidos (fst (corridaMaestra es bd))) ->
              ~ In t (map IRefreshToken.token (refreshTokens bd))
              /\ In t (map IRefreshToken.token
                         (refreshTokens (snd (corridaMaestra es bd)))))
        /\ List.length (refreshTokens (snd (corridaMaestra es bd)))
           = List.length (refreshTokens bd)
             + List.length (tokensEmitidos (fst (corridaMaestra es bd)))
        /\ Forall (fun x => exists r, x = Ok r) (fst (corridaMaestra es bd))
        /\ List.length (fst (corridaMaestra es bd)) = List.length es
        /\ (forall r,
              In (Ok r) (fst (corridaMaestra es bd)) -> exito (cuerpo r) = true ->
              status r = 200
              /\ exists tok rt res u ses,
                   sesionDe r = Some (tok, rt, res)
                   /\ adminDe (snd (corridaMaestra es bd)) = Some u
                   /\ res_id res = IUsuario._id u
                   /\ In ses (refreshTokens (snd (corridaMaestra es bd)))
                   /\ IRefreshToken.token ses = rt
                   /\ IRefreshToken.usuarioId ses = IUsuario._id u)
        /\ (adminDe bd <> None \/ normalizar P (TELEFONO_ADMIN env) <> "" ->
            NoDup (map generarRefreshToken es) ->
            (forall e, In e es ->
               ~ In (generarRefreshToken e)
                    (map IRefreshToken.token (refreshTokens bd))) ->
            Forall (fun x => exists r, x = Ok r /\ exito (cuerpo r) = true)
                   (fst (corridaMaestra es bd))
            /\ List.length (refreshTokens (snd (corridaMaestra es bd)))
               = List.length (refreshTokens bd) + List.length es)).
Proof.
  split; [exact accesoMaestro_rechazo|].
  intros es bd.
  destruct (corridaMaestra_sesiones es bd) as (_ & Hnd & Ht & Hlen).
  destruct (corridaMaestra_responden es bd) as [Hresp Hnum].
  split; [apply corridaMaestra_misma_identidad|].
  split; [apply corridaMaestra_a_lo_sumo_un_usuario|].
  split; [exact Hnd|]. split; [exact Ht|]. split; [exact Hlen|].
  split; [exact Hresp|]. split; [exact Hnum|].
  split; [apply corridaMaestra_exitos | apply corridaMaestra_todas_exitosas].
Qed.

(** C7, as the code has it. A successful master-access call returns the
    first user of the admin phone as stored after the call, with the
    role stored for it. When the phone had no user, the call creates one
    with role admin; when it had one, that user is returned as it was,
    whatever its role, and the users are left untouched. *)
Theorem acceso_maestro_rol_del_usuario e bd r tok rt res :
  resultadoDe (accesoMaestro e (Some (CODIGO_MAESTRO env)) bd) = Ok r ->
  sesionDe r = Some (tok, rt, res) ->
  exists u,
    adminDe (bdDe (accesoMaestro e (Some (CODIGO_MAESTRO env)) bd)) = Some u
    /\ res_id res = IUsuario._id u
    /\ res_rol res = Some (IUsuario.rol u)
    /\ match adminDe bd with
       | None => IUsuario.rol u = rol_admin
       | Some u0 =>
           u = u0
           /\ usuarios (bdDe (accesoMaestro e (Some (CODIGO_MAESTRO env)) bd))
              = usuarios bd
       end.
Proof.
  intros Hr Hs.
  destruct (accesoMaestro_paso e bd) as (r0 & Hr0 & Hus & Hses & _).
  rewrite Hr in Hr0. injection Hr0 as <-. rewrite Hs in Hses.
  destruct Hses as (u & ses & Hu & -> & _).
  exists u. split; [exact Hu|]. split; [reflexivity|]. split; [reflexivity|].
  destruct (adminDe bd) as [u0|] eqn:Hu0.
  - rewrite (adminDe_mismos_usuarios _ _ Hus), Hu0 in Hu.
    injection Hu as <-. auto.
  - destruct Hus as [Hus | (u' & Hus & Htel & Hrol)].
    + rewrite (adminDe_mismos_usuarios _ _ Hus), Hu0 in Hu. discriminate.
    + unfold adminDe in Hu, Hu0. rewrite Hus in Hu.
      rewrite (find_app_nuevo _ _ u' Hu0) in Hu
        by (rewrite Htel; apply String.eqb_refl).
      injection Hu as <-. exact Hrol.
Qed.

(** *** The guarded admin route *)

(** C9. On the admin route: a missing header, a header without the
    [Bearer ] prefix, a token that [jwt.verify] rejects, and a verified
    token whose user id casts to no ObjectId or names no user are all
    answered 401; a verified token of a user whose role is not admin is
    answered 403; the route handler answers (200) exactly when the token
    verifies and names a user with role admin. The route never changes
    the database. *)
Theorem guardia_admin e req bd :
  bdDe (adminTest e req bd) = bd
  /\ exists r,
       resultadoDe (adminTest e req bd) = Ok r
       /\ (authorization req = None -> status r = 401)
       /\ (forall h, authorization req = Some h -> prefix "Bearer " h = false ->
             status r = 401)
       /\ (forall h tok,
             authorization req = Some h -> prefix "Bearer " h = true ->
             nth_error (split " "%char h) 1 = Some tok ->
             (jwt_verify P tok (JWT_SECRET env) (ahora e) = None -> status r = 401)
             /\ forall payload,
                  jwt_verify P tok (JWT_SECRET env) (ahora e) = Some payload ->
                  (castObjectId P (p_usuarioId payload) = None -> status r = 401)
                  /\ forall i,
                       castObjectId P (p_usuarioId payload) = Some i ->
                       (find (fun u => Nat.eqb (IUsuario._id u) i) (usuarios bd) = None ->
                        status r = 401)
                       /\ forall u,
                            find (fun u => Nat.eqb (IUsuario._id u) i) (usuarios bd)
                            = Some u ->
                            (IUsuario.rol u <> rol_admin -> status r = 403)
                            /\ (IUsuario.rol u = rol_admin -> r = manejadorAdminTest))
       /\ (status r = 200 ->
           exists h tok payload i u,
             authorization req = Some h /\ prefix "Bearer " h = true
             /\ nth_error (split " "%char h) 1 = Some tok
             /\ jwt_verify P tok (JWT_SECRET env) (ahora e) = Some payload
             /\ castObjectId P (p_usuarioId payload) = Some i
             /\ find (fun u => Nat.eqb (IUsuario._id u) i) (usuarios bd) = Some u
             /\ IUsuario.rol u = rol_admin
             /\ r = manejadorAdminTest).
Proof.
  unfold adminTest, autenticarJWT, esAdmin, Usuario_findById_cadena,
    Usuario_findById.
  desplegar.
  destruct (authorization req) as [h|] eqn:Hauth; simpl.
  2:{ split; [reflexivity|]. eexists. split; [reflexivity|].
      repeat split; simpl; try discriminate; try reflexivity. }
  destruct (prefix "Bearer " h) eqn:Hpre; simpl.
  2:{ rewrite orb_true_r. simpl. split; [reflexivity|].
      eexists. split; [reflexivity|].
      repeat split; simpl; intros; try discriminate; try reflexivity;
        congruence. }
  assert (Hvac : (h =? "") = false) by (destruct h; [discriminate | reflexivity]).
  rewrite Hvac. simpl.
  destruct (bearer_tiene_token h Hpre) as [tok Htok]. simpl in Htok.
  rewrite Htok.
  destruct (jwt_verify P tok (JWT_SECRET env) (ahora e)) as [payload|] eqn:Hjwt;
    simpl.
  2:{ split; [reflexivity|]. eexists. split; [reflexivity|].
      split; [discriminate|]. split; [intros; congruence|]. split.
      - intros h' tok' Hh' _ Htok'.
        injection Hh' as <-. rewrite Htok in Htok'. injection Htok' as <-.
        split; [reflexivity|]. intros; congruence.
      - simpl. discriminate. }
  destruct (castObjectId P (p_usuarioId payload)) as [i|] eqn:Hcast; simpl.
  2:{ split; [reflexivity|]. eexists. split; [reflexivity|].
      split; [discriminate|]. split; [intros; congruence|]. split.
      - intros h' tok' Hh' _ Htok'.
        injection Hh' as <-. rewrite Htok in Htok'. injection Htok' as <-.
        split; [reflexivity|]. intros payload' Hp'.
        rewrite Hjwt in Hp'. injection Hp' as <-.
        split; [reflexivity|]. intros; congruence.
      - simpl. discriminate. }
  destruct (find (fun u => Nat.eqb (IUsuario._id u) i) (usuarios bd)) as [u|] eqn:Hu;
    simpl.
  2:{ split; [reflexivity|]. eexists. split; [reflexivity|].
      split; [discriminate|]. split; [intros; congruence|]. split.
      - intros h' tok' Hh' _ Htok'.
        injection Hh' as <-. rewrite Htok in Htok'. injection Htok' as <-.
        split; [reflexivity|]. intros payload' Hp'.
        rewrite Hjwt in Hp'. injection Hp' as <-.
        split; [intros; congruence|]. intros i' Hi'.
        rewrite Hcast in Hi'. injection Hi' as <-.
        split; [reflexivity|]. intros; congruence.
      - simpl. discriminate. }
  destruct (IUsuario.rol u) eqn:Hrol; simpl.
  - split; [reflexivity|]. eexists. split; [reflexivity|].
    split; [discriminate|]. split; [intros; congruence|]. split.
    + intros h' tok' Hh' _ Htok'.
      injection Hh' as <-. rewrite Htok in Htok'. injection Htok' as <-.
      split; [intros; congruence|]. intros payload' Hp'.
      rewrite Hjwt in Hp'. injection Hp' as <-.
      split; [intros; congruence|]. intros i' Hi'.
      rewrite Hcast in Hi'. injection Hi' as <-.
      split; [intros; congruence|]. intros u' Hu'.
      rewrite Hu in Hu'. injection Hu' as <-.
      rewrite Hrol. split; [reflexivity | discriminate].
    + simpl. discriminate.
  - split; [reflexivity|]. eexists. split; [reflexivity|].
    split; [discriminate|]. split; [intros; congruence|]. split.
    + intros h' tok' Hh' _ Htok'.
      injection Hh' as <-. rewrite Htok in Htok'. injection Htok' as <-.
      split; [intros; congruence|]. intros payload' Hp'.
      rewrite Hjwt in Hp'. injection Hp' as <-.
      split; [intros; congruence|]. intros i' Hi'.
      rewrite Hcast in Hi'. injection Hi' as <-.
      split; [intros; congruence|]. intros u' Hu'.
      rewrite Hu in Hu'. injection Hu' as <-.
      rewrite Hrol. split; [congruence | reflexivity].
    + intros _. exists h, tok, payload, i, u. repeat split; auto.
Qed.

(** *** The response envelope *)

Lemma enviarRespuestaError_codigo mensaje cod errs st :
  exito (cuerpo (enviarRespuestaError mensaje cod errs st)) = false
  /\ codigo (cuerpo (enviarRespuestaError mensaje cod errs st)) = Some cod.
Proof. split; reflexivity. Qed.

(** Every failure answered by a controller or by a guard goes through
    [enviarRespuestaError] and carries its [codigo]. *)
Lemma controladores_con_codigo e telefono cod refreshToken maestro req bd r :
  resultadoDe (registrarUsuario e telefono bd) = Ok r
  \/ resultadoDe (verificarUsuario telefono cod bd) = Ok r
  \/ resultadoDe (loginUsuario e telefono cod bd) = Ok r
  \/ resultadoDe (refrescarToken e refreshToken bd) = Ok r
  \/ resultadoDe (accesoMaestro e maestro bd) = Ok r
  \/ resultadoDe (adminTest e req bd) = Ok r ->
  exito (cuerpo r) = false -> exists c, codigo (cuerpo r) = Some c.
Proof.
  intros H Hex.
  unfold registrarUsuario, verificarUsuario, loginUsuario, refrescarToken,
    accesoMaestro, adminTest, autenticarJWT, esAdmin, Usuario_findById_cadena,
    Usuario_findById, Usuario_findOne, Usuario_new, Usuario_save,
    CodigoVerificacion_findOne, CodigoVerificacion_findOneAndUpdate,
    CodigoVerificacion_deleteOne, RefreshToken_findOne, RefreshToken_create,
    RefreshToken_deleteOne, enviarSMS in H.
  unfold bdDe, resultadoDe, eventosDe, intentar, bind, ret, leer, escribir,
    lanzar in H.
  simpl in H.
  destruct H as [H | [H | [H | [H | [H | H]]]]];
    por_casos H; try discriminate;
    injection H as <-; simpl in *; try discriminate; eauto.
Qed.

(** C8, where the code departs from it. The not-found middleware answers
    404 with [exito = false] and no [codigo] field; the global error
    middleware does the same for every error it is handed. *)
Theorem app_errores_sin_codigo :
  status rutaNoEncontrada = 404
  /\ exito (cuerpo rutaNoEncontrada) = false
  /\ codigo (cuerpo rutaNoEncontrada) = None
  /\ forall err,
       exito (cuerpo (errorGlobal err)) = false
       /\ codigo (cuerpo (errorGlobal err)) = None.
Proof. repeat split. Qed.

(** *** Every reachable state is well formed *)

Create HintDb bd discriminated.
#[local] Hint Resolve NoDup_map_app_nuevo NoDup_map_eliminarPrimero
  NoDup_map_filter Forall_eliminarPrimero Forall_filtro Forall_menor_S
  Forall_app_nuevo id_fresco existsb_ausente find_ausente_1 : bd.
#[local] Hint Extern 1 (_ < _) => simpl; lia : bd.

Ltac abrir_bf H :=
  let Hok := fresh "Hok" in
  let Hun := fresh "Hun" in
  destruct H as [Hok Hun]; unfold un_codigo_por_telefono in Hun;
  destruct Hok.

Ltac cerrar_bf :=
  split; [constructor|unfold un_codigo_por_telefono]; simpl; eauto 6 with bd.

Lemma bien_formada_vacia : bien_formada bdVacia.
Proof. split; [constructor|]; simpl; constructor. Qed.

Lemma expirarTTL_bien_formada t bd :
  bien_formada bd -> bien_formada (expirarTTL t bd).
Proof. intros H. abrir_bf H. unfold expirarTTL. cerrar_bf. Qed.

Lemma registrarUsuario_bien_formada e telefono bd :
  bien_formada bd -> bien_formada (bdDe (registrarUsuario e telefono bd)).
Proof.
  intros H. rewrite registrarUsuario_eq. cbv zeta. unfold bdDe at 1. simpl.
  destruct (upsert_conserva telefono (generarCodigo e) (ahora e) bd
              (proj1 H) (proj2 H)) as [Hids Htels].
  revert Hids Htels.
  unfold CodigoVerificacion_findOneAndUpdate, bdDe, un_codigo_por_telefono.
  abrir_bf H.
  destruct (find (coincideCodigo (PorTelefono telefono)) (codigos bd)) as [d0|] eqn:Hf;
    simpl; intros Hids Htels.
  - split; [constructor|]; simpl; auto.
    eapply Forall_mismas_claves; [|eassumption].
    apply (map_actualizarPrimero _ _ _ d0); [exact Hf | reflexivity].
  - cerrar_bf.
Qed.

Lemma verificarUsuario_bien_formada telefono codigo bd :
  bien_formada bd -> bien_formada (bdDe (verificarUsuario telefono codigo bd)).
Proof.
  intros H. abrir_bf H.
  unfold verificarUsuario, CodigoVerificacion_findOne, CodigoVerificacion_deleteOne.
  desplegar. casos_meta; cerrar_bf.
Qed.

Lemma loginUsuario_bien_formada e telefono codigo bd :
  bien_formada bd -> bien_formada (bdDe (loginUsuario e telefono codigo bd)).
Proof.
  intros H. abrir_bf H.
  unfold loginUsuario, CodigoVerificacion_findOne, Usuario_findOne, Usuario_new,
    Usuario_save, RefreshToken_create, CodigoVerificacion_deleteOne.
  desplegar. casos_meta; cerrar_bf.
Qed.

Lemma refrescarToken_bien_formada e t bd :
  bien_formada bd -> bien_formada (bdDe (refrescarToken e t bd)).
Proof.
  intros H. abrir_bf H.
  unfold refrescarToken, RefreshToken_findOne, Usuario_findById,
    RefreshToken_deleteOne, RefreshToken_create.
  desplegar. casos_meta; cerrar_bf.
Qed.

Lemma accesoMaestro_bien_formada e c bd :
  bien_formada bd -> bien_formada (bdDe (accesoMaestro e c bd)).
Proof.
  intros H. abrir_bf H.
  unfold accesoMaestro, Usuario_findOne, Usuario_new, Usuario_save,
    RefreshToken_create.
  desplegar. casos_meta; cerrar_bf.
Qed.

Lemma adminTest_no_escribe e req bd : bdDe (adminTest e req bd) = bd.
Proof.
  unfold adminTest, autenticarJWT, esAdmin, Usuario_findById_cadena,
    Usuario_findById.
  desplegar. casos_meta; reflexivity.
Qed.

Lemma adminTest_bien_formada e req bd :
  bien_formada bd -> bien_formada (bdDe (adminTest e req bd)).
Proof. intros H. now rewrite adminTest_no_escribe. Qed.

(** Whatever requests were served and whatever the TTL monitor deleted,
    [_id] values are unique and fresh, the unique indexes hold, and each
    phone has at most one pending code. *)
Theorem alcanzable_bien_formada bd : alcanzable bd -> bien_formada bd.
Proof.
  induction 1 as [|bd e s _ IH|bd t _ IH].
  - exact bien_formada_vacia.
  - destruct s; simpl;
      auto using registrarUsuario_bien_formada, verificarUsuario_bien_formada,
        loginUsuario_bien_formada, refrescarToken_bien_formada,
        accesoMaestro_bien_formada, adminTest_bien_formada.
  - now apply expirarTTL_bien_formada.
Qed.


(** ** Further properties of the handlers *)

Lemma find_eliminado_unico {A} (k : A -> string) (l : list A) (s : string) :
  NoDup (map k l) ->
  find (fun x => k x =? s) (eliminarPrimero (fun x => k x =? s) l) = None.
Proof.
  induction l as [|a l IH]; simpl; [reflexivity|].
  intros Hnd. apply NoDup_cons_iff in Hnd as [Hna Hnd].
  destruct (k a =? s) eqn:Ha.
  - apply String.eqb_eq in Ha. subst s. now apply find_ausente.
  - simpl. rewrite Ha. auto.
Qed.

Lemma find_por_id {A} (k : A -> nat) (l : list A) (x : A) :
  NoDup (map k l) -> In x l -> find (fun y => Nat.eqb (k y) (k x)) l = Some x.
Proof.
  induction l as [|a l IH]; simpl; [tauto|].
  intros Hnd Hin. apply NoDup_cons_iff in Hnd as [Hna Hnd].
  destruct Hin as [->|Hin]; [now rewrite Nat.eqb_refl|].
  destruct (Nat.eqb (k a) (k x)) eqn:Ha; [|auto].
  apply Nat.eqb_eq in Ha. exfalso. apply Hna. rewrite Ha. now apply in_map.
Qed.

Lemma token_nuevo_existsb tok (l : list IRefreshToken.t) :
  ~ In tok (map IRefreshToken.token l) ->
  existsb (fun r => IRefreshToken.token r =? tok) l = false.
Proof.
  intros H. rewrite find_existsb.
  destruct (find _ l) eqn:Hf; [|reflexivity].
  apply find_ausente in H. congruence.
Qed.

(** *** Login: the accepted path *)

Lemma loginUsuario_aceptado e telefono codigo bd d :
  find (coincideCodigo (PorTelefono telefono)) (codigos bd) = Some d ->
  ICodigoVerificacion.codigo d = codigo ->
  normalizar P telefono <> "" ->
  ~ In (generarRefreshToken e) (map IRefreshToken.token (refreshTokens bd)) ->
  exists u creado,
    loginUsuario e telefono codigo bd =
      (Ok (enviarRespuestaExitosa "Login exitoso"
             (Some (DatosSesion
                      (generarJWT e
                         {| p_usuarioId := oidToString P (IUsuario._id u);
                            p_telefono := IUsuario.telefono u |})
                      (generarRefreshToken e)
                      {| res_id := IUsuario._id u;
                         res_telefono := IUsuario.telefono u;
                         res_rol := None |}))
             200),
       trasLogin e telefono bd u creado, [])
    /\ IUsuario.telefono u = normalizar P telefono
    /\ (if creado
        then find (fun v => IUsuario.telefono v =? normalizar P telefono)
                  (usuarios bd) = None
             /\ IUsuario._id u = siguienteId bd
             /\ IUsuario.rol u = rol_usuario
             /\ IUsuario.estaVerificado u = false
        else find (fun v => IUsuario.telefono v =? normalizar P telefono)
                  (usuarios bd) = Some u).
Proof.
  intros Hd Hc Hreq Hfresco.
  apply String.eqb_neq in Hreq.
  pose proof (token_nuevo_existsb _ _ Hfresco) as Hex.
  unfold loginUsuario, CodigoVerificacion_findOne, Usuario_findOne, Usuario_new,
    Usuario_save, RefreshToken_create, CodigoVerificacion_deleteOne, trasLogin.
  desplegar. rewrite Hd. subst codigo. rewrite String.eqb_refl. simpl.
  destruct (find (fun u => IUsuario.telefono u =? normalizar P telefono) (usuarios bd))
    as [u|] eqn:Hu; simpl.
  - rewrite Hex. simpl. exists u, false. split; [reflexivity|]. split; [|reflexivity].
    apply find_Some_In in Hu as [_ Hu]. now apply String.eqb_eq in Hu.
  - unfold requerido. rewrite Hreq. simpl.
    rewrite find_existsb, Hu. simpl. rewrite Hex. simpl.
    exists {| IUsuario._id := siguienteId bd;
              IUsuario.telefono := normalizar P telefono;
              IUsuario.estaVerificado := false;
              IUsuario.rol := rol_usuario;
              IUsuario.creadoEn := ahora e;
              IUsuario.actualizadoEn := ahora e |}, true.
    split; [reflexivity|]. simpl. auto.
Qed.

(** X1. When the code matches, the phone passes [required] and the token
    drawn is not stored yet, Login answers 200 and the three values it
    returns agree with what it stored: the user summary is that of the
    stored user of the phone, the access token is signed for that user's
    id and phone, and the refresh token returned is stored in exactly one
    new session, owned by that user. The code of the phone is deleted by
    phone, and nothing is sent. *)
Theorem login_exito_coherente e telefono codigo bd d :
  find (coincideCodigo (PorTelefono telefono)) (codigos bd) = Some d ->
  ICodigoVerificacion.codigo d = codigo ->
  normalizar P telefono <> "" ->
  ~ In (generarRefreshToken e) (map IRefreshToken.token (refreshTokens bd)) ->
  exists r bd1 u ses,
    loginUsuario e telefono codigo bd = (Ok r, bd1, [])
    /\ status r = 200
    /\ sesionDe r =
         Some (generarJWT e {| p_usuarioId := oidToString P (IUsuario._id u);
                               p_telefono := normalizar P telefono |},
               generarRefreshToken e,
               {| res_id := IUsuario._id u;
                  res_telefono := normalizar P telefono;
                  res_rol := None |})
    /\ find (fun v => IUsuario.telefono v =? normalizar P telefono) (usuarios bd1)
       = Some u
    /\ refreshTokens bd1 = refreshTokens bd ++ [ses]
    /\ IRefreshToken.token ses = generarRefreshToken e
    /\ IRefreshToken.usuarioId ses = IUsuario._id u
    /\ codigos bd1
       = eliminarPrimero (coincideCodigo (PorTelefono telefono)) (codigos bd).
Proof.
  intros Hd Hc Hreq Hfresco.
  destruct (loginUsuario_aceptado e telefono codigo bd d Hd Hc Hreq Hfresco)
    as (u & creado & Heq & Htel & Hu).
  rewrite Htel in Heq.
  eexists. eexists. exists u. eexists. split; [exact Heq|].
  split; [reflexivity|]. split; [reflexivity|]. split; [|repeat split].
  unfold trasLogin. simpl. destruct creado.
  - destruct Hu as (Hu & _). apply find_app_nuevo; [exact Hu|].
    rewrite Htel. apply String.eqb_refl.
  - exact Hu.
Qed.

(** X2. A code is good for one login: after a successful Login on a
    database with one code per phone, the phone has no code left, and both
    Login and Verify with the same code are rejected. *)
Theorem login_consume_el_codigo e e' telefono codigo bd d :
  un_codigo_por_telefono bd ->
  find (coincideCodigo (PorTelefono telefono)) (codigos bd) = Some d ->
  ICodigoVerificacion.codigo d = codigo ->
  normalizar P telefono <> "" ->
  ~ In (generarRefreshToken e) (map IRefreshToken.token (refreshTokens bd)) ->
  exists r bd1,
    loginUsuario e telefono codigo bd = (Ok r, bd1, [])
    /\ exito (cuerpo r) = true
    /\ find (coincideCodigo (PorTelefono telefono)) (codigos bd1) = None
    /\ loginUsuario e' telefono codigo bd1 =
         (Ok (enviarRespuestaError "Código inválido o expirado" "CODIGO_INVALIDO"
                None 400), bd1, [])
    /\ verificarUsuario telefono codigo bd1 =
         (Ok (enviarRespuestaError "Código incorrecto o expirado"
                "CODIGO_INVALIDO_O_EXPIRADO" None 400), bd1, []).
Proof.
  intros Huno Hd Hc Hreq Hfresco.
  destruct (loginUsuario_aceptado e telefono codigo bd d Hd Hc Hreq Hfresco)
    as (u & creado & Heq & _).
  assert (Hnone : find (coincideCodigo (PorTelefono telefono))
                       (codigos (trasLogin e telefono bd u creado)) = None).
  { simpl. apply (find_eliminado_unico ICodigoVerificacion.telefono). exact Huno. }
  eexists. eexists. split; [exact Heq|]. split; [reflexivity|].
  split; [exact Hnone|]. split.
  - unfold loginUsuario, CodigoVerificacion_findOne. desplegar.
    simpl in Hnone. now rewrite Hnone.
  - apply verificarUsuario_fallo.
    apply (find_conjuncion_ninguno (coincideCodigo (PorTelefono telefono))).
    exact Hnone.
Qed.


(** *** Refresh: the other paths *)

Lemma refrescarToken_renueva e t bd s u :
  find (fun r => IRefreshToken.token r =? t) (refreshTokens bd) = Some s ->
  find (fun v => Nat.eqb (IUsuario._id v) (IRefreshToken.usuarioId s)) (usuarios bd)
    = Some u ->
  ~ In (generarRefreshToken e)
       (map IRefreshToken.token (sinSesion (IRefreshToken._id s) bd)) ->
  refrescarToken e t bd =
    (Ok (enviarRespuestaExitosa "Token renovado correctamente"
           (Some (DatosRenovacion
                    (generarJWT e
                       {| p_usuarioId := oidToString P (IUsuario._id u);
                          p_telefono := IUsuario.telefono u |})
                    (generarRefreshToken e))) 200),
     trasRefresh e bd s u, []).
Proof.
  intros Hs Hu Hfresco. apply token_nuevo_existsb in Hfresco.
  unfold refrescarToken, RefreshToken_findOne, Usuario_findById,
    RefreshToken_deleteOne, RefreshToken_create, trasRefresh.
  unfold sinSesion in *.
  desplegar. rewrite Hs. simpl. rewrite Hu. simpl. rewrite Hfresco. reflexivity.
Qed.

Lemma length_eliminarPrimero {A} (p : A -> bool) (l : list A) (x : A) :
  In x l -> p x = true ->
  S (List.length (eliminarPrimero p l)) = List.length l.
Proof.
  induction l as [|a l IH]; simpl; [tauto|].
  intros Hin Hp. destruct (p a) eqn:Ha; [reflexivity|].
  destruct Hin as [->|Hin]; [congruence|].
  simpl. f_equal. auto.
Qed.

Lemma In_eliminarPrimero_otro {A} (k : A -> nat) (l : list A) (n : nat) (y : A) :
  In y l -> k y <> n -> In y (eliminarPrimero (fun x => Nat.eqb (k x) n) l).
Proof.
  induction l as [|a l IH]; simpl; [tauto|].
  intros Hin Hk. destruct (Nat.eqb (k a) n) eqn:Ha.
  - apply Nat.eqb_eq in Ha. destruct Hin as [->|Hin]; [congruence | exact Hin].
  - destruct Hin as [->|Hin]; simpl; auto.
Qed.

Lemma In_sinSesion id bd r :
  In r (sinSesion id bd) -> In r (refreshTokens bd).
Proof. apply In_eliminarPrimero. Qed.



(** X3. A session whose user is gone is never consumed: Refresh answers
    USUARIO_NO_EXISTE (status 400) before deleting anything, so the
    database is unchanged and the same token gets the same answer
    again. *)
Theorem refresh_sesion_huerfana e t bd s :
  find (fun r => IRefreshToken.token r =? t) (refreshTokens bd) = Some s ->
  find (fun v => Nat.eqb (IUsuario._id v) (IRefreshToken.usuarioId s)) (usuarios bd)
    = None ->
  refrescarToken e t bd =
    (Ok (enviarRespuestaError "Usuario no encontrado" "USUARIO_NO_EXISTE" None 400),
     bd, [])
  /\ find (fun r => IRefreshToken.token r =? t)
          (refreshTokens (bdDe (refrescarToken e t bd))) = Some s.
Proof.
  intros Hs Hu.
  assert (H : refrescarToken e t bd =
    (Ok (enviarRespuestaError "Usuario no encontrado" "USUARIO_NO_EXISTE" None 400),
     bd, [])).
  { unfold refrescarToken, RefreshToken_findOne, Usuario_findById.
    desplegar. rewrite Hs. simpl. now rewrite Hu. }
  split; [exact H|]. rewrite H. exact Hs.
Qed.

(** X4. Rotation composes: when each draw is a token not stored and
    different from the previous draw, the token returned by a successful
    Refresh is itself accepted by the next Refresh, the session it buys
    belongs to the same user, and the number of stored sessions is the
    same after one and after two rotations as before. *)
Theorem refresh_en_cadena e e' t bd s u :
  find (fun r => IRefreshToken.token r =? t) (refreshTokens bd) = Some s ->
  find (fun v => Nat.eqb (IUsuario._id v) (IRefreshToken.usuarioId s)) (usuarios bd)
    = Some u ->
  ~ In (generarRefreshToken e) (map IRefreshToken.token (refreshTokens bd)) ->
  ~ In (generarRefreshToken e') (map IRefreshToken.token (refreshTokens bd)) ->
  generarRefreshToken e' <> generarRefreshToken e ->
  exists jwt1 jwt2 bd1 bd2 ses,
    refrescarToken e t bd =
      (Ok (enviarRespuestaExitosa "Token renovado correctamente"
             (Some (DatosRenovacion jwt1 (generarRefreshToken e))) 200), bd1, [])
    /\ refrescarToken e' (generarRefreshToken e) bd1 =
         (Ok (enviarRespuestaExitosa "Token renovado correctamente"
                (Some (DatosRenovacion jwt2 (generarRefreshToken e'))) 200), bd2, [])
    /\ List.length (refreshTokens bd1) = List.length (refreshTokens bd)
    /\ List.length (refreshTokens bd2) = List.length (refreshTokens bd)
    /\ find (fun r => IRefreshToken.token r =? generarRefreshToken e')
            (refreshTokens bd2) = Some ses
    /\ IRefreshToken.usuarioId ses = IRefreshToken.usuarioId s
    /\ usuarios bd2 = usuarios bd.
Proof.
  intros Hs Hu He He' Hdist.
  destruct (find_Some_In _ _ _ Hs) as [Hsin _].
  destruct (find_Some_In _ _ _ Hu) as [_ Huid]. apply Nat.eqb_eq in Huid.
  assert (Hresto : ~ In (generarRefreshToken e)
            (map IRefreshToken.token (sinSesion (IRefreshToken._id s) bd))).
  { intros H. apply He. apply in_map_iff in H as (y & <- & Hy).
    apply in_map. eapply In_sinSesion; exact Hy. }
  pose proof (refrescarToken_renueva e t bd s u Hs Hu Hresto) as H1.
  set (nuevo := {| IRefreshToken._id := siguienteId bd;
                   IRefreshToken.token := generarRefreshToken e;
                   IRefreshToken.usuarioId := IUsuario._id u;
                   IRefreshToken.creadoEn := ahora e |}).
  assert (Hn : find (fun r => IRefreshToken.token r =? generarRefreshToken e)
                    (refreshTokens (trasRefresh e bd s u)) = Some nuevo).
  { simpl. apply find_app_nuevo; [now apply find_ausente|].
    exact (String.eqb_refl _). }
  assert (Hu1 : find (fun v => Nat.eqb (IUsuario._id v) (IRefreshToken.usuarioId nuevo))
                     (usuarios (trasRefresh e bd s u)) = Some u).
  { simpl. rewrite Huid. exact Hu. }
  assert (Hresto1 : ~ In (generarRefreshToken e')
            (map IRefreshToken.token
               (sinSesion (IRefreshToken._id nuevo) (trasRefresh e bd s u)))).
  { intros H. apply in_map_iff in H as (y & Hyt & Hy).
    apply In_sinSesion in Hy. simpl in Hy. apply in_app_iff in Hy as [Hy|[<-|[]]].
    - apply He'. rewrite <- Hyt. apply in_map. eapply In_sinSesion; exact Hy.
    - simpl in Hyt. congruence. }
  pose proof (refrescarToken_renueva e' _ _ nuevo u Hn Hu1 Hresto1) as H2.
  assert (Hl1 : List.length (refreshTokens (trasRefresh e bd s u))
                = List.length (refreshTokens bd)).
  { simpl. rewrite List.length_app. simpl. rewrite Nat.add_1_r.
    apply (length_eliminarPrimero _ _ s Hsin). apply Nat.eqb_refl. }
  do 5 eexists. split; [exact H1|]. split; [exact H2|]. split; [exact Hl1|].
  split; [|split; [|split]].
  - rewrite <- Hl1. simpl refreshTokens at 1. rewrite List.length_app. simpl.
    rewrite Nat.add_1_r.
    apply (length_eliminarPrimero _ _ nuevo).
    + simpl. apply in_app_iff. simpl. auto.
    + apply Nat.eqb_refl.
  - simpl refreshTokens at 1. apply find_app_nuevo.
    + apply find_ausente. exact Hresto1.
    + exact (String.eqb_refl _).
  - simpl. congruence.
  - reflexivity.
Qed.

(** X5. Rotation is not atomic. When the token drawn is already stored
    in another session, Refresh answers ERROR_REFRESH_TOKEN (status 400)
    without a new token, yet the session of the token presented has been
    deleted: in a well-formed database that token is gone and a retry is
    answered REFRESH_TOKEN_INVALIDO. *)
Theorem refresh_choque_pierde_la_sesion e e' t bd s u :
  bd_ok bd ->
  find (fun r => IRefreshToken.token r =? t) (refreshTokens bd) = Some s ->
  find (fun v => Nat.eqb (IUsuario._id v) (IRefreshToken.usuarioId s)) (usuarios bd)
    = Some u ->
  In (generarRefreshToken e) (map IRefreshToken.token (refreshTokens bd)) ->
  generarRefreshToken e <> t ->
  exists bd1,
    refrescarToken e t bd =
      (Ok (enviarRespuestaError "Error al procesar el refresh token"
             "ERROR_REFRESH_TOKEN" None 400), bd1, [])
    /\ refreshTokens bd1 = sinSesion (IRefreshToken._id s) bd
    /\ S (List.length (refreshTokens bd1)) = List.length (refreshTokens bd)
    /\ ~ In t (map IRefreshToken.token (refreshTokens bd1))
    /\ refrescarToken e' t bd1 =
         (Ok (enviarRespuestaError "Refresh token inválido o caducado"
                "REFRESH_TOKEN_INVALIDO" None 400), bd1, []).
Proof.
  intros Hok Hs Hu Hin Hdist.
  destruct (find_Some_In _ _ _ Hs) as [Hsin Ht]. apply String.eqb_eq in Ht.
  assert (Hex : existsb (fun r => IRefreshToken.token r =? generarRefreshToken e)
                        (sinSesion (IRefreshToken._id s) bd) = true).
  { apply existsb_exists. apply in_map_iff in Hin as (y & Hyt & Hy).
    exists y. split; [|rewrite Hyt; apply String.eqb_refl].
    apply In_eliminarPrimero_otro; [exact Hy|].
    intros Hid. apply Hdist. rewrite <- Hyt, <- Ht. f_equal.
    apply (NoDup_map_iguales IRefreshToken._id (refreshTokens bd));
      [apply (ok_ids_refresh _ Hok) | exact Hy | exact Hsin | exact Hid]. }
  assert (Hgone : ~ In t (map IRefreshToken.token (sinSesion (IRefreshToken._id s) bd))).
  { intros Hy. apply in_map_iff in Hy as (y & Hyt & Hy).
    assert (Hyid : IRefreshToken._id y <> IRefreshToken._id s)
      by (eapply eliminarPrimero_clave; [apply (ok_ids_refresh _ Hok) | exact Hy]).
    apply Hyid. f_equal.
    apply (NoDup_map_iguales IRefreshToken.token (refreshTokens bd));
      [apply (ok_token_unico _ Hok) | eapply In_sinSesion; exact Hy
      | exact Hsin | congruence]. }
  exists (mkBD (usuarios bd) (codigos bd) (sinSesion (IRefreshToken._id s) bd)
               (siguienteId bd)).
  split; [|split; [reflexivity|]].
  - unfold refrescarToken, RefreshToken_findOne, Usuario_findById,
      RefreshToken_deleteOne, RefreshToken_create.
    unfold sinSesion in *.
    desplegar. rewrite Hs. simpl. rewrite Hu. simpl. rewrite Hex. reflexivity.
  - simpl. split; [|split; [exact Hgone|]].
    + apply (length_eliminarPrimero _ _ s Hsin). apply Nat.eqb_refl.
    + apply refrescarToken_desconocido. simpl. now apply find_ausente.
Qed.


(** *** Register again, and the TTL indexes *)

Lemma length_actualizarPrimero {A} (p : A -> bool) (f : A -> A) (l : list A) :
  List.length (actualizarPrimero p f l) = List.length l.
Proof.
  induction l as [|a l IH]; simpl; [reflexivity|].
  destruct (p a); simpl; auto.
Qed.

Lemma find_filter_sobrevive {A} (p q : A -> bool) (l : list A) (d : A) :
  find p l = Some d -> q d = true -> find p (filter q l) = Some d.
Proof.
  induction l as [|a l IH]; simpl; [discriminate|].
  destruct (p a) eqn:Ha; intros Hf Hq.
  - injection Hf as ->. rewrite Hq. simpl. now rewrite Ha.
  - destruct (q a); simpl; [rewrite Ha|]; auto.
Qed.

Lemma find_filter_ninguno {A} (p q : A -> bool) (l : list A) :
  (forall y, In y l -> p y = true -> q y = false) -> find p (filter q l) = None.
Proof.
  intros H. apply find_None_todos. intros y Hy.
  apply filter_In in Hy as [Hy Hq].
  destruct (p y) eqn:Hp; [|reflexivity].
  rewrite (H y Hy Hp) in Hq. discriminate.
Qed.

(** With one row per phone, the row found by phone is the only one of
    that phone. *)
Lemma unico_del_telefono telefono (l : list ICodigoVerificacion.t) d y :
  NoDup (map ICodigoVerificacion.telefono l) ->
  find (coincideCodigo (PorTelefono telefono)) l = Some d ->
  In y l -> coincideCodigo (PorTelefono telefono) y = true -> y = d.
Proof.
  intros Hnd Hf Hy Hp.
  destruct (find_Some_In _ _ _ Hf) as [Hd Hpd].
  simpl in Hp, Hpd. apply String.eqb_eq in Hp, Hpd.
  apply (NoDup_map_iguales ICodigoVerificacion.telefono l); auto. congruence.
Qed.

Lemma registrarUsuario_bd e telefono bd :
  bdDe (registrarUsuario e telefono bd)
  = bdDe (CodigoVerificacion_findOneAndUpdate telefono telefono
            (generarCodigo e) (ahora e) bd).
Proof. now rewrite registrarUsuario_eq. Qed.

(** X6. Registering again overwrites: on a well-formed database with one
    code per phone, a second Register for the phone keeps its row (same
    [_id], same number of rows) and replaces code and date, so that Verify
    with the first code is rejected (when the two codes differ) and Verify
    with the second is accepted. *)
Theorem registro_ultimo_codigo_gana e1 e2 telefono bd :
  bd_ok bd -> un_codigo_por_telefono bd ->
  recortar P (generarCodigo e1) <> recortar P (generarCodigo e2) ->
  exists d1 d2,
    find (coincideCodigo (PorTelefono telefono))
         (codigos (bdDe (registrarUsuario e1 telefono bd))) = Some d1
    /\ find (coincideCodigo (PorTelefono telefono))
            (codigos (bdDe (registrarUsuario e2 telefono
                              (bdDe (registrarUsuario e1 telefono bd))))) = Some d2
    /\ ICodigoVerificacion._id d2 = ICodigoVerificacion._id d1
    /\ ICodigoVerificacion.codigo d2 = recortar P (generarCodigo e2)
    /\ ICodigoVerificacion.creadoEn d2 = ahora e2
    /\ List.length (codigos (bdDe (registrarUsuario e2 telefono
                                     (bdDe (registrarUsuario e1 telefono bd)))))
       = List.length (codigos (bdDe (registrarUsuario e1 telefono bd)))
    /\ resultadoDe (verificarUsuario telefono (generarCodigo e1)
                      (bdDe (registrarUsuario e2 telefono
                               (bdDe (registrarUsuario e1 telefono bd)))))
       = Ok (enviarRespuestaError "Código incorrecto o expirado"
               "CODIGO_INVALIDO_O_EXPIRADO" None 400)
    /\ resultadoDe (verificarUsuario telefono (generarCodigo e2)
                      (bdDe (registrarUsuario e2 telefono
                               (bdDe (registrarUsuario e1 telefono bd)))))
       = Ok (enviarRespuestaExitosa "Código verificado correctamente" None 200).
Proof.
  intros Hok Huno Hdif.
  pose proof (registrarUsuario_bien_formada e1 telefono bd (conj Hok Huno)) as Hbf1.
  set (bd1 := bdDe (registrarUsuario e1 telefono bd)) in *.
  pose proof (registrarUsuario_bien_formada e2 telefono bd1 Hbf1) as Hbf2.
  assert (Hf1 : exists d1, find (coincideCodigo (PorTelefono telefono)) (codigos bd1)
                           = Some d1).
  { unfold bd1. rewrite registrarUsuario_bd.
    destruct (upsert_encontrado telefono (generarCodigo e1) (ahora e1) bd)
      as (d & Hf & _). eauto. }
  destruct Hf1 as [d1 Hf1].
  set (d2 := {| ICodigoVerificacion._id := ICodigoVerificacion._id d1;
                ICodigoVerificacion.telefono := normalizar P telefono;
                ICodigoVerificacion.codigo := recortar P (generarCodigo e2);
                ICodigoVerificacion.creadoEn := ahora e2 |}).
  assert (Hbd2 : codigos (bdDe (registrarUsuario e2 telefono bd1))
                 = actualizarPrimero (coincideCodigo (PorTelefono telefono))
                                     (fun _ => d2) (codigos bd1)).
  { rewrite registrarUsuario_bd. unfold CodigoVerificacion_findOneAndUpdate, bdDe.
    rewrite Hf1. reflexivity. }
  assert (Hf2 : find (coincideCodigo (PorTelefono telefono))
                     (codigos (bdDe (registrarUsuario e2 telefono bd1))) = Some d2).
  { rewrite Hbd2.
    apply (find_actualizarPrimero _ (fun _ => d2) _ d1 Hf1).
    simpl. apply String.eqb_refl. }
  exists d1, d2. split; [exact Hf1|]. split; [exact Hf2|].
  split; [reflexivity|]. split; [reflexivity|]. split; [reflexivity|].
  split; [rewrite Hbd2; apply length_actualizarPrimero|]. split.
  - rewrite verificarUsuario_fallo; [reflexivity|].
    apply find_None_todos. intros y Hy. simpl.
    destruct (ICodigoVerificacion.telefono y =? normalizar P telefono) eqn:Hp;
      [|reflexivity].
    rewrite (unico_del_telefono telefono _ d2 y (proj2 Hbf2) Hf2 Hy Hp). simpl.
    apply String.eqb_neq. congruence.
  - rewrite (verificarUsuario_exito _ _ _ d2); [reflexivity|].
    apply (find_conjuncion (coincideCodigo (PorTelefono telefono))
             (fun x => ICodigoVerificacion.codigo x =? recortar P (generarCodigo e2)));
      [exact Hf2 | exact (String.eqb_refl _)].
Qed.

(** X7. The code of a registration lives 300 seconds. On a well-formed
    database with one code per phone, once the TTL index has run at a time
    300 seconds or more after the Register, the phone has no code:
    Verify and Login are rejected whatever code is sent. Before that time
    the row is still there and Verify with the generated code succeeds. *)
Theorem codigo_caduca_a_los_300_segundos e e' telefono bd t :
  bd_ok bd -> un_codigo_por_telefono bd ->
  ((ahora e + 300 <= t)%N ->
   forall c,
     verificarUsuario telefono c
       (expirarTTL t (bdDe (registrarUsuario e telefono bd)))
     = (Ok (enviarRespuestaError "Código incorrecto o expirado"
              "CODIGO_INVALIDO_O_EXPIRADO" None 400),
        expirarTTL t (bdDe (registrarUsuario e telefono bd)), [])
     /\ loginUsuario e' telefono c
          (expirarTTL t (bdDe (registrarUsuario e telefono bd)))
        = (Ok (enviarRespuestaError "Código inválido o expirado" "CODIGO_INVALIDO"
                 None 400),
           expirarTTL t (bdDe (registrarUsuario e telefono bd)), []))
  /\ ((t < ahora e + 300)%N ->
      resultadoDe (verificarUsuario telefono (generarCodigo e)
                     (expirarTTL t (bdDe (registrarUsuario e telefono bd))))
      = Ok (enviarRespuestaExitosa "Código verificado correctamente" None 200)).
Proof.
  intros Hok Huno.
  pose proof (registrarUsuario_bien_formada e telefono bd (conj Hok Huno)) as Hbf1.
  rewrite registrarUsuario_bd in *.
  destruct (upsert_encontrado telefono (generarCodigo e) (ahora e) bd)
    as (d & Hf & Htel & Hcod & Hfecha).
  set (bd1 := bdDe (CodigoVerificacion_findOneAndUpdate telefono telefono
                      (generarCodigo e) (ahora e) bd)) in *.
  split.
  - intros Ht c.
    assert (Hnone : find (coincideCodigo (PorTelefono telefono))
                         (codigos (expirarTTL t bd1)) = None).
    { simpl. apply find_filter_ninguno. intros y Hy Hp.
      rewrite (unico_del_telefono telefono _ d y (proj2 Hbf1) Hf Hy Hp).
      rewrite Hfecha. apply N.ltb_ge. exact Ht. }
    split.
    + apply verificarUsuario_fallo.
      apply (find_conjuncion_ninguno (coincideCodigo (PorTelefono telefono))).
      exact Hnone.
    + unfold loginUsuario, CodigoVerificacion_findOne. desplegar.
      simpl in Hnone. now rewrite Hnone.
  - intros Ht.
    rewrite (verificarUsuario_exito _ _ _ d); [reflexivity|].
    simpl. apply find_filter_sobrevive.
    + apply (find_conjuncion (coincideCodigo (PorTelefono telefono))
               (fun x => ICodigoVerificacion.codigo x =? recortar P (generarCodigo e)));
        [exact Hf | rewrite Hcod; exact (String.eqb_refl _)].
    + rewrite Hfecha. apply N.ltb_lt. exact Ht.
Qed.

(** X8. A refresh session lives 30 days. In a well-formed database, once
    the TTL index has run 30 days or more after the creation of the
    session of a token, Refresh with that token is answered
    REFRESH_TOKEN_INVALIDO; before that, the TTL index leaves the session
    in place. *)
Theorem sesion_caduca_a_los_30_dias e tok bd s t :
  bd_ok bd ->
  find (fun r => IRefreshToken.token r =? tok) (refreshTokens bd) = Some s ->
  ((IRefreshToken.creadoEn s + 60 * 60 * 24 * 30 <= t)%N ->
   refrescarToken e tok (expirarTTL t bd)
   = (Ok (enviarRespuestaError "Refresh token inválido o caducado"
            "REFRESH_TOKEN_INVALIDO" None 400), expirarTTL t bd, []))
  /\ ((t < IRefreshToken.creadoEn s + 60 * 60 * 24 * 30)%N ->
      find (fun r => IRefreshToken.token r =? tok) (refreshTokens (expirarTTL t bd))
      = Some s).
Proof.
  intros Hok Hs. split; intros Ht.
  - apply refrescarToken_desconocido. simpl.
    apply find_filter_ninguno. intros y Hy Hp.
    destruct (find_Some_In _ _ _ Hs) as [Hsin Hps].
    apply String.eqb_eq in Hp, Hps.
    rewrite (NoDup_map_iguales IRefreshToken.token (refreshTokens bd) y s
               (ok_token_unico _ Hok) Hy Hsin) by congruence.
    apply N.ltb_ge. exact Ht.
  - simpl. apply find_filter_sobrevive; [exact Hs|]. apply N.ltb_lt. exact Ht.
Qed.


(** *** What no request does *)

Lemma find_In {A} (p : A -> bool) (l : list A) (x : A) :
  find p l = Some x -> In x l.
Proof. intros H. now apply find_some in H. Qed.

Ltac resolver_usuarios :=
  first
    [ exists []; split; [symmetry; apply app_nil_r|];
      split; [simpl; lia | constructor]
    | eexists; split; [reflexivity|];
      split; [simpl; lia|];
      repeat constructor; simpl; try reflexivity; try discriminate ].

Ltac resolver_sesiones :=
  apply Forall_forall;
  let r := fresh "r" in
  let Hr := fresh "Hr" in
  intros r Hr;
  repeat match type of Hr with
         | In _ (_ ++ _) => apply in_app_iff in Hr as [Hr|Hr]
         end;
  first
    [ left; exact Hr
    | left; eapply In_eliminarPrimero; exact Hr
    | destruct Hr as [<-|[]]; right; simpl;
      first
        [ apply in_map; eapply find_In; eassumption
        | rewrite map_app; apply in_app_iff; right; simpl; left; reflexivity ] ].

Ltac resolver_paso :=
  split; [resolver_usuarios | resolver_sesiones].

Lemma registrarUsuario_paso e telefono bd :
  paso_coherente bd (bdDe (registrarUsuario e telefono bd)).
Proof.
  rewrite registrarUsuario_bd.
  unfold CodigoVerificacion_findOneAndUpdate, bdDe, paso_coherente.
  destruct (find _ (codigos bd)); simpl; resolver_paso.
Qed.

Lemma verificarUsuario_paso telefono codigo bd :
  paso_coherente bd (bdDe (verificarUsuario telefono codigo bd)).
Proof.
  unfold verificarUsuario, CodigoVerificacion_findOne, CodigoVerificacion_deleteOne,
    paso_coherente.
  desplegar. casos_meta; resolver_paso.
Qed.

Lemma loginUsuario_paso e telefono codigo bd :
  paso_coherente bd (bdDe (loginUsuario e telefono codigo bd)).
Proof.
  unfold loginUsuario, CodigoVerificacion_findOne, Usuario_findOne, Usuario_new,
    Usuario_save, RefreshToken_create, CodigoVerificacion_deleteOne, paso_coherente.
  desplegar. casos_meta; resolver_paso.
Qed.

Lemma refrescarToken_paso e t bd :
  paso_coherente bd (bdDe (refrescarToken e t bd)).
Proof.
  unfold refrescarToken, RefreshToken_findOne, Usuario_findById,
    RefreshToken_deleteOne, RefreshToken_create, paso_coherente.
  desplegar. casos_meta; resolver_paso.
Qed.

Lemma accesoMaestro_paso_coherente e c bd :
  paso_coherente bd (bdDe (accesoMaestro e c bd)).
Proof.
  unfold accesoMaestro, Usuario_findOne, Usuario_new, Usuario_save,
    RefreshToken_create, paso_coherente.
  desplegar. casos_meta; resolver_paso.
Qed.

Lemma atender_paso e s bd : paso_coherente bd (bdDe (atender e s bd)).
Proof.
  destruct s; simpl;
    auto using registrarUsuario_paso, verificarUsuario_paso, loginUsuario_paso,
      refrescarToken_paso, accesoMaestro_paso_coherente.
  rewrite adminTest_no_escribe. unfold paso_coherente. resolver_paso.
Qed.

Lemma paso_conserva_coherente bd bd' :
  coherente bd -> paso_coherente bd bd' -> coherente bd'.
Proof.
  intros [Hus Hses] [(us & Heq & _ & Hnew) Hstep]. split.
  - rewrite Heq. apply Forall_app. auto.
  - apply Forall_forall. intros r Hr.
    rewrite Forall_forall in Hstep, Hses.
    destruct (Hstep r Hr) as [Hold | Hin]; [|exact Hin].
    rewrite Heq, map_app. apply in_app_iff. left. auto.
Qed.

Lemma alcanzable_coherente bd : alcanzable bd -> coherente bd.
Proof.
  induction 1 as [|bd e s _ IH|bd t _ IH].
  - split; constructor.
  - eapply paso_conserva_coherente; [exact IH | apply atender_paso].
  - destruct IH as [Hus Hses]. split; [exact Hus|].
    simpl. apply Forall_filtro. exact Hses.
Qed.


Lemma atender_eventos e s bd :
  match s with
  | PostRegistro telefono =>
      exists bd1,
        eventosDe (atender e s bd) =
          [SmsIntentado bd1 telefono
             (String.append "Tu código de verificación es: " (generarCodigo e))]
  | _ => eventosDe (atender e s bd) = []
  end.
Proof.
  destruct s; simpl.
  - rewrite registrarUsuario_eq. cbv zeta. unfold eventosDe. simpl. eauto.
  - unfold verificarUsuario, CodigoVerificacion_findOne, CodigoVerificacion_deleteOne.
    desplegar. casos_meta; reflexivity.
  - unfold loginUsuario, CodigoVerificacion_findOne, Usuario_findOne, Usuario_new,
      Usuario_save, RefreshToken_create, CodigoVerificacion_deleteOne.
    desplegar. casos_meta; reflexivity.
  - unfold refrescarToken, RefreshToken_findOne, Usuario_findById,
      RefreshToken_deleteOne, RefreshToken_create.
    desplegar. casos_meta; reflexivity.
  - unfold accesoMaestro, Usuario_findOne, Usuario_new, Usuario_save,
      RefreshToken_create.
    desplegar. casos_meta; reflexivity.
  - unfold adminTest, autenticarJWT, esAdmin, Usuario_findById_cadena,
      Usuario_findById.
    desplegar. casos_meta; reflexivity.
Qed.

Section PropiedadesDeApp.

Variable zod : string -> ValorJSON -> string.

(** A request is answered by the validation middleware, by the not-found
    middleware, or by one of the six handlers. *)
Lemma app_es_atender e sol :
  (exists r, app zod e sol = ret r
             /\ (r = rutaNoEncontrada
                 \/ exists schema, esquemaDe (sol_endpoint sol) = Some schema
                                   /\ validarRequest zod schema (sol_body sol)
                                      = Rechaza r))
  \/ (exists s, app zod e sol = atender e s
                /\ (forall telefono, s = PostRegistro telefono ->
                      sol_endpoint sol = PostAutenticacionRegistro
                      /\ telefono = cadena (campoDe (sol_body sol) "telefono"))).
Proof.
  unfold app, conValidacion.
  destruct (sol_endpoint sol); simpl;
    try (destruct (validarRequest zod _ (sol_body sol)) eqn:Hv;
         [left; eexists; split; [reflexivity|]; right; eexists; split;
          [reflexivity | exact Hv]|]).
  - right. exists (PostAccesoMaestro (cadenaOpcional (campoDe (sol_body sol) "codigo"))).
    split; [reflexivity | discriminate].
  - right. exists (PostRegistro (cadena (campoDe (sol_body sol) "telefono"))).
    split; [reflexivity|]. intros telefono H. injection H as <-. auto.
  - right. exists (PostVerificar (cadena (campoDe (sol_body sol) "telefono"))
                                 (cadena (campoDe (sol_body sol) "codigo"))).
    split; [reflexivity | discriminate].
  - right. exists (PostLogin (cadena (campoDe (sol_body sol) "telefono"))
                             (cadena (campoDe (sol_body sol) "codigo"))).
    split; [reflexivity | discriminate].
  - right. exists (PostRefresh (cadena (campoDe (sol_body sol) "refreshToken"))).
    split; [reflexivity | discriminate].
  - right. exists (PostAccesoMaestro (cadenaOpcional (campoDe (sol_body sol) "codigo"))).
    split; [reflexivity | discriminate].
  - right. exists (GetAdminTest {| authorization := sol_authorization sol;
                                   usuario := None |}).
    split; [reflexivity | discriminate].
  - left. eexists. split; [reflexivity|]. left. reflexivity.
Qed.

(** X9. Users are only ever added: whatever the request, the users
    stored after it are those stored before, in the same order and
    unchanged, followed by at most one new user, and a new user is not
    verified. *)
Theorem app_usuarios_solo_se_agregan e sol bd :
  exists us,
    usuarios (bdDe (app zod e sol bd)) = usuarios bd ++ us
    /\ List.length us <= 1
    /\ Forall (fun u => IUsuario.estaVerificado u = false) us.
Proof.
  destruct (app_es_atender e sol) as [(r & -> & _) | (s & -> & _)].
  - exists []. simpl. rewrite app_nil_r. repeat split; [lia | constructor].
  - destruct (atender_paso e s bd) as [(us & Heq & Hlen & Hus) _].
    exists us. split; [exact Heq|]. split; [exact Hlen|].
    eapply Forall_impl; [|exact Hus]. intros u [H _]. exact H.
Qed.

(** X10. An SMS is sent only by the register route and only when the
    body passed validation: such a request attempts exactly one, addressed
    to the phone string as it came in the body and carrying the
    generated code; every other request attempts none. *)
Theorem app_sms_solo_en_registro e sol bd :
  (sol_endpoint sol = PostAutenticacionRegistro ->
   validarRequest zod registroSchema (sol_body sol) = Pasa ->
   exists bd1,
     eventosDe (app zod e sol bd) =
       [SmsIntentado bd1 (cadena (campoDe (sol_body sol) "telefono"))
          (String.append "Tu código de verificación es: " (generarCodigo e))])
  /\ (sol_endpoint sol <> PostAutenticacionRegistro
      \/ validarRequest zod registroSchema (sol_body sol) <> Pasa ->
      eventosDe (app zod e sol bd) = []).
Proof.
  split.
  - intros Hep Hv. unfold app, conValidacion. rewrite Hep, Hv.
    exact (atender_eventos e (PostRegistro _) bd).
  - intros Hno.
    destruct (sol_endpoint sol) eqn:Hep;
      try (clear Hno; unfold app, conValidacion; rewrite Hep;
           try destruct (validarRequest zod _ (sol_body sol)); try reflexivity;
           match goal with
           | |- eventosDe (?h ?bd) = [] =>
               first [ exact (atender_eventos e (PostAccesoMaestro _) bd)
                     | exact (atender_eventos e (PostVerificar _ _) bd)
                     | exact (atender_eventos e (PostLogin _ _) bd)
                     | exact (atender_eventos e (PostRefresh _) bd)
                     | exact (atender_eventos e (GetAdminTest _) bd) ]
           end).
    destruct Hno as [Hno | Hno]; [congruence|].
    unfold app, conValidacion. rewrite Hep.
    destruct (validarRequest zod registroSchema (sol_body sol));
      [reflexivity | congruence].
Qed.

End PropiedadesDeApp.

Lemma find_por_clave_presente {A} (k : A -> nat) (l : list A) (n : nat) :
  In n (map k l) -> exists x, find (fun y => Nat.eqb (k y) n) l = Some x.
Proof.
  induction l as [|a l IH]; simpl; [tauto|].
  intros [Ha | Hin].
  - subst n. rewrite Nat.eqb_refl. eauto.
  - destruct (Nat.eqb (k a) n); eauto.
Qed.

(** X11. Sessions never outlive their user: in every reachable state
    each stored session names a stored user, so Refresh is never answered
    USUARIO_NO_EXISTE there. *)
Theorem sesiones_siempre_con_usuario bd :
  alcanzable bd ->
  (forall s, In s (refreshTokens bd) ->
     exists u, find (fun v => Nat.eqb (IUsuario._id v) (IRefreshToken.usuarioId s))
                    (usuarios bd) = Some u)
  /\ forall e t r,
       resultadoDe (refrescarToken e t bd) = Ok r ->
       codigo (cuerpo r) <> Some "USUARIO_NO_EXISTE".
Proof.
  intros Halc. destruct (alcanzable_coherente bd Halc) as [_ Hses].
  rewrite Forall_forall in Hses.
  assert (Hu : forall s, In s (refreshTokens bd) ->
     exists u, find (fun v => Nat.eqb (IUsuario._id v) (IRefreshToken.usuarioId s))
                    (usuarios bd) = Some u).
  { intros s Hs. apply find_por_clave_presente. auto. }
  split; [exact Hu|].
  intros e t r.
  unfold refrescarToken, RefreshToken_findOne, Usuario_findById,
    RefreshToken_deleteOne, RefreshToken_create.
  desplegar.
  destruct (find (fun r0 => IRefreshToken.token r0 =? t) (refreshTokens bd))
    as [s|] eqn:Hs; simpl.
  - destruct (Hu s (find_In _ _ _ Hs)) as [u Hfu]. rewrite Hfu. simpl.
    destruct (existsb _ _); simpl; intros H; injection H as <-; discriminate.
  - intros H; injection H as <-; discriminate.
Qed.

(** X12. No flow verifies a user: in every reachable state every stored
    user has [estaVerificado = false], including those who verified a
    code and those who logged in. *)
Theorem nadie_queda_verificado bd :
  alcanzable bd ->
  Forall (fun u => IUsuario.estaVerificado u = false) (usuarios bd).
Proof.
  intros Halc. destruct (alcanzable_coherente bd Halc) as [Hus _].
  eapply Forall_impl; [|exact Hus]. intros u [H _]. exact H.
Qed.

(** X13. The admin role is tied to the admin phone: in every reachable
    state a user with role admin has the configured admin phone, and
    there is at most one such user. *)
Theorem admin_solo_con_el_telefono_admin bd :
  alcanzable bd ->
  (forall u, In u (usuarios bd) -> IUsuario.rol u = rol_admin ->
     IUsuario.telefono u = normalizar P (TELEFONO_ADMIN env))
  /\ forall u v, In u (usuarios bd) -> In v (usuarios bd) ->
       IUsuario.rol u = rol_admin -> IUsuario.rol v = rol_admin -> u = v.
Proof.
  intros Halc. destruct (alcanzable_coherente bd Halc) as [Hus _].
  destruct (alcanzable_bien_formada bd Halc) as [Hok _].
  rewrite Forall_forall in Hus.
  assert (H : forall u, In u (usuarios bd) -> IUsuario.rol u = rol_admin ->
     IUsuario.telefono u = normalizar P (TELEFONO_ADMIN env))
    by (intros u Hu; apply (Hus u Hu)).
  split; [exact H|].
  intros u v Hu Hv Hru Hrv.
  apply (NoDup_map_iguales IUsuario.telefono (usuarios bd));
    [apply (ok_telefono_unico _ Hok) | exact Hu | exact Hv|].
  rewrite (H u Hu Hru), (H v Hv Hrv). reflexivity.
Qed.


(** *** Validation and routes *)






Section PropiedadesDeValidacion.

Variable zod : string -> ValorJSON -> string.

Lemma parseCampo_vacio body c :
  parseCampo zod body c = [] <->
  exists s, campoDe body (fst c) = JString s
            /\ cumple (snd c) (recortar P s) = true.
Proof.
  unfold parseCampo. split.
  - destruct (campoDe body (fst c)) as [| | | |s| |]; try discriminate.
    destruct (cumple (snd c) (recortar P s)) eqn:Hc; [eauto | discriminate].
  - intros (s & -> & ->). reflexivity.
Qed.

(** X15. The validation middleware lets a request through exactly when
    the body is an object in which every field of the schema is a string
    whose trimmed value passes the field's check; the value handed to the
    handler is the untrimmed one. *)
Theorem validarRequest_pasa_sii schema body :
  validarRequest zod schema body = Pasa <->
  (exists campos, body = BodyObjeto campos)
  /\ Forall (fun c => exists s, campoDe body (fst c) = JString s
                                /\ cumple (snd c) (recortar P s) = true)
            schema.
Proof.
  unfold validarRequest, schema_parse.
  destruct body as [campos|].
  - assert (H : flat_map (parseCampo zod (BodyObjeto campos)) schema = [] <->
                Forall (fun c => exists s,
                            campoDe (BodyObjeto campos) (fst c) = JString s
                            /\ cumple (snd c) (recortar P s) = true) schema).
    { induction schema as [|c schema IH]; simpl.
      - split; [constructor | reflexivity].
      - split.
        + intros H. apply app_eq_nil in H as [Hc Hr].
          constructor;
            [exact (proj1 (parseCampo_vacio (BodyObjeto campos) c) Hc)
            | now apply IH].
        + intros H. inversion H as [|? ? Hc Hr]; subst.
          apply (proj2 (parseCampo_vacio (BodyObjeto campos) c)) in Hc.
          apply IH in Hr. now rewrite Hc, Hr. }
    destruct (flat_map (parseCampo zod (BodyObjeto campos)) schema) eqn:E.
    + split; [intros _; split; [eauto | now apply H] | reflexivity].
    + split; [discriminate|]. intros [_ HF]. apply H in HF. discriminate.
  - split; [discriminate|]. intros [[campos Hc] _]. discriminate.
Qed.

Lemma parseCampo_forma body c :
  Forall (fun i => path i = [fst c]) (parseCampo zod body c)
  /\ List.length (parseCampo zod body c) <= 1.
Proof.
  unfold parseCampo.
  destruct (campoDe body (fst c)); simpl;
    try destruct (cumple _ _); simpl; split; repeat constructor.
Qed.

Lemma schema_parse_forma schema body :
  Forall (fun i => path i = [] \/ exists c, In c (map fst schema) /\ path i = [c])
         (schema_parse zod schema body)
  /\ List.length (schema_parse zod schema body) <= Nat.max 1 (List.length schema).
Proof.
  unfold schema_parse. destruct body as [campos|].
  - assert (H : Forall (fun i => path i = []
                          \/ exists c, In c (map fst schema) /\ path i = [c])
                       (flat_map (parseCampo zod (BodyObjeto campos)) schema)
                /\ List.length (flat_map (parseCampo zod (BodyObjeto campos)) schema)
                   <= List.length schema).
    { induction schema as [|c schema [IH1 IH2]]; simpl.
      - split; [constructor | lia].
      - destruct (parseCampo_forma (BodyObjeto campos) c) as [Hc1 Hc2].
        split.
        + apply Forall_app. split.
          * eapply Forall_impl; [|exact Hc1]. intros i Hi. right. eauto.
          * eapply Forall_impl; [|exact IH1].
            intros i [Hi | (x & Hx & Hi)]; [left; exact Hi | right; eauto].
        + rewrite List.length_app. lia. }
    destruct H as [H1 H2]. split; [exact H1 | lia].
  - split; [constructor; [left; reflexivity | constructor] | apply Nat.le_max_l].
Qed.

(** X16. A body that fails validation never reaches the handler: the
    route answers 400 with code VALIDACION_DATOS_INVALIDOS and a
    non-empty list of details, at most one per field of the schema and
    each naming a field of the schema (or the body itself), the database
    is unchanged and nothing is sent. *)
Theorem validacion_rechaza_sin_efectos e sol bd schema r :
  esquemaDe (sol_endpoint sol) = Some schema ->
  validarRequest zod schema (sol_body sol) = Rechaza r ->
  app zod e sol bd = (Ok r, bd, [])
  /\ status r = 400
  /\ exito (cuerpo r) = false
  /\ codigo (cuerpo r) = Some "VALIDACION_DATOS_INVALIDOS"
  /\ exists detalles,
       errores (cuerpo r) = Some detalles
       /\ detalles <> []
       /\ List.length detalles <= Nat.max 1 (List.length schema)
       /\ Forall (fun d => campo d = "" \/ In (campo d) (map fst schema)) detalles.
Proof.
  intros Hep Hv. split.
  - unfold app, conValidacion.
    destruct (sol_endpoint sol); simpl in Hep; try discriminate;
      injection Hep as <-; rewrite Hv; reflexivity.
  - unfold validarRequest in Hv.
    destruct (schema_parse_forma schema (sol_body sol)) as [Hp Hl].
    destruct (schema_parse zod schema (sol_body sol)) as [|i otros] eqn:E;
      [discriminate|].
    injection Hv as <-. simpl.
    repeat split; try reflexivity.
    eexists. split; [reflexivity|]. split; [discriminate|].
    split; [simpl in *; rewrite List.length_map; exact Hl|].
    change (Forall (fun d => campo d = "" \/ In (campo d) (map fst schema))
              (map (fun err => mkDetalle (String.concat "." (path err)) (message err))
                   (i :: otros))).
    apply Forall_map. eapply Forall_impl; [|exact Hp].
    intros x [Hx | (c & Hc & Hx)]; simpl; rewrite Hx; simpl; auto.
Qed.

(** X17. The master-access handler is mounted twice, and only one mount
    validates. A body with no string [codigo] is answered 401
    CODIGO_MAESTRO_INVALIDO on [/api/acceso-maestro] and 400
    VALIDACION_DATOS_INVALIDOS on [/api/autenticacion/acceso-maestro],
    with the database unchanged in both; a string whose trimmed value is
    not empty is handled in the same way by both. *)
Theorem acceso_maestro_montado_dos_veces e body auth bd :
  (cadenaOpcional (campoDe body "codigo") = None ->
   app zod e (mkSolicitudHTTP PostApiAccesoMaestro body auth) bd
   = (Ok (enviarRespuestaError "Código incorrecto" "CODIGO_MAESTRO_INVALIDO"
            None 401), bd, [])
   /\ exists r,
        app zod e (mkSolicitudHTTP PostAutenticacionAccesoMaestro body auth) bd
        = (Ok r, bd, [])
        /\ status r = 400
        /\ codigo (cuerpo r) = Some "VALIDACION_DATOS_INVALIDOS")
  /\ (forall s,
        campoDe body "codigo" = JString s ->
        1 <= String.length (recortar P s) ->
        app zod e (mkSolicitudHTTP PostAutenticacionAccesoMaestro body auth) bd
        = app zod e (mkSolicitudHTTP PostApiAccesoMaestro body auth) bd
        /\ app zod e (mkSolicitudHTTP PostApiAccesoMaestro body auth) bd
           = accesoMaestro e (Some s) bd).
Proof.
  split.
  - intros Hn. split.
    + unfold app. simpl. rewrite Hn. apply accesoMaestro_rechazo. discriminate.
    + unfold app, conValidacion, validarRequest, schema_parse. simpl.
      destruct body as [campos|]; simpl in *.
      * unfold parseCampo. simpl.
        destruct (campos "codigo"); try discriminate;
          simpl; eexists; repeat split.
      * eexists; repeat split.
  - intros s Hs Hlen.
    assert (Hv : validarRequest zod accesoMaestroSchema body = Pasa).
    { unfold validarRequest, schema_parse, accesoMaestroSchema.
      destruct body as [campos|]; [|discriminate Hs].
      cbn [flat_map].
      rewrite (proj2 (parseCampo_vacio (BodyObjeto campos)
                        ("codigo", Min 1 "El código maestro no puede estar vacío")));
        [reflexivity|].
      exists s. split; [exact Hs|]. cbn [snd cumple]. now apply Nat.leb_le. }
    unfold app, conValidacion. cbn [sol_endpoint sol_body].
    rewrite Hv, Hs. split; reflexivity.
Qed.

End PropiedadesDeValidacion.

(** ** The generated values *)









Lemma hexDigito_esHex n : esHex (hexDigito n) = true.
Proof. do 15 (destruct n as [|n]; [reflexivity|]). reflexivity. Qed.

Lemma toStringHex_forma bytes :
  String.length (toStringHex bytes) = 2 * List.length bytes
  /\ todosHex (toStringHex bytes) = true.
Proof.
  induction bytes as [|b l [IHl IHh]]; [split; reflexivity|].
  cbn [toStringHex String.length List.length todosHex].
  rewrite !hexDigito_esHex, IHl, IHh. split; [lia | reflexivity].
Qed.

(** X19. A refresh token is a string of exactly 80 characters, each
    one of [0-9a-f]; so it always meets the minimum length of 10 that
    [refreshSchema] asks for. *)
Theorem refresh_token_generado_forma e m :
  String.length (generarRefreshToken e) = 80
  /\ todosHex (generarRefreshToken e) = true
  /\ cumple (Min 10 m) (generarRefreshToken e) = true.
Proof.
  unfold generarRefreshToken, randomBytes.
  destruct (toStringHex_forma (map (fuenteAleatoria e) (seq 0 40))) as [Hl Hh].
  rewrite length_map, length_seq in Hl.
  split; [exact Hl|]. split; [exact Hh|].
  cbn [cumple]. rewrite Hl. reflexivity.
Qed.

Lemma hexDigito_inyectiva n m :
  n < 16 -> m < 16 -> hexDigito n = hexDigito m -> n = m.
Proof.
  intros Hn Hm.
  do 16 (destruct n as [|n]; [
    do 16 (destruct m as [|m]; [first [reflexivity | discriminate]|]); lia|]).
  lia.
Qed.

Lemma byte_por_sus_digitos (a b : ascii) :
  hexDigito (nat_of_ascii a / 16) = hexDigito (nat_of_ascii b / 16) ->
  hexDigito (nat_of_ascii a mod 16) = hexDigito (nat_of_ascii b mod 16) ->
  a = b.
Proof.
  intros Hd Hm.
  pose proof (nat_ascii_bounded a) as Ba. pose proof (nat_ascii_bounded b) as Bb.
  apply hexDigito_inyectiva in Hd;
    [| apply Nat.Div0.div_lt_upper_bound; lia
     | apply Nat.Div0.div_lt_upper_bound; lia].
  apply hexDigito_inyectiva in Hm;
    [| apply Nat.mod_upper_bound; lia | apply Nat.mod_upper_bound; lia].
  rewrite <- (ascii_nat_embedding a), <- (ascii_nat_embedding b).
  f_equal.
  rewrite (Nat.div_mod_eq (nat_of_ascii a) 16),
          (Nat.div_mod_eq (nat_of_ascii b) 16).
  congruence.
Qed.

Lemma toStringHex_inyectiva l1 l2 :
  toStringHex l1 = toStringHex l2 -> l1 = l2.
Proof.
  revert l2. induction l1 as [|a l1 IH]; intros [|b l2] H;
    try reflexivity; try discriminate.
  cbn [toStringHex] in H. injection H as Hd Hm Hr.
  f_equal; [now apply byte_por_sus_digitos | now apply IH].
Qed.

(** X20. Hex encoding loses nothing: two refresh tokens are the same
    string exactly when the 40 random bytes behind them are the same. *)
Theorem refresh_tokens_iguales_sii_mismos_bytes e1 e2 :
  generarRefreshToken e1 = generarRefreshToken e2
  <-> randomBytes e1 40 = randomBytes e2 40.
Proof.
  unfold generarRefreshToken. split.
  - apply toStringHex_inyectiva.
  - intros ->. reflexivity.
Qed.

(** ** The Bearer header *)

Lemma split_primero_sin_espacios tok resto :
  sinEspacios tok = true ->
  exists l, split " "%char (String.append tok (String " " resto)) = tok :: l.
Proof.
  induction tok as [|c tok IH]; intros H.
  - cbn [String.append split]. rewrite Ascii.eqb_refl. eauto.
  - cbn [sinEspacios] in H. apply andb_true_iff in H as [Hc Ht].
    apply negb_true_iff in Hc.
    destruct (IH Ht) as [l El].
    cbn [String.append split]. rewrite Hc, El. eauto.
Qed.

Lemma split_sin_espacios tok :
  sinEspacios tok = true -> split " "%char tok = [tok].
Proof.
  induction tok as [|c tok IH]; intros H; [reflexivity|].
  cbn [sinEspacios] in H. apply andb_true_iff in H as [Hc Ht].
  apply negb_true_iff in Hc.
  cbn [split]. rewrite Hc, (IH Ht). reflexivity.
Qed.

Lemma split_bearer s :
  split " "%char (String.append "Bearer " s) = "Bearer" :: split " "%char s.
Proof.
  cbn [String.append split]. 
  change (Ascii.eqb "B" " ") with false. change (Ascii.eqb "e" " ") with false.
  change (Ascii.eqb "a" " ") with false. change (Ascii.eqb "r" " ") with false.
  change (Ascii.eqb " " " ") with true.
  cbv iota. reflexivity.
Qed.

Lemma prefix_bearer s : prefix "Bearer " (String.append "Bearer " s) = true.
Proof. apply prefix_correct. destruct s; reflexivity. Qed.

Lemma token_del_bearer tok :
  sinEspacios tok = true ->
  nth_error (split " "%char (String.append "Bearer " tok)) 1 = Some tok.
Proof.
  intros H. rewrite split_bearer, (split_sin_espacios _ H). reflexivity.
Qed.

Lemma token_del_bearer_con_resto tok resto :
  sinEspacios tok = true ->
  nth_error (split " "%char
               (String.append "Bearer " (String.append tok (String " " resto)))) 1
  = Some tok.
Proof.
  intros H. rewrite split_bearer.
  destruct (split_primero_sin_espacios tok resto H) as [l ->]. reflexivity.
Qed.

(** The guard reads the header only through the token it carries. *)
Lemma adminTest_mismo_token e req1 req2 h1 h2 tok bd :
  authorization req1 = Some h1 -> prefix "Bearer " h1 = true ->
  nth_error (split " "%char h1) 1 = Some tok ->
  authorization req2 = Some h2 -> prefix "Bearer " h2 = true ->
  nth_error (split " "%char h2) 1 = Some tok ->
  adminTest e req1 bd = adminTest e req2 bd.
Proof.
  intros Ha1 Hp1 Ht1 Ha2 Hp2 Ht2.
  assert (Hv1 : (h1 =? "") = false) by (destruct h1; [discriminate | reflexivity]).
  assert (Hv2 : (h2 =? "") = false) by (destruct h2; [discriminate | reflexivity]).
  unfold adminTest, autenticarJWT. desplegar.
  rewrite Ha1, Ha2, Hv1, Hv2, Hp1, Hp2.
  cbn [orb negb]. simpl in Ht1, Ht2. rewrite Ht1, Ht2.
  destruct (jwt_verify P tok (JWT_SECRET env) (ahora e)) as [payload|];
    [|reflexivity].
  unfold Usuario_findById_cadena, Usuario_findById. desplegar.
  destruct (castObjectId P (p_usuarioId payload)) as [i|]; [|reflexivity].
  destruct (find _ (usuarios bd)) as [v|]; [|reflexivity].
  unfold esAdmin. simpl.
  destruct (Rol_eqb (IUsuario.rol v) rol_admin); reflexivity.
Qed.

(** The guard, once the token has named a stored user. *)
Lemma adminTest_usuario_hallado e req h tok payload i u bd :
  authorization req = Some h -> prefix "Bearer " h = true ->
  nth_error (split " "%char h) 1 = Some tok ->
  jwt_verify P tok (JWT_SECRET env) (ahora e) = Some payload ->
  castObjectId P (p_usuarioId payload) = Some i ->
  find (fun v => Nat.eqb (IUsuario._id v) i) (usuarios bd) = Some u ->
  adminTest e req bd =
    (Ok (if Rol_eqb (IUsuario.rol u) rol_admin
         then manejadorAdminTest
         else enviarRespuestaError "Acceso restringido a administradores"
                "ACCESO_NO_AUTORIZADO" None 403),
     bd, []).
Proof.
  intros Ha Hp Ht Hjwt Hcast Hfind.
  assert (Hv : (h =? "") = false) by (destruct h; [discriminate | reflexivity]).
  unfold adminTest, autenticarJWT, Usuario_findById_cadena, Usuario_findById,
    esAdmin.
  desplegar.
  rewrite Ha, Hv, Hp. cbn [orb negb]. simpl in Ht. rewrite Ht, Hjwt, Hcast.
  desplegar. rewrite Hfind. simpl.
  destruct (Rol_eqb (IUsuario.rol u) rol_admin); reflexivity.
Qed.

(** X21. Only the text between the first and the second space of the
    [Authorization] header is read: whatever follows the token after a
    space is ignored, and so is anything already in [req.usuario]. *)
Theorem bearer_ignora_lo_que_sigue e tok resto u u' bd :
  sinEspacios tok = true ->
  adminTest e
    {| authorization :=
         Some (String.append "Bearer " (String.append tok (String " " resto)));
       usuario := u |} bd
  = adminTest e
      {| authorization := Some (String.append "Bearer " tok); usuario := u' |} bd.
Proof.
  intros Hs.
  eapply adminTest_mismo_token with (tok := tok).
  - reflexivity.
  - apply prefix_bearer.
  - apply (token_del_bearer_con_resto tok resto Hs).
  - reflexivity.
  - apply prefix_bearer.
  - apply (token_del_bearer tok Hs).
Qed.

(** X22. The access token that login, refresh and master access sign
    for a stored user opens the admin route as that user: as long as
    [jwt.verify] gives back the signed payload and the user's id
    survives the round trip through its string form, the route answers
    200 when the stored role is admin and 403 otherwise, and reads
    nothing else of the request. *)
Theorem token_emitido_identifica_al_usuario e e' bd u req :
  bd_ok bd ->
  In u (usuarios bd) ->
  sinEspacios
    (generarJWT e {| p_usuarioId := oidToString P (IUsuario._id u);
                     p_telefono := IUsuario.telefono u |}) = true ->
  jwt_verify P
    (generarJWT e {| p_usuarioId := oidToString P (IUsuario._id u);
                     p_telefono := IUsuario.telefono u |})
    (JWT_SECRET env) (ahora e')
  = Some {| p_usuarioId := oidToString P (IUsuario._id u);
            p_telefono := IUsuario.telefono u |} ->
  castObjectId P (oidToString P (IUsuario._id u)) = Some (IUsuario._id u) ->
  authorization req
  = Some (String.append "Bearer "
            (generarJWT e {| p_usuarioId := oidToString P (IUsuario._id u);
                             p_telefono := IUsuario.telefono u |})) ->
  adminTest e' req bd =
    (Ok (if Rol_eqb (IUsuario.rol u) rol_admin
         then manejadorAdminTest
         else enviarRespuestaError "Acceso restringido a administradores"
                "ACCESO_NO_AUTORIZADO" None 403),
     bd, []).
Proof.
  intros Hok Hin Hs Hjwt Hcast Hauth.
  eapply adminTest_usuario_hallado.
  - exact Hauth.
  - apply prefix_bearer.
  - apply (token_del_bearer _ Hs).
  - exact Hjwt.
  - exact Hcast.
  - apply (find_por_id IUsuario._id (usuarios bd) u (ok_ids_usuarios bd Hok) Hin).
Qed.

(** ** A refresh token that is already stored *)

(** X23. When the refresh token drawn for a login is already stored,
    the login fails with [ERROR_LOGIN] (400) after the user has been
    resolved: the code is not consumed and no session is added, but a
    user created for the phone stays. *)
Theorem login_choque_conserva_el_codigo e telefono bd d :
  find (coincideCodigo (PorTelefono telefono)) (codigos bd) = Some d ->
  normalizar P telefono <> "" ->
  In (generarRefreshToken e) (map IRefreshToken.token (refreshTokens bd)) ->
  exists bd',
    loginUsuario e telefono (ICodigoVerificacion.codigo d) bd =
      (Ok (enviarRespuestaError "Error interno del servidor" "ERROR_LOGIN"
             None 400), bd', [])
    /\ codigos bd' = codigos bd
    /\ refreshTokens bd' = refreshTokens bd
    /\ match find (fun v => IUsuario.telefono v =? normalizar P telefono)
                  (usuarios bd) with
       | Some _ => bd' = bd
       | None =>
           usuarios bd' =
             usuarios bd ++
             [ {| IUsuario._id := siguienteId bd;
                  IUsuario.telefono := normalizar P telefono;
                  IUsuario.estaVerificado := false;
                  IUsuario.rol := rol_usuario;
                  IUsuario.creadoEn := ahora e;
                  IUsuario.actualizadoEn := ahora e |} ]
       end.
Proof.
  intros Hd Hreq Hin.
  apply String.eqb_neq in Hreq.
  assert (Hex : existsb (fun r => IRefreshToken.token r =? generarRefreshToken e)
                        (refreshTokens bd) = true).
  { apply existsb_exists. apply in_map_iff in Hin as (r & Hr & Hin).
    exists r. split; [exact Hin|]. rewrite Hr. apply String.eqb_refl. }
  unfold loginUsuario, CodigoVerificacion_findOne, Usuario_findOne, Usuario_new,
    Usuario_save, RefreshToken_create, CodigoVerificacion_deleteOne.
  desplegar. rewrite Hd, String.eqb_refl. simpl.
  destruct (find (fun u => IUsuario.telefono u =? normalizar P telefono) (usuarios bd))
    as [u|] eqn:Hu; simpl.
  - rewrite Hex. simpl. destruct bd. eexists. repeat split; reflexivity.
  - unfold requerido. rewrite Hreq. simpl.
    rewrite find_existsb, Hu. simpl. rewrite Hex. simpl.
    eexists. repeat split; reflexivity.
Qed.

(** X24. The same on master access: with the right code and no user
    of the admin phone yet, a refresh token that is already stored makes
    the call fail with [ERROR_ACCESO_MAESTRO] (400), yet the admin user
    it created on the way is kept. *)
Theorem acceso_maestro_choque_deja_al_admin e bd :
  adminDe bd = None ->
  normalizar P (TELEFONO_ADMIN env) <> "" ->
  In (generarRefreshToken e) (map IRefreshToken.token (refreshTokens bd)) ->
  accesoMaestro e (Some (CODIGO_MAESTRO env)) bd =
    (Ok (enviarRespuestaError "Error interno del servidor"
           "ERROR_ACCESO_MAESTRO" None 400),
     {| usuarios :=
          usuarios bd ++
          [ {| IUsuario._id := siguienteId bd;
               IUsuario.telefono := normalizar P (TELEFONO_ADMIN env);
               IUsuario.estaVerificado := false;
               IUsuario.rol := rol_admin;
               IUsuario.creadoEn := ahora e;
               IUsuario.actualizadoEn := ahora e |} ];
        codigos := codigos bd;
        refreshTokens := refreshTokens bd;
        siguienteId := S (siguienteId bd) |},
     []).
Proof.
  intros Hu Hreq Hin. unfold adminDe in Hu.
  apply String.eqb_neq in Hreq.
  assert (Hex : existsb (fun r => IRefreshToken.token r =? generarRefreshToken e)
                        (refreshTokens bd) = true).
  { apply existsb_exists. apply in_map_iff in Hin as (r & Hr & Hin).
    exists r. split; [exact Hin|]. rewrite Hr. apply String.eqb_refl. }
  unfold accesoMaestro, Usuario_findOne, Usuario_new, Usuario_save,
    RefreshToken_create.
  desplegar. rewrite String.eqb_refl. simpl. rewrite Hu. simpl.
  unfold requerido. rewrite Hreq. simpl.
  rewrite find_existsb, Hu. simpl. rewrite Hex. reflexivity.
Qed.

(** ** Every request is answered *)

(** A handler or guard never lets an exception out: it answers, with one
    of four statuses, and the envelope says [exito] exactly on 200. *)
Lemma atender_responde e s bd :
  exists r,
    resultadoDe (atender e s bd) = Ok r
    /\ In (status r) [200; 400; 401; 403]
    /\ (exito (cuerpo r) = true <-> status r = 200).
Proof.
  destruct s; unfold atender;
    unfold registrarUsuario, verificarUsuario, loginUsuario, refrescarToken,
      accesoMaestro, adminTest, autenticarJWT, esAdmin, Usuario_findById_cadena,
      Usuario_findById, Usuario_findOne, Usuario_new, Usuario_save,
      CodigoVerificacion_findOne, CodigoVerificacion_findOneAndUpdate,
      CodigoVerificacion_deleteOne, RefreshToken_findOne, RefreshToken_create,
      RefreshToken_deleteOne, enviarSMS;
    desplegar; casos_meta;
    (eexists; split; [reflexivity|]; simpl;
     split; [tauto | split; intros; first [reflexivity | discriminate]]).
Qed.

Section RespuestasDeApp.

Variable zod : string -> ValorJSON -> string.

Lemma validarRequest_rechaza_400 schema body r :
  validarRequest zod schema body = Rechaza r ->
  status r = 400 /\ exito (cuerpo r) = false.
Proof.
  unfold validarRequest. destruct (schema_parse zod schema body); [discriminate|].
  intros H. injection H as <-. split; reflexivity.
Qed.

(** X25. The server answers every request that reaches the routes
    itself: no exception gets to the global error middleware, so no such
    request is answered 500.
    The status is 200, 400, 401, 403 or 404; [exito] is true exactly on
    200; and 404 is the answer exactly when no route matches. *)
Theorem app_siempre_responde e sol bd :
  exists r,
    resultadoDe (app zod e sol bd) = Ok r
    /\ In (status r) [200; 400; 401; 403; 404]
    /\ (exito (cuerpo r) = true <-> status r = 200)
    /\ (status r = 404 <-> sol_endpoint sol = SinRuta).
Proof.
  assert (Hat : forall s,
             sol_endpoint sol <> SinRuta ->
             exists r,
               resultadoDe (atender e s bd) = Ok r
               /\ In (status r) [200; 400; 401; 403; 404]
               /\ (exito (cuerpo r) = true <-> status r = 200)
               /\ (status r = 404 <-> sol_endpoint sol = SinRuta)).
  { intros s Hno. destruct (atender_responde e s bd) as (r & Hr & Hst & Hex).
    exists r. split; [exact Hr|]. split; [simpl in *; tauto|].
    split; [exact Hex|]. split; [|tauto].
    intros H404. rewrite H404 in Hst. simpl in Hst.
    repeat destruct Hst as [Hst|Hst]; try discriminate; contradiction. }
  assert (Hrech : forall schema r,
             sol_endpoint sol <> SinRuta ->
             validarRequest zod schema (sol_body sol) = Rechaza r ->
             exists r',
               Ok r = Ok r'
               /\ In (status r') [200; 400; 401; 403; 404]
               /\ (exito (cuerpo r') = true <-> status r' = 200)
               /\ (status r' = 404 <-> sol_endpoint sol = SinRuta)).
  { intros schema r Hno Hv.
    destruct (validarRequest_rechaza_400 _ _ _ Hv) as [Hs Hx].
    exists r. split; [reflexivity|]. rewrite Hs, Hx.
    split; [simpl; tauto|].
    split; split; intros; first [discriminate | contradiction]. }
  unfold app, conValidacion.
  destruct (sol_endpoint sol) eqn:Hep;
    try (destruct (validarRequest zod _ (sol_body sol)) eqn:Hv;
         [apply (Hrech _ _ ltac:(discriminate) Hv)|]).
  - apply (Hat (PostAccesoMaestro _)). discriminate.
  - apply (Hat (PostRegistro _)). discriminate.
  - apply (Hat (PostVerificar _ _)). discriminate.
  - apply (Hat (PostLogin _ _)). discriminate.
  - apply (Hat (PostRefresh _)). discriminate.
  - apply (Hat (PostAccesoMaestro _)). discriminate.
  - apply (Hat (GetAdminTest _)). discriminate.
  - exists rutaNoEncontrada. split; [reflexivity|].
    split; [simpl; tauto|].
    split; [split; intros; discriminate|]. split; reflexivity.
Qed.

End RespuestasDeApp.

(** ** The environment *)

Section EntornoCargado.

Variable Numero : Type.
Variable Number_ : string -> Numero.
Variable Number_isNaN : Numero -> bool.
Variable mayorQueCero : Numero -> bool.

Lemma zStringMin_longitud n v s :
  zStringMin n v = Some s -> v = Some s /\ n <= String.length s.
Proof.
  destruct v as [x|]; simpl; [|discriminate].
  destruct (Nat.leb n (String.length x)) eqn:E; [|discriminate].
  intros H. injection H as <-. apply Nat.leb_le in E. auto.
Qed.

(** What a successful load says of the variables the handlers read. *)
Lemma envSchema_safeParse_env processEnv v :
  envSchema_safeParse Numero Number_ Number_isNaN mayorQueCero processEnv = Some v ->
  processEnv "JWT_SECRET" = Some (JWT_SECRET (v_env Numero v))
  /\ 10 <= String.length (JWT_SECRET (v_env Numero v))
  /\ processEnv "CODIGO_MAESTRO" = Some (CODIGO_MAESTRO (v_env Numero v))
  /\ 1 <= String.length (CODIGO_MAESTRO (v_env Numero v))
  /\ processEnv "TELEFONO_ADMIN" = Some (TELEFONO_ADMIN (v_env Numero v))
  /\ 1 <= String.length (TELEFONO_ADMIN (v_env Numero v)).
Proof.
  unfold envSchema_safeParse.
  destruct (zNodeEnv _); [|discriminate].
  destruct (zPort _ _ _ _); [|discriminate].
  destruct (zStringMin 1 (processEnv "MONGODB_URI")); [|discriminate].
  destruct (zStringMin 10 (processEnv "JWT_SECRET")) eqn:Hs; [|discriminate].
  destruct (zStringMin 1 (processEnv "JWT_EXPIRATION")); [|discriminate].
  destruct (zStringMin 1 (processEnv "TWILIO_ACCOUNT_SID")); [|discriminate].
  destruct (zStringMin 1 (processEnv "TWILIO_AUTH_TOKEN")); [|discriminate].
  destruct (zStringMin 1 (processEnv "TWILIO_PHONE_NUMBER")); [|discriminate].
  destruct (zStringMin 1 (processEnv "CODIGO_MAESTRO")) eqn:Hm; [|discriminate].
  destruct (zStringMin 1 (processEnv "TELEFONO_ADMIN")) eqn:Ha; [|discriminate].
  intros H. injection H as <-. cbn [v_env JWT_SECRET CODIGO_MAESTRO TELEFONO_ADMIN].
  apply zStringMin_longitud in Hs as [? ?].
  apply zStringMin_longitud in Hm as [? ?].
  apply zStringMin_longitud in Ha as [? ?].
  auto 10.
Qed.

(** X26. A server that started has a master code of at least one
    character: with the environment that [envSchema] let through, a
    master-access body with an empty [codigo], or with none, is answered
    401 [CODIGO_MAESTRO_INVALIDO] and nothing is stored. *)
Theorem entorno_cargado_rechaza_codigo_vacio processEnv v e c bd :
  envSchema_safeParse Numero Number_ Number_isNaN mayorQueCero processEnv = Some v ->
  v_env Numero v = env ->
  c = None \/ c = Some "" ->
  accesoMaestro e c bd =
    (Ok (enviarRespuestaError "Código incorrecto" "CODIGO_MAESTRO_INVALIDO"
           None 401), bd, []).
Proof.
  intros Hv Henv Hc.
  destruct (envSchema_safeParse_env _ _ Hv) as (_ & _ & _ & Hlen & _).
  rewrite Henv in Hlen.
  unfold accesoMaestro. desplegar.
  destruct Hc as [-> | ->]; [reflexivity|].
  destruct (CODIGO_MAESTRO env) as [|a s]; [simpl in Hlen; lia | reflexivity].
Qed.

End EntornoCargado.

(** ** A code sent with spaces around it *)

Section CodigoConEspacios.

Variable zod : string -> ValorJSON -> string.

Lemma find_telefono_y_codigo telefono c (l : list ICodigoVerificacion.t) d :
  find (coincideCodigo (PorTelefono telefono)) l = Some d ->
  ICodigoVerificacion.codigo d = recortar P c ->
  find (coincideCodigo (PorTelefonoYCodigo telefono c)) l = Some d.
Proof.
  intros Hf Hc. induction l as [|x l IH]; [discriminate|].
  cbn [find coincideCodigo] in *.
  destruct (ICodigoVerificacion.telefono x =? normalizar P telefono).
  - injection Hf as ->. rewrite Hc, String.eqb_refl. reflexivity.
  - cbn [andb]. auto.
Qed.

(** Both routes hand the body to the handler as it came. *)
Lemma telefono_y_codigo_pasan schema telefono c body :
  schema = verificacionSchema \/ schema = loginSchema ->
  campoDe body "telefono" = JString telefono ->
  campoDe body "codigo" = JString c ->
  telefonoRegex (recortar P telefono) = true ->
  String.length (recortar P c) = 6 ->
  validarRequest zod schema body = Pasa.
Proof.
  intros Hs Ht Hc Hre Hlen.
  assert (Hok : forall k ch s,
             campoDe body k = JString s -> cumple ch (recortar P s) = true ->
             parseCampo zod body (k, ch) = []).
  { intros k ch s Hk Hch. unfold parseCampo. cbn [fst snd]. now rewrite Hk, Hch. }
  assert (H1 : parseCampo zod body ("telefono", Regex mensajeTelefono) = [])
    by (apply (Hok _ _ telefono Ht); exact Hre).
  assert (H2 : parseCampo zod body
                 ("codigo", Length 6 "El código debe tener exactamente 6 dígitos")
               = [])
    by (apply (Hok _ _ c Hc); cbn [cumple]; rewrite Hlen; reflexivity).
  destruct body as [campos|]; [|discriminate].
  unfold validarRequest, schema_parse.
  destruct Hs as [-> | ->];
    unfold verificacionSchema, loginSchema; cbn [flat_map];
    rewrite H1, H2; reflexivity.
Qed.

(** X27. Verify and Login do not read the code in the same way.
    Validation checks the trimmed code on both routes and hands on the
    body as sent; Verify then looks the code up through the model, which
    trims it, while Login compares the string as sent with the stored
    one. So a pending code sent with spaces around it is accepted by
    Verify and rejected by Login, with nothing changed. *)
Theorem codigo_con_espacios_verifica_pero_no_inicia
    e telefono c body auth bd d :
  campoDe body "telefono" = JString telefono ->
  campoDe body "codigo" = JString c ->
  telefonoRegex (recortar P telefono) = true ->
  String.length (recortar P c) = 6 ->
  find (coincideCodigo (PorTelefono telefono)) (codigos bd) = Some d ->
  ICodigoVerificacion.codigo d = recortar P c ->
  c <> recortar P c ->
  resultadoDe (app zod e (mkSolicitudHTTP PostAutenticacionVerificar body auth) bd)
  = Ok (enviarRespuestaExitosa "Código verificado correctamente" None 200)
  /\ app zod e (mkSolicitudHTTP PostAutenticacionLogin body auth) bd
     = (Ok (enviarRespuestaError "Código inválido o expirado" "CODIGO_INVALIDO"
              None 400), bd, []).
Proof.
  intros Ht Hc Hre Hlen Hd Hcod Hdif.
  unfold app, conValidacion. cbn [sol_endpoint sol_body].
  rewrite (telefono_y_codigo_pasan verificacionSchema telefono c body
             (or_introl eq_refl) Ht Hc Hre Hlen).
  rewrite (telefono_y_codigo_pasan loginSchema telefono c body
             (or_intror eq_refl) Ht Hc Hre Hlen).
  rewrite Ht, Hc. cbn [cadena]. split.
  - rewrite (verificarUsuario_exito telefono c bd d
               (find_telefono_y_codigo telefono c _ d Hd Hcod)).
    reflexivity.
  - unfold loginUsuario, CodigoVerificacion_findOne. desplegar. rewrite Hd.
    assert (E : (ICodigoVerificacion.codigo d =? c) = false).
    { apply String.eqb_neq. rewrite Hcod. congruence. }
    rewrite E. reflexivity.
Qed.

End CodigoConEspacios.

End Servidor.

(** ** The theorems at explicit inputs *)

Lemma bdEjemplo_ok : bd_ok bdEjemplo /\ un_codigo_por_telefono bdEjemplo.
Proof.
  split; [constructor|]; simpl;
    repeat (constructor; simpl; try lia; try (intuition (discriminate || lia))).
Qed.

Lemma bdChoque_ok : bd_ok bdChoque.
Proof.
  constructor; simpl;
    repeat (constructor; simpl; try lia; try (intuition (discriminate || lia))).
Qed.


(** C1 as stated fails. The session presented holds the very token the
    generator draws next; the database is well formed and the user of
    the session exists. The call succeeds and hands back the same token,
    not a different one, and a second call with it succeeds as well
    instead of being answered REFRESH_TOKEN_INVALIDO. *)
Lemma refresh_devuelve_el_mismo_token :
  bd_ok bdChoque
  /\ find (fun r => IRefreshToken.token r =? generarRefreshToken entornoEjemplo)
          (refreshTokens bdChoque) = Some sesionChoque
  /\ find (fun v => Nat.eqb (IUsuario._id v) (IRefreshToken.usuarioId sesionChoque))
          (usuarios bdChoque) = Some usuarioComun
  /\ exists jwt bd1,
       refrescarToken plataformaEjemplo envEjemplo entornoEjemplo
         (generarRefreshToken entornoEjemplo) bdChoque
       = (Ok (enviarRespuestaExitosa "Token renovado correctamente"
                (Some (DatosRenovacion jwt (generarRefreshToken entornoEjemplo)))
                200), bd1, [])
       /\ exists jwt2 bd2,
            refrescarToken plataformaEjemplo envEjemplo entornoSinSMS
              (generarRefreshToken entornoEjemplo) bd1
            = (Ok (enviarRespuestaExitosa "Token renovado correctamente"
                     (Some (DatosRenovacion jwt2
                              (generarRefreshToken entornoSinSMS))) 200),
               bd2, []).
Proof.
  split; [exact bdChoque_ok|].
  vm_compute. repeat split. do 2 eexists. split; [reflexivity|].
  do 2 eexists. reflexivity.
Qed.

Lemma acceso_maestro_testigo :
  accesoMaestro plataformaEjemplo envEjemplo entornoEjemplo (Some "otro-codigo")
    bdEjemplo
  = (Ok (enviarRespuestaError "Código incorrecto" "CODIGO_MAESTRO_INVALIDO"
           None 401), bdEjemplo, [])
  /\ NoDup (tokensEmitidos
              (fst (corridaMaestra plataformaEjemplo envEjemplo
                      [entornoEjemplo; entornoEjemplo; entornoSinSMS] bdVacia)))
  /\ List.length (refreshTokens
                    (snd (corridaMaestra plataformaEjemplo envEjemplo
                            [entornoEjemplo; entornoEjemplo; entornoSinSMS] bdVacia)))
     = 0 + List.length
             (tokensEmitidos
                (fst (corridaMaestra plataformaEjemplo envEjemplo
                        [entornoEjemplo; entornoEjemplo; entornoSinSMS] bdVacia)))
  /\ Forall (fun x => exists r, x = Ok r /\ exito (cuerpo r) = true)
            (fst (corridaMaestra plataformaEjemplo envEjemplo
                    [entornoEjemplo; entornoSinSMS] bdVacia))
  /\ List.length (refreshTokens
                    (snd (corridaMaestra plataformaEjemplo envEjemplo
                            [entornoEjemplo; entornoSinSMS] bdVacia)))
     = 0 + 2.
Proof.
  destruct (acceso_maestro_identidad_unica_sesion_nueva plataformaEjemplo envEjemplo)
    as [Hmal Hbien].
  split; [apply Hmal; discriminate|].
  destruct (Hbien [entornoEjemplo; entornoEjemplo; entornoSinSMS] bdVacia)
    as (_ & _ & Hnd & _ & Hlen & _).
  split; [exact Hnd|]. split; [exact Hlen|].
  destruct (Hbien [entornoEjemplo; entornoSinSMS] bdVacia)
    as (_ & _ & _ & _ & _ & _ & _ & _ & Hvivo).
  apply Hvivo.
  - right. vm_compute. discriminate.
  - simpl. repeat constructor; simpl; [|tauto].
    intros [H|[]]. vm_compute in H. discriminate.
  - intros e _ [].
Defined.

Lemma login_crea_identidad_testigo :
  (let bd := mkBD [usuarioAdmin] (codigos bdEjemplo) [] 4 in
   exists u,
     usuarios (bdDe (loginUsuario plataformaEjemplo envEjemplo entornoEjemplo
                       " +34600111222" "111111" bd))
     = [usuarioAdmin] ++ [u]
     /\ List.length (usuarios (bdDe (loginUsuario plataformaEjemplo envEjemplo
                                       entornoEjemplo " +34600111222" "111111" bd)))
        = 2
     /\ IUsuario.telefono u = "+34600111222"
     /\ IUsuario.rol u = rol_usuario
     /\ IUsuario.estaVerificado u = false)
  /\ usuarios (bdDe (loginUsuario plataformaEjemplo envEjemplo entornoEjemplo
                       "+34600111222" "111111" bdEjemplo))
     = usuarios bdEjemplo
  /\ exists ses,
       resultadoDe (loginUsuario plataformaEjemplo envEjemplo entornoEjemplo
                      "+34600111222" "111111" bdEjemplo)
       = Ok (enviarRespuestaExitosa "Login exitoso"
               (Some (DatosSesion "secreto-de-prueba.0.+34600111222"
                        (generarRefreshToken entornoEjemplo)
                        {| res_id := 0; res_telefono := "+34600111222";
                           res_rol := None |}))
               200)
       /\ refreshTokens (bdDe (loginUsuario plataformaEjemplo envEjemplo
                                 entornoEjemplo "+34600111222" "111111" bdEjemplo))
          = refreshTokens bdEjemplo ++ [ses]
       /\ IRefreshToken.usuarioId ses = 0
       /\ IRefreshToken.token ses = generarRefreshToken entornoEjemplo.
Proof.
  assert (Hreq1 : normalizar plataformaEjemplo " +34600111222" <> "")
    by (vm_compute; discriminate).
  assert (Hreq2 : normalizar plataformaEjemplo "+34600111222" <> "")
    by (vm_compute; discriminate).
  assert (Hfresco : ~ In (generarRefreshToken entornoEjemplo)
                         (map IRefreshToken.token (refreshTokens bdEjemplo))).
  { simpl. intros [H|[]]. vm_compute in H. discriminate. }
  split.
  - intros bd.
    destruct (login_crea_a_lo_sumo_una_identidad plataformaEjemplo envEjemplo
                entornoEjemplo " +34600111222" "111111" bd
                {| ICodigoVerificacion._id := 2;
                   ICodigoVerificacion.telefono := "+34600111222";
                   ICodigoVerificacion.codigo := "111111";
                   ICodigoVerificacion.creadoEn := 900%N |}
                eq_refl eq_refl Hreq1)
      as (u & H1 & H2 & H3 & H4 & H5 & _).
    exists u. split; [exact H1|]. split; [exact H2|]. split; [exact H3|].
    split; [exact H4 | exact H5].
  - destruct (login_crea_a_lo_sumo_una_identidad plataformaEjemplo envEjemplo
                entornoEjemplo "+34600111222" "111111" bdEjemplo
                {| ICodigoVerificacion._id := 2;
                   ICodigoVerificacion.telefono := "+34600111222";
                   ICodigoVerificacion.codigo := "111111";
                   ICodigoVerificacion.creadoEn := 900%N |}
                eq_refl eq_refl Hreq2)
      as (Hus & _ & Hexito).
    split; [exact Hus|]. exact (Hexito Hfresco).
Defined.

Lemma registro_verificacion_un_solo_uso_testigo :
  bd_ok bdEjemplo /\ un_codigo_por_telefono bdEjemplo
  /\ exists bd2,
       verificarUsuario plataformaEjemplo "+34600111222" "482913"
         (bdDe (registrarUsuario plataformaEjemplo entornoEjemplo "+34600111222"
                  bdEjemplo))
       = (Ok (enviarRespuestaExitosa "Código verificado correctamente" None 200),
          bd2, [])
       /\ find (coincideCodigo plataformaEjemplo (PorTelefono "+34600111222"))
               (codigos bd2) = None
       /\ verificarUsuario plataformaEjemplo "+34600111222" "482913" bd2
          = (Ok (enviarRespuestaError "Código incorrecto o expirado"
                   "CODIGO_INVALIDO_O_EXPIRADO" None 400), bd2, []).
Proof.
  split; [exact (proj1 bdEjemplo_ok)|]. split; [exact (proj2 bdEjemplo_ok)|].
  exact (registro_verificacion_un_solo_uso plataformaEjemplo entornoEjemplo
           "+34600111222" bdEjemplo (proj1 bdEjemplo_ok) (proj2 bdEjemplo_ok)).
Defined.

Lemma login_fallo_sin_efectos_testigo :
  loginUsuario plataformaEjemplo envEjemplo entornoEjemplo "+34600999888" "111111"
    bdEjemplo
  = (Ok (enviarRespuestaError "Código inválido o expirado" "CODIGO_INVALIDO"
           None 400), bdEjemplo, [])
  /\ loginUsuario plataformaEjemplo envEjemplo entornoEjemplo "+34600111222" "222222"
       bdEjemplo
     = (Ok (enviarRespuestaError "Código inválido o expirado" "CODIGO_INVALIDO"
              None 400), bdEjemplo, []).
Proof.
  split; apply login_fallo_sin_efectos.
  - left. reflexivity.
  - right. eexists. split; [reflexivity|]. simpl. discriminate.
Defined.

(** C7 as stated fails. The admin phone already has a user with role
    usuario (it logged in through the ordinary flow); master access
    succeeds, the payload says [rol: usuario], and the user stored for the
    admin phone after the call still has role usuario. *)
Lemma acceso_maestro_no_fuerza_rol :
  resultadoDe (accesoMaestro plataformaEjemplo envEjemplo entornoEjemplo
                 (Some "codigo-maestro") bdTelefonoAdminComun)
  = Ok (enviarRespuestaExitosa "Acceso maestro exitoso"
          (Some (DatosSesion "secreto-de-prueba.0.+34600000000"
                   (generarRefreshToken entornoEjemplo)
                   {| res_id := 0; res_telefono := "+34600000000";
                      res_rol := Some rol_usuario |})) 200)
  /\ adminDe plataformaEjemplo envEjemplo
       (bdDe (accesoMaestro plataformaEjemplo envEjemplo entornoEjemplo
                (Some "codigo-maestro") bdTelefonoAdminComun))
     = Some usuarioTelefonoAdmin
  /\ IUsuario.rol usuarioTelefonoAdmin = rol_usuario
  /\ rol_usuario <> rol_admin.
Proof. vm_compute. repeat split. discriminate. Qed.

Lemma acceso_maestro_rol_del_usuario_testigo :
  exists r tok,
    resultadoDe (accesoMaestro plataformaEjemplo envEjemplo entornoEjemplo
                   (Some "codigo-maestro") bdVacia) = Ok r
    /\ sesionDe r = Some (tok, (generarRefreshToken entornoEjemplo),
                          {| res_id := 0; res_telefono := "+34600000000";
                             res_rol := Some rol_admin |})
    /\ exists u,
         adminDe plataformaEjemplo envEjemplo
           (bdDe (accesoMaestro plataformaEjemplo envEjemplo entornoEjemplo
                    (Some "codigo-maestro") bdVacia)) = Some u
         /\ 0 = IUsuario._id u
         /\ Some rol_admin = Some (IUsuario.rol u)
         /\ IUsuario.rol u = rol_admin.
Proof.
  eexists. eexists.
  assert (Hr : resultadoDe (accesoMaestro plataformaEjemplo envEjemplo entornoEjemplo
                              (Some "codigo-maestro") bdVacia)
               = Ok (enviarRespuestaExitosa "Acceso maestro exitoso"
                       (Some (DatosSesion "secreto-de-prueba.0.+34600000000" (generarRefreshToken entornoEjemplo)
                                {| res_id := 0; res_telefono := "+34600000000";
                                   res_rol := Some rol_admin |})) 200))
    by (vm_compute; reflexivity).
  split; [exact Hr|]. split; [reflexivity|].
  exact (acceso_maestro_rol_del_usuario plataformaEjemplo envEjemplo entornoEjemplo
           bdVacia _ _ _ _ Hr eq_refl).
Defined.

Lemma guardia_admin_testigo :
  exists r,
    resultadoDe (adminTest plataformaEjemplo envEjemplo entornoEjemplo
                   {| authorization := Some "Bearer secreto-de-prueba.0.+34600111222";
                      usuario := None |} bdEjemplo) = Ok r
    /\ status r = 403.
Proof.
  destruct (guardia_admin plataformaEjemplo envEjemplo entornoEjemplo
              {| authorization := Some "Bearer secreto-de-prueba.0.+34600111222";
                 usuario := None |} bdEjemplo)
    as (_ & r & Hr & _ & _ & Hcadena & _).
  exists r. split; [exact Hr|].
  destruct (Hcadena "Bearer secreto-de-prueba.0.+34600111222"
              "secreto-de-prueba.0.+34600111222" eq_refl eq_refl eq_refl)
    as [_ Hpay].
  destruct (Hpay (mkPayload "0" "+34600111222") eq_refl) as [_ Hid].
  destruct (Hid 0 eq_refl) as [_ Hu].
  destruct (Hu usuarioComun eq_refl) as [Hno _].
  apply Hno. discriminate.
Defined.

(** ** The further properties at explicit inputs *)

Lemma token_ejemplo_no_trivial : generarRefreshToken entornoEjemplo <> "0f0f0f".
Proof. intros H. vm_compute in H. discriminate. Qed.

Lemma token_ejemplo_fresco :
  ~ In (generarRefreshToken entornoEjemplo)
       (map IRefreshToken.token (refreshTokens bdEjemplo)).
Proof. simpl. intros [H|[]]. symmetry in H. now apply token_ejemplo_no_trivial. Qed.

Lemma token_sinSMS_fresco :
  ~ In (generarRefreshToken entornoSinSMS)
       (map IRefreshToken.token (refreshTokens bdEjemplo)).
Proof. simpl. intros [H|[]]. vm_compute in H. discriminate. Qed.

Lemma telefono_ejemplo_requerido :
  normalizar plataformaEjemplo "+34600111222" <> "".
Proof. vm_compute. discriminate. Qed.

Lemma alcanzable_tras_acceso_maestro :
  alcanzable plataformaEjemplo envEjemplo
    (bdDe (accesoMaestro plataformaEjemplo envEjemplo entornoEjemplo
             (Some "codigo-maestro") bdVacia)).
Proof.
  exact (alcanzable_solicitud plataformaEjemplo envEjemplo bdVacia entornoEjemplo
           (PostAccesoMaestro (Some "codigo-maestro"))
           (alcanzable_vacia plataformaEjemplo envEjemplo)).
Qed.

Lemma login_exito_coherente_testigo :
  exists r bd1 u,
    loginUsuario plataformaEjemplo envEjemplo entornoEjemplo "+34600111222" "111111"
      bdEjemplo = (Ok r, bd1, [])
    /\ status r = 200
    /\ find (fun v => IUsuario.telefono v =? "+34600111222") (usuarios bd1) = Some u
    /\ codigos bd1 = [].
Proof.
  destruct (login_exito_coherente plataformaEjemplo envEjemplo entornoEjemplo
              "+34600111222" "111111" bdEjemplo codigoEjemplo eq_refl eq_refl
              telefono_ejemplo_requerido token_ejemplo_fresco)
    as (r & bd1 & u & ses & Hl & Hs & _ & Hf & _ & _ & _ & Hc).
  exists r, bd1, u. split; [exact Hl|]. split; [exact Hs|].
  split; [exact Hf | exact Hc].
Defined.

Lemma login_consume_el_codigo_testigo :
  exists r bd1,
    loginUsuario plataformaEjemplo envEjemplo entornoEjemplo "+34600111222" "111111"
      bdEjemplo = (Ok r, bd1, [])
    /\ exito (cuerpo r) = true
    /\ loginUsuario plataformaEjemplo envEjemplo entornoSinSMS "+34600111222"
         "111111" bd1
       = (Ok (enviarRespuestaError "Código inválido o expirado" "CODIGO_INVALIDO"
                None 400), bd1, []).
Proof.
  destruct (login_consume_el_codigo plataformaEjemplo envEjemplo entornoEjemplo
              entornoSinSMS "+34600111222" "111111" bdEjemplo codigoEjemplo
              (proj2 bdEjemplo_ok) eq_refl eq_refl
              telefono_ejemplo_requerido token_ejemplo_fresco)
    as (r & bd1 & Hl & Hx & _ & Hl2 & _).
  exists r, bd1. split; [exact Hl|]. split; [exact Hx | exact Hl2].
Defined.

Lemma refresh_sesion_huerfana_testigo :
  refrescarToken plataformaEjemplo envEjemplo entornoEjemplo "0f0f0f" bdHuerfana =
    (Ok (enviarRespuestaError "Usuario no encontrado" "USUARIO_NO_EXISTE" None 400),
     bdHuerfana, []).
Proof.
  exact (proj1 (refresh_sesion_huerfana plataformaEjemplo envEjemplo entornoEjemplo
                  "0f0f0f" bdHuerfana sesionEjemplo eq_refl eq_refl)).
Defined.

Lemma refresh_en_cadena_testigo :
  exists jwt1 jwt2 bd1 bd2,
    refrescarToken plataformaEjemplo envEjemplo entornoEjemplo "0f0f0f" bdEjemplo =
      (Ok (enviarRespuestaExitosa "Token renovado correctamente"
             (Some (DatosRenovacion jwt1 (generarRefreshToken entornoEjemplo))) 200),
       bd1, [])
    /\ refrescarToken plataformaEjemplo envEjemplo entornoSinSMS
         (generarRefreshToken entornoEjemplo) bd1 =
         (Ok (enviarRespuestaExitosa "Token renovado correctamente"
                (Some (DatosRenovacion jwt2 (generarRefreshToken entornoSinSMS))) 200),
          bd2, [])
    /\ List.length (refreshTokens bd2) = 1.
Proof.
  assert (Hdist : generarRefreshToken entornoSinSMS <> generarRefreshToken entornoEjemplo)
    by (intros H; vm_compute in H; discriminate).
  destruct (refresh_en_cadena plataformaEjemplo envEjemplo entornoEjemplo
              entornoSinSMS "0f0f0f" bdEjemplo sesionEjemplo usuarioComun
              eq_refl eq_refl token_ejemplo_fresco token_sinSMS_fresco Hdist)
    as (jwt1 & jwt2 & bd1 & bd2 & ses & H1 & H2 & _ & Hlen & _).
  exists jwt1, jwt2, bd1, bd2. split; [exact H1|]. split; [exact H2 | exact Hlen].
Defined.

Lemma refresh_choque_pierde_la_sesion_testigo :
  exists bd1,
    refrescarToken plataformaEjemplo envEjemplo entornoEjemplo "0f0f0f" bdChoque =
      (Ok (enviarRespuestaError "Error al procesar el refresh token"
             "ERROR_REFRESH_TOKEN" None 400), bd1, [])
    /\ refreshTokens bd1 = [sesionChoque]
    /\ refrescarToken plataformaEjemplo envEjemplo entornoSinSMS "0f0f0f" bd1 =
         (Ok (enviarRespuestaError "Refresh token inválido o caducado"
                "REFRESH_TOKEN_INVALIDO" None 400), bd1, []).
Proof.
  destruct (refresh_choque_pierde_la_sesion plataformaEjemplo envEjemplo
              entornoEjemplo entornoSinSMS "0f0f0f" bdChoque sesionEjemplo
              usuarioComun bdChoque_ok eq_refl eq_refl
              (or_intror (or_introl eq_refl)) token_ejemplo_no_trivial)
    as (bd1 & H1 & Hs & _ & _ & H2).
  exists bd1. split; [exact H1|]. split; [exact Hs | exact H2].
Defined.

Lemma registro_ultimo_codigo_gana_testigo :
  let bd2 :=
    bdDe (registrarUsuario plataformaEjemplo entornoOtroCodigo "+34600111222"
            (bdDe (registrarUsuario plataformaEjemplo entornoEjemplo "+34600111222"
                     bdEjemplo))) in
  resultadoDe (verificarUsuario plataformaEjemplo "+34600111222"
                 (generarCodigo entornoEjemplo) bd2)
  = Ok (enviarRespuestaError "Código incorrecto o expirado"
          "CODIGO_INVALIDO_O_EXPIRADO" None 400)
  /\ resultadoDe (verificarUsuario plataformaEjemplo "+34600111222"
                    (generarCodigo entornoOtroCodigo) bd2)
     = Ok (enviarRespuestaExitosa "Código verificado correctamente" None 200).
Proof.
  intros bd2.
  assert (Hdist : recortar plataformaEjemplo (generarCodigo entornoEjemplo)
                  <> recortar plataformaEjemplo (generarCodigo entornoOtroCodigo))
    by (intros H; vm_compute in H; discriminate).
  destruct (registro_ultimo_codigo_gana plataformaEjemplo entornoEjemplo
              entornoOtroCodigo "+34600111222" bdEjemplo
              (proj1 bdEjemplo_ok) (proj2 bdEjemplo_ok) Hdist)
    as (d1 & d2 & _ & _ & _ & _ & _ & _ & Hv1 & Hv2).
  split; [exact Hv1 | exact Hv2].
Defined.

Lemma codigo_caduca_a_los_300_segundos_testigo :
  let bd1 := expirarTTL 1300%N
               (bdDe (registrarUsuario plataformaEjemplo entornoEjemplo
                        "+34600111222" bdEjemplo)) in
  verificarUsuario plataformaEjemplo "+34600111222" "482913" bd1
  = (Ok (enviarRespuestaError "Código incorrecto o expirado"
           "CODIGO_INVALIDO_O_EXPIRADO" None 400), bd1, [])
  /\ resultadoDe
       (verificarUsuario plataformaEjemplo "+34600111222"
          (generarCodigo entornoEjemplo)
          (expirarTTL 1299%N
             (bdDe (registrarUsuario plataformaEjemplo entornoEjemplo
                      "+34600111222" bdEjemplo))))
     = Ok (enviarRespuestaExitosa "Código verificado correctamente" None 200).
Proof.
  intros bd1. split.
  - destruct (codigo_caduca_a_los_300_segundos plataformaEjemplo envEjemplo
                entornoEjemplo entornoSinSMS "+34600111222" bdEjemplo 1300%N
                (proj1 bdEjemplo_ok) (proj2 bdEjemplo_ok)) as [Htarde _].
    assert (Hl : (ahora entornoEjemplo + 300 <= 1300%N)%N) by (cbv; discriminate).
    exact (proj1 (Htarde Hl "482913")).
  - destruct (codigo_caduca_a_los_300_segundos plataformaEjemplo envEjemplo
                entornoEjemplo entornoSinSMS "+34600111222" bdEjemplo 1299%N
                (proj1 bdEjemplo_ok) (proj2 bdEjemplo_ok)) as [_ Hantes].
    apply Hantes. reflexivity.
Defined.

Lemma sesion_caduca_a_los_30_dias_testigo :
  refrescarToken plataformaEjemplo envEjemplo entornoEjemplo "0f0f0f"
    (expirarTTL 2592030%N bdEjemplo)
  = (Ok (enviarRespuestaError "Refresh token inválido o caducado"
           "REFRESH_TOKEN_INVALIDO" None 400), expirarTTL 2592030%N bdEjemplo, [])
  /\ find (fun r => IRefreshToken.token r =? "0f0f0f")
          (refreshTokens (expirarTTL 2592029%N bdEjemplo)) = Some sesionEjemplo.
Proof.
  split.
  - destruct (sesion_caduca_a_los_30_dias plataformaEjemplo envEjemplo
                entornoEjemplo "0f0f0f" bdEjemplo sesionEjemplo 2592030%N
                (proj1 bdEjemplo_ok) eq_refl) as [Htarde _].
    apply Htarde. cbv. discriminate.
  - destruct (sesion_caduca_a_los_30_dias plataformaEjemplo envEjemplo
                entornoEjemplo "0f0f0f" bdEjemplo sesionEjemplo 2592029%N
                (proj1 bdEjemplo_ok) eq_refl) as [_ Hantes].
    apply Hantes. reflexivity.
Defined.

Lemma sesiones_siempre_con_usuario_testigo :
  Forall
    (fun s =>
       exists u,
         find (fun v => Nat.eqb (IUsuario._id v) (IRefreshToken.usuarioId s))
              (usuarios
                 (bdDe (accesoMaestro plataformaEjemplo envEjemplo entornoEjemplo
                          (Some "codigo-maestro") bdVacia))) = Some u)
    (refreshTokens
       (bdDe (accesoMaestro plataformaEjemplo envEjemplo entornoEjemplo
                (Some "codigo-maestro") bdVacia))).
Proof.
  apply Forall_forall.
  exact (proj1 (sesiones_siempre_con_usuario plataformaEjemplo envEjemplo _
                  alcanzable_tras_acceso_maestro)).
Defined.

Lemma nadie_queda_verificado_testigo :
  Forall (fun u => IUsuario.estaVerificado u = false)
    (usuarios
       (bdDe (accesoMaestro plataformaEjemplo envEjemplo entornoEjemplo
                (Some "codigo-maestro") bdVacia))).
Proof.
  exact (nadie_queda_verificado plataformaEjemplo envEjemplo _
           alcanzable_tras_acceso_maestro).
Defined.

Lemma admin_solo_con_el_telefono_admin_testigo :
  Forall
    (fun u => IUsuario.rol u = rol_admin -> IUsuario.telefono u = "+34600000000")
    (usuarios
       (bdDe (accesoMaestro plataformaEjemplo envEjemplo entornoEjemplo
                (Some "codigo-maestro") bdVacia))).
Proof.
  apply Forall_forall.
  exact (proj1 (admin_solo_con_el_telefono_admin plataformaEjemplo envEjemplo _
                  alcanzable_tras_acceso_maestro)).
Defined.

Lemma validacion_rechaza_sin_efectos_testigo :
  exists r,
    app plataformaEjemplo envEjemplo zodEjemplo entornoEjemplo
      (mkSolicitudHTTP PostAutenticacionRegistro
         (BodyObjeto (fun _ => JUndefined)) None) bdEjemplo
    = (Ok r, bdEjemplo, [])
    /\ status r = 400
    /\ errores (cuerpo r) = Some [mkDetalle "telefono" "Required"].
Proof.
  eexists.
  refine (let H := validacion_rechaza_sin_efectos plataformaEjemplo envEjemplo
                     zodEjemplo entornoEjemplo
                     (mkSolicitudHTTP PostAutenticacionRegistro
                        (BodyObjeto (fun _ => JUndefined)) None)
                     bdEjemplo registroSchema _ eq_refl eq_refl in
          conj (proj1 H) (conj (proj1 (proj2 H)) eq_refl)).
Defined.

Lemma acceso_maestro_montado_dos_veces_testigo :
  app plataformaEjemplo envEjemplo zodEjemplo entornoEjemplo
    (mkSolicitudHTTP PostApiAccesoMaestro (BodyObjeto (fun _ => JUndefined)) None)
    bdEjemplo
  = (Ok (enviarRespuestaError "Código incorrecto" "CODIGO_MAESTRO_INVALIDO"
           None 401), bdEjemplo, [])
  /\ app plataformaEjemplo envEjemplo zodEjemplo entornoEjemplo
       (mkSolicitudHTTP PostAutenticacionAccesoMaestro
          (BodyObjeto (fun _ => JString " codigo-maestro ")) None) bdEjemplo
     = accesoMaestro plataformaEjemplo envEjemplo entornoEjemplo
         (Some " codigo-maestro ") bdEjemplo.
Proof.
  split.
  - exact (proj1 (proj1 (acceso_maestro_montado_dos_veces plataformaEjemplo
                           envEjemplo zodEjemplo entornoEjemplo
                           (BodyObjeto (fun _ => JUndefined)) None bdEjemplo)
                    eq_refl)).
  - destruct (proj2 (acceso_maestro_montado_dos_veces plataformaEjemplo
                       envEjemplo zodEjemplo entornoEjemplo
                       (BodyObjeto (fun _ => JString " codigo-maestro ")) None
                       bdEjemplo)
                " codigo-maestro " eq_refl) as [H1 H2].
    + vm_compute. lia.
    + exact (eq_trans H1 H2).
Defined.


Lemma bearer_ignora_lo_que_sigue_testigo :
  adminTest plataformaEjemplo envEjemplo entornoEjemplo
    {| authorization := Some "Bearer secreto-de-prueba.1.+34600000000 lo que sea";
       usuario := None |} bdEjemplo
  = adminTest plataformaEjemplo envEjemplo entornoEjemplo
      {| authorization := Some "Bearer secreto-de-prueba.1.+34600000000";
         usuario := Some usuarioComun |} bdEjemplo.
Proof.
  exact (bearer_ignora_lo_que_sigue plataformaEjemplo envEjemplo entornoEjemplo
           "secreto-de-prueba.1.+34600000000" "lo que sea" None
           (Some usuarioComun) bdEjemplo eq_refl).
Defined.

Lemma token_emitido_identifica_al_usuario_testigo :
  adminTest plataformaEjemplo envEjemplo entornoSinSMS
    {| authorization := Some "Bearer secreto-de-prueba.1.+34600000000";
       usuario := None |} bdEjemplo
  = (Ok manejadorAdminTest, bdEjemplo, [])
  /\ resultadoDe
       (adminTest plataformaEjemplo envEjemplo entornoSinSMS
          {| authorization := Some "Bearer secreto-de-prueba.0.+34600111222";
             usuario := None |} bdEjemplo)
     = Ok (enviarRespuestaError "Acceso restringido a administradores"
             "ACCESO_NO_AUTORIZADO" None 403).
Proof.
  split.
  - exact (token_emitido_identifica_al_usuario plataformaEjemplo envEjemplo
             entornoEjemplo entornoSinSMS bdEjemplo usuarioAdmin
             {| authorization := Some "Bearer secreto-de-prueba.1.+34600000000";
                usuario := None |}
             (proj1 bdEjemplo_ok) (or_intror (or_introl eq_refl))
             eq_refl eq_refl eq_refl eq_refl).
  - exact (f_equal resultadoDe
             (token_emitido_identifica_al_usuario plataformaEjemplo envEjemplo
                entornoEjemplo entornoSinSMS bdEjemplo usuarioComun
                {| authorization := Some "Bearer secreto-de-prueba.0.+34600111222";
                   usuario := None |}
                (proj1 bdEjemplo_ok) (or_introl eq_refl)
                eq_refl eq_refl eq_refl eq_refl)).
Defined.

Lemma login_choque_conserva_el_codigo_testigo :
  loginUsuario plataformaEjemplo envEjemplo entornoEjemplo "+34600111222" "111111"
    bdChoque
  = (Ok (enviarRespuestaError "Error interno del servidor" "ERROR_LOGIN" None 400),
     bdChoque, []).
Proof.
  destruct (login_choque_conserva_el_codigo plataformaEjemplo envEjemplo
              entornoEjemplo "+34600111222" bdChoque codigoEjemplo eq_refl
              telefono_ejemplo_requerido (or_intror (or_introl eq_refl)))
    as (bd' & Hl & _ & _ & Hbd).
  simpl in Hbd. rewrite Hbd in Hl. exact Hl.
Defined.

Lemma acceso_maestro_choque_deja_al_admin_testigo :
  exists bd',
    accesoMaestro plataformaEjemplo envEjemplo entornoEjemplo
      (Some "codigo-maestro") bdChoque
    = (Ok (enviarRespuestaError "Error interno del servidor"
             "ERROR_ACCESO_MAESTRO" None 400), bd', [])
    /\ map IUsuario.rol (usuarios bd') = [rol_usuario; rol_admin]
    /\ refreshTokens bd' = refreshTokens bdChoque.
Proof.
  eexists. split.
  - apply (acceso_maestro_choque_deja_al_admin plataformaEjemplo envEjemplo
             entornoEjemplo bdChoque eq_refl).
    + vm_compute. discriminate.
    + right. left. reflexivity.
  - split; reflexivity.
Defined.

Lemma entorno_cargado_rechaza_codigo_vacio_testigo :
  option_map (v_env (option Z))
    (envSchema_safeParse (option Z) NumberEjemplo esNaNEjemplo mayorQueCeroEjemplo
       processEnvEjemplo)
  = Some envEjemplo
  /\ accesoMaestro plataformaEjemplo envEjemplo entornoEjemplo (Some "") bdEjemplo
     = (Ok (enviarRespuestaError "Código incorrecto" "CODIGO_MAESTRO_INVALIDO"
              None 401), bdEjemplo, []).
Proof.
  split; [reflexivity|].
  exact (entorno_cargado_rechaza_codigo_vacio plataformaEjemplo envEjemplo
           (option Z) NumberEjemplo esNaNEjemplo mayorQueCeroEjemplo
           processEnvEjemplo _ entornoEjemplo (Some "") bdEjemplo
           eq_refl eq_refl (or_intror eq_refl)).
Defined.

Lemma codigo_con_espacios_testigo :
  let body :=
    BodyObjeto (fun campo => if campo =? "telefono" then JString "+34600111222"
                             else JString " 111111 ") in
  resultadoDe
    (app plataformaEjemplo envEjemplo zodEjemplo entornoEjemplo
       (mkSolicitudHTTP PostAutenticacionVerificar body None) bdEjemplo)
  = Ok (enviarRespuestaExitosa "Código verificado correctamente" None 200)
  /\ app plataformaEjemplo envEjemplo zodEjemplo entornoEjemplo
       (mkSolicitudHTTP PostAutenticacionLogin body None) bdEjemplo
     = (Ok (enviarRespuestaError "Código inválido o expirado" "CODIGO_INVALIDO"
              None 400), bdEjemplo, []).
Proof.
  intros body.
  apply (codigo_con_espacios_verifica_pero_no_inicia plataformaEjemplo envEjemplo
           zodEjemplo entornoEjemplo "+34600111222" " 111111 " body None
           bdEjemplo codigoEjemplo);
    try reflexivity.
  vm_compute. discriminate.
Defined.

(** ** Scenarios of the specification, run on the model *)

Example escenario_registro_login :
  let bd1 := bdDe (registrarUsuario plataformaEjemplo entornoEjemplo
                     "+34600111222" bdVacia) in
  exists tok,
    loginUsuario plataformaEjemplo envEjemplo entornoEjemplo "+34600111222" "482913"
      bd1
    = (Ok (enviarRespuestaExitosa "Login exitoso"
             (Some (DatosSesion tok (generarRefreshToken entornoEjemplo)
                      {| res_id := 1; res_telefono := "+34600111222";
                         res_rol := None |})) 200),
       {| usuarios := [ {| IUsuario._id := 1; IUsuario.telefono := "+34600111222";
                           IUsuario.estaVerificado := false;
                           IUsuario.rol := rol_usuario;
                           IUsuario.creadoEn := 1000%N;
                           IUsuario.actualizadoEn := 1000%N |} ];
          codigos := [];
          refreshTokens := [ {| IRefreshToken._id := 2;
                                IRefreshToken.token := (generarRefreshToken entornoEjemplo);
                                IRefreshToken.usuarioId := 1;
                                IRefreshToken.creadoEn := 1000%N |} ];
          siguienteId := 3 |},
       [])
    /\ tok <> "".
Proof. eexists. vm_compute. split; [reflexivity | discriminate]. Qed.

Example escenario_sms_fallido :
  registrarUsuario plataformaEjemplo entornoSinSMS " +34600111222 " bdVacia
  = (Ok (enviarRespuestaError "Error interno del servidor" "ERROR_REGISTRO_USUARIO"
           None 400),
     {| usuarios := [];
        codigos := [ {| ICodigoVerificacion._id := 0;
                        ICodigoVerificacion.telefono := "+34600111222";
                        ICodigoVerificacion.codigo := "482913";
                        ICodigoVerificacion.creadoEn := 1001%N |} ];
        refreshTokens := [];
        siguienteId := 1 |},
     [SmsIntentado
        {| usuarios := [];
           codigos := [ {| ICodigoVerificacion._id := 0;
                           ICodigoVerificacion.telefono := "+34600111222";
                           ICodigoVerificacion.codigo := "482913";
                           ICodigoVerificacion.creadoEn := 1001%N |} ];
           refreshTokens := [];
           siguienteId := 1 |}
        " +34600111222 " "Tu código de verificación es: 482913"]).
Proof. vm_compute. reflexivity. Qed.

Example escenario_guardia :
  status_de (adminTest plataformaEjemplo envEjemplo entornoEjemplo
               {| authorization := None; usuario := None |} bdEjemplo) = Some 401
  /\ status_de (adminTest plataformaEjemplo envEjemplo entornoEjemplo
                  {| authorization := Some "Bearer basura"; usuario := None |}
                  bdEjemplo) = Some 401
  /\ status_de (adminTest plataformaEjemplo envEjemplo entornoEjemplo
                  {| authorization := Some "Bearer secreto-de-prueba.9.+1";
                     usuario := None |} bdEjemplo) = Some 401
  /\ status_de (adminTest plataformaEjemplo envEjemplo entornoEjemplo
                  {| authorization := Some "Bearer secreto-de-prueba.0.+34600111222";
                     usuario := None |} bdEjemplo) = Some 403
  /\ status_de (adminTest plataformaEjemplo envEjemplo entornoEjemplo
                  {| authorization := Some "Bearer secreto-de-prueba.1.+34600000000";
                     usuario := None |} bdEjemplo) = Some 200.
Proof. vm_compute. repeat split. Qed.

Example escenario_split :
  split " "%char "Bearer abc def" = ["Bearer"; "abc"; "def"]
  /\ split " "%char "Bearer " = ["Bearer"; ""]
  /\ split " "%char "" = [""].
Proof. repeat split. Qed.

Example escenario_generadores :
  generarCodigo entornoEjemplo = "482913"
  /\ String.length (generarRefreshToken entornoEjemplo) = 80
  /\ substring 0 8 (generarRefreshToken entornoEjemplo) = "a1a8afb6".
Proof. vm_compute. repeat split. Qed.

Example escenario_ttl :
  codigos (expirarTTL 1199%N bdEjemplo) = codigos bdEjemplo
  /\ codigos (expirarTTL 1200%N bdEjemplo) = []
  /\ refreshTokens (expirarTTL 1200%N bdEjemplo) = refreshTokens bdEjemplo.
Proof. vm_compute. repeat split. Qed.
